(** * SugarHealthTracker: nutrition normalisation and daily aggregation

    A shallow embedding of [utils.py], [nutrition_api.py] and [database.py].

    - Python floats are IEEE 754 binary64 values, modelled with the
      Standard Library's [spec_float] at precision 53 and maximal exponent
      1024 (round to nearest, ties to even), so every rounding of the
      source is the rounding of the model.
    - Python ints are [Z].
    - Decoded JSON is the inductive [pyval]; a JSON object is a [gmap] from
      strings to values.
    - An exception is a [Raise] in the [result] monad; the [try]/[except]
      wrappers of the source turn it into [None] or [False].
    - The relational store is a record of tables, each a list of rows in
      insertion order, threaded explicitly through the operations. The
      database is taken to be reachable: the failures that remain are those
      the values handed over decide (an arithmetic exception, a number a
      column cannot hold, a comparison the backend refuses). *)

From Stdlib Require Import ZArith SpecFloat DecimalString Ascii.
From stdpp Require Import gmap strings list fin_maps sorting.

#[local] Set Warnings "-register-all".
#[local] Open Scope Z_scope.

(** ** Exceptions *)

Inductive exn :=
  | ZeroDivisionError
  | TypeError
  | AttributeError
  | OverflowError
  | DataError.

Inductive result (A : Type) :=
  | Ok (a : A)
  | Raise (e : exn).
Arguments Ok {A} a.
Arguments Raise {A} e.

#[global] Instance result_ret : MRet result := fun A a => Ok a.
#[global] Instance result_bind : MBind result := fun A B f m =>
  match m with
  | Ok a => f a
  | Raise e => Raise e
  end.

(** [try: body except Exception: return None] *)
Definition catch_none {A} (m : result A) : option A :=
  match m with
  | Ok a => Some a
  | Raise _ => None
  end.

(** ** binary64 *)

Module F64.
Definition prec : Z := 53.
Definition emax : Z := 1024.
Definition t := spec_float.

Definition of_Z (z : Z) : t := binary_normalize prec emax z 0 false.
Definition add : t -> t -> t := SFadd prec emax.
Definition mul : t -> t -> t := SFmul prec emax.
Definition div : t -> t -> t := SFdiv prec emax.
Definition eqb : t -> t -> bool := SFeqb.
Definition ltb : t -> t -> bool := SFltb.
Definition leb : t -> t -> bool := SFleb.

(** The float a decimal literal [n/d] denotes (for instance [10.6] is
    [decimal 106 10]): the quotient of two exactly representable integers,
    rounded once. *)
Definition decimal (n d : Z) : t := div (of_Z n) (of_Z d).

Definition zero : t := S754_zero false.

(** The quotient of two integers, rounded once (Python's [int / int]). *)
Definition div_Z (a b : Z) : t :=
  match a, b with
  | 0, _ => S754_zero (b <? 0)
  | _, 0 => S754_nan
  | _, _ =>
      div (S754_finite (a <? 0) (Z.to_pos (Z.abs a)) 0)
          (S754_finite (b <? 0) (Z.to_pos (Z.abs b)) 0)
  end.

Definition is_infinite (x : t) : bool :=
  match x with
  | S754_infinity _ => true
  | _ => false
  end.
End F64.

(** ** Python numbers *)

Inductive pynum :=
  | NInt (z : Z)
  | NFloat (f : F64.t).

(** [float(z)]: OverflowError when the integer is beyond the binary64 range. *)
Definition int_to_float (z : Z) : result F64.t :=
  let f := F64.of_Z z in
  if F64.is_infinite f then Raise OverflowError else Ok f.

Definition num_to_float (n : pynum) : result F64.t :=
  match n with
  | NInt z => int_to_float z
  | NFloat f => Ok f
  end.

(** [a / b] (true division). *)
Definition num_truediv (a b : pynum) : result F64.t :=
  match a, b with
  | NInt x, NInt y =>
      if y =? 0 then Raise ZeroDivisionError
      else
        let q := F64.div_Z x y in
        if F64.is_infinite q then Raise OverflowError else Ok q
  | _, _ =>
      x ← num_to_float a;
      y ← num_to_float b;
      if F64.eqb y F64.zero then Raise ZeroDivisionError
      else Ok (F64.div x y)
  end.

(** [a * b] *)
Definition num_mul (a b : pynum) : result pynum :=
  match a, b with
  | NInt x, NInt y => Ok (NInt (x * y))
  | _, _ =>
      x ← num_to_float a;
      y ← num_to_float b;
      Ok (NFloat (F64.mul x y))
  end.

(** [a + b] *)
Definition num_add (a b : pynum) : result pynum :=
  match a, b with
  | NInt x, NInt y => Ok (NInt (x + y))
  | _, _ =>
      x ← num_to_float a;
      y ← num_to_float b;
      Ok (NFloat (F64.add x y))
  end.

(** [a == z] for an int literal [z] that binary64 represents exactly. *)
Definition num_eq_int (a : pynum) (z : Z) : bool :=
  match a with
  | NInt x => x =? z
  | NFloat f => F64.eqb f (F64.of_Z z)
  end.

(** [a >= 0] *)
Definition num_nonneg (a : pynum) : bool :=
  match a with
  | NInt x => 0 <=? x
  | NFloat f => F64.leb F64.zero f
  end.

(** ** Python values, as [json] decodes them *)

Inductive pyval :=
  | PNone
  | PBool (b : bool)
  | PNum (n : pynum)
  | PStr (s : string)
  | PList (l : list pyval)
  | PDict (d : gmap string pyval).

Definition PInt (z : Z) : pyval := PNum (NInt z).
Definition PFloat (f : F64.t) : pyval := PNum (NFloat f).

(** [bool] is a subclass of [int]: [True] is 1 and [False] is 0. *)
Definition as_num (v : pyval) : option pynum :=
  match v with
  | PBool b => Some (NInt (if b then 1 else 0))
  | PNum n => Some n
  | _ => None
  end.

(** [bool(v)] *)
Definition py_truthy (v : pyval) : bool :=
  match v with
  | PNone => false
  | PBool b => b
  | PNum n => negb (num_eq_int n 0)
  | PStr s => negb (String.eqb s "")
  | PList l => match l with [] => false | _ => true end
  | PDict d => negb (bool_decide (d = ∅))
  end.

(** [a or b] *)
Definition py_or (a b : pyval) : pyval := if py_truthy a then a else b.

(** [v == z] for an int literal [z]. *)
Definition py_eq_int (v : pyval) (z : Z) : bool :=
  match as_num v with
  | Some n => num_eq_int n z
  | None => false
  end.

(** [v >= 0] is [True] *)
Definition py_nonneg_number (v : pyval) : bool :=
  match v with
  | PNum n => num_nonneg n
  | _ => false
  end.

Fixpoint string_repeat (n : nat) (s : string) : string :=
  match n with
  | O => ""
  | S n' => s +:+ string_repeat n' s
  end.

Fixpoint list_repeat {A} (n : nat) (l : list A) : list A :=
  match n with
  | O => []
  | S n' => l ++ list_repeat n' l
  end.

(** [a * b]: numbers multiply, a sequence times an int repeats. *)
Definition py_mul (a b : pyval) : result pyval :=
  match as_num a, as_num b with
  | Some x, Some y => n ← num_mul x y; Ok (PNum n)
  | _, _ =>
      match a, as_num b, as_num a, b with
      | PStr s, Some (NInt k), _, _ => Ok (PStr (string_repeat (Z.to_nat k) s))
      | PList l, Some (NInt k), _, _ => Ok (PList (list_repeat (Z.to_nat k) l))
      | _, _, Some (NInt k), PStr s => Ok (PStr (string_repeat (Z.to_nat k) s))
      | _, _, Some (NInt k), PList l => Ok (PList (list_repeat (Z.to_nat k) l))
      | _, _, _, _ => Raise TypeError
      end
  end.

(** [d.get(key, default)]; only a dict has [get]. *)
Definition py_get (v : pyval) (key : string) (dflt : pyval) : result pyval :=
  match v with
  | PDict d => Ok (default dflt (d !! key))
  | _ => Raise AttributeError
  end.

(** Iterating a value in a [for] loop: a list yields its items, a dict its
    keys, a string its characters; nothing else is iterable. *)
Fixpoint string_chars (s : string) : list pyval :=
  match s with
  | EmptyString => []
  | String c s' => PStr (String c EmptyString) :: string_chars s'
  end.

Definition py_iter (v : pyval) : result (list pyval) :=
  match v with
  | PList l => Ok l
  | PDict d => Ok (PStr <$> (map_to_list d).*1)
  | PStr s => Ok (string_chars s)
  | _ => Raise TypeError
  end.

(** ** Strings *)

(** [str.lower()] on the ASCII letters; the needles searched for below are
    ASCII, and no other character lowers to an ASCII letter next to which
    they could match. *)
Definition ascii_lower (c : Ascii.ascii) : Ascii.ascii :=
  let n := Ascii.N_of_ascii c in
  if ((65 <=? n) && (n <=? 90))%N then Ascii.ascii_of_N (n + 32) else c.

Fixpoint lower (s : string) : string :=
  match s with
  | EmptyString => EmptyString
  | String c s' => String (ascii_lower c) (lower s')
  end.

(** [needle in s] *)
Fixpoint contains (needle s : string) : bool :=
  if String.prefix needle s then true
  else
    match s with
    | EmptyString => false
    | String _ s' => contains needle s'
    end.

(** [s.split(sep)[0]]: everything before the first separator. *)
Fixpoint split_first (sep : Ascii.ascii) (s : string) : string :=
  match s with
  | EmptyString => EmptyString
  | String c s' =>
      if Ascii.eqb c sep then EmptyString else String c (split_first sep s')
  end.

(** [v.lower()]; only a string has [lower]. *)
Definition py_lower (v : pyval) : result string :=
  match v with
  | PStr s => Ok (lower s)
  | _ => Raise AttributeError
  end.

(** [v.split(',')[0]]; only a string has [split]. *)
Definition py_split_first (v : pyval) : result string :=
  match v with
  | PStr s => Ok (split_first ","%char s)
  | _ => Raise AttributeError
  end.

(** ** utils.py *)

Definition who_limit : F64.t := F64.of_Z 25.

(** [daily_limit] is [None] when the caller leaves the default [25.0]. *)
Definition calculate_daily_sugar_percentage
    (sugar_content : pynum) (daily_limit : option pynum) : result pynum :=
  let daily_limit := default (NFloat who_limit) daily_limit in
  q ← num_truediv sugar_content daily_limit;
  num_mul (NFloat q) (NInt 100).

(** ** nutrition_api.py *)

Module NutritionAPI.

(** The seven nutrient keys of the dict both normalisers build. *)
Inductive nutrient_key :=
  | sugar_g
  | calories
  | carbs_g
  | protein_g
  | fat_g
  | fiber_g
  | sodium_mg.

#[global] Instance nutrient_key_eq_dec : EqDecision nutrient_key.
Proof. solve_decision. Defined.

(** The [description] entry is either a value taken from the payload as
    it is, or the f-string [f"{brands} - {category}"], kept unformatted. *)
Inductive pytext :=
  | Verbatim (v : pyval)
  | BrandCategory (brands : pyval) (category : string).

(** The dict [food_info]: its eleven keys are fixed by the literal that
    creates it, so the nutrient entries are a total map on the keys. *)
Record food_info := {
  name : pyval;
  description : pytext;
  fdc_id : pyval;
  data_type : pyval;
  nutrient : nutrient_key -> pyval
}.

(** [food_info[k] = v] *)
Definition set (k : nutrient_key) (v : pyval) (fi : food_info) : food_info :=
  {| name := name fi;
     description := description fi;
     fdc_id := fdc_id fi;
     data_type := data_type fi;
     nutrient := fun k' => if decide (k' = k) then v else nutrient fi k' |}.

Definition set_description (d : pytext) (fi : food_info) : food_info :=
  {| name := name fi;
     description := d;
     fdc_id := fdc_id fi;
     data_type := data_type fi;
     nutrient := nutrient fi |}.

Definition no_nutrients : nutrient_key -> pyval := fun _ => PInt 0.

(** *** Provider B (OpenFoodFacts) *)

Definition extract_openfoodfacts_body (product_data : pyval) : result food_info :=
  product_name ← py_get product_data "product_name" (PStr "Unknown Product");
  brands0 ← py_get product_data "brands" (PStr "");
  code ← py_get product_data "code" (PStr "");
  let food_info :=
    {| name := product_name;
       description := Verbatim brands0;
       fdc_id := code;
       data_type := PStr "OpenFoodFacts";
       nutrient := no_nutrients |} in
  nutriments ← py_get product_data "nutriments" (PDict ∅);
  v ← py_get nutriments "sugars_100g" (PInt 0);
  let food_info := set sugar_g (py_or v (PInt 0)) food_info in
  v ← py_get nutriments "energy-kcal_100g" (PInt 0);
  let food_info := set calories (py_or v (PInt 0)) food_info in
  v ← py_get nutriments "carbohydrates_100g" (PInt 0);
  let food_info := set carbs_g (py_or v (PInt 0)) food_info in
  v ← py_get nutriments "proteins_100g" (PInt 0);
  let food_info := set protein_g (py_or v (PInt 0)) food_info in
  v ← py_get nutriments "fat_100g" (PInt 0);
  let food_info := set fat_g (py_or v (PInt 0)) food_info in
  v ← py_get nutriments "fiber_100g" (PInt 0);
  let food_info := set fiber_g (py_or v (PInt 0)) food_info in
  v ← py_get nutriments "sodium_100g" (PInt 0);
  mg ← py_mul (py_or v (PInt 0)) (PInt 1000);
  let food_info := set sodium_mg mg food_info in
  brands ← py_get product_data "brands" PNone;
  if py_truthy brands then
    categories ← py_get product_data "categories" PNone;
    category ←
      (if py_truthy categories then
         c ← py_get product_data "categories" (PStr "");
         py_split_first c
       else Ok EmptyString);
    Ok (set_description (BrandCategory brands category) food_info)
  else Ok food_info.

Definition _extract_openfoodfacts_data (product_data : pyval) : option food_info :=
  catch_none (extract_openfoodfacts_body product_data).

(** *** Provider A (USDA FoodData Central) *)

(** One turn of the loop over [foodNutrients]. *)
Definition nutrient_step (food_info : food_info) (nutrient_entry : pyval)
    : result NutritionAPI.food_info :=
  nutrient_id ← py_get nutrient_entry "nutrientId" PNone;
  raw_name ← py_get nutrient_entry "nutrientName" (PStr "");
  nutrient_name ← py_lower raw_name;
  amount ← py_get nutrient_entry "value" (PInt 0);
  let unset k := py_eq_int (nutrient food_info k) 0 in
  let has s := contains s nutrient_name in
  Ok (
    if py_eq_int nutrient_id 2000 then set sugar_g amount food_info
    else if py_eq_int nutrient_id 1008 then set calories amount food_info
    else if py_eq_int nutrient_id 1005 then set carbs_g amount food_info
    else if py_eq_int nutrient_id 1003 then set protein_g amount food_info
    else if py_eq_int nutrient_id 1004 then set fat_g amount food_info
    else if py_eq_int nutrient_id 1079 then set fiber_g amount food_info
    else if py_eq_int nutrient_id 1093 then set sodium_mg amount food_info
    else if has "sugar" && has "total" then
      if unset sugar_g then set sugar_g amount food_info else food_info
    else if has "energy" || has "calorie" then
      if unset calories then set calories amount food_info else food_info
    else if has "carbohydrate" && has "total" then
      if unset carbs_g then set carbs_g amount food_info else food_info
    else if has "protein" then
      if unset protein_g then set protein_g amount food_info else food_info
    else if has "fat" && (has "total" || has "lipid") then
      if unset fat_g then set fat_g amount food_info else food_info
    else if has "fiber" then
      if unset fiber_g then set fiber_g amount food_info else food_info
    else if has "sodium" then
      if unset sodium_mg then set sodium_mg amount food_info else food_info
    else food_info).

(** The [for] loop: the first exception leaves it. *)
Fixpoint nutrient_loop (food_info : food_info) (nutrients : list pyval)
    : result NutritionAPI.food_info :=
  match nutrients with
  | [] => Ok food_info
  | n :: rest =>
      food_info' ← nutrient_step food_info n;
      nutrient_loop food_info' rest
  end.

Definition extract_nutrition_body (food_data : pyval) : result food_info :=
  fd_description ← py_get food_data "description" (PStr "Unknown Food");
  additional ← py_get food_data "additionalDescriptions" (PStr "");
  fdcId ← py_get food_data "fdcId" PNone;
  dataType ← py_get food_data "dataType" (PStr "");
  let food_info :=
    {| name := fd_description;
       description := Verbatim additional;
       fdc_id := fdcId;
       data_type := dataType;
       nutrient := no_nutrients |} in
  nutrients ← py_get food_data "foodNutrients" (PList []);
  items ← py_iter nutrients;
  nutrient_loop food_info items.

Definition _extract_nutrition_data (food_data : pyval) : option food_info :=
  catch_none (extract_nutrition_body food_data).

End NutritionAPI.

(** ** database.py *)

Module Database.

(** *** Tables

    A [Float] column holds a binary64, a [String] or [Text] column a
    string, an [Integer] column an integer; [food_item_id] is nullable
    because [save_food_item] may hand back [None]. *)

Module FoodItem.
Record t := {
  id : Z;
  name : string;
  description : string;
  sugar_g : F64.t;
  calories : F64.t;
  carbs_g : F64.t;
  protein_g : F64.t;
  fat_g : F64.t;
  fiber_g : F64.t;
  sodium_mg : F64.t;
  data_source : string;
  external_id : string;
  created_at : Z
}.
End FoodItem.

Module DailyTracker.
Record t := {
  id : Z;
  user_id : Z;
  food_item_id : option Z;
  food_name : string;
  portion_g : F64.t;
  sugar_g : F64.t;
  calories : F64.t;
  consumed_at : Z;
  date : string
}.
End DailyTracker.

Module SugarInsight.
Record t := {
  id : Z;
  user_id : Z;
  date : string;
  total_sugar_g : F64.t;
  total_calories : F64.t;
  food_count : Z;
  exceeded_limit : bool;
  created_at : Z
}.
End SugarInsight.

(** *** The food dict handed to the store

    The store is modelled on well-typed food dicts: every key present, the
    name and texts strings, the seven nutrient values numbers (int or
    float), the external identifier an int (FDC id), a string (barcode) or
    [None]. *)

Inductive ext_id :=
  | IdNone
  | IdInt (z : Z)
  | IdStr (s : string).

Record food_data := {
  name : string;
  description : string;
  fdc_id : ext_id;
  data_type : string;
  sugar_g : pynum;
  calories : pynum;
  carbs_g : pynum;
  protein_g : pynum;
  fat_g : pynum;
  fiber_g : pynum;
  sodium_mg : pynum
}.

Module FavoriteFood.
(** [food_data] is the JSON text of the dict; the row keeps the dict it
    serialises. *)
Record t := {
  id : Z;
  user_id : Z;
  food_item_id : option Z;
  food_name : string;
  sugar_g : F64.t;
  calories : F64.t;
  food_data : Database.food_data;
  added_at : Z
}.
End FavoriteFood.

(** Each table with the next value of its primary-key sequence. *)
Record db := {
  food_items : list FoodItem.t;
  food_items_seq : Z;
  daily_tracker : list DailyTracker.t;
  daily_tracker_seq : Z;
  favorite_foods : list FavoriteFood.t;
  favorite_foods_seq : Z;
  sugar_insights : list SugarInsight.t;
  sugar_insights_seq : Z
}.

Definition empty_db : db :=
  {| food_items := []; food_items_seq := 1;
     daily_tracker := []; daily_tracker_seq := 1;
     favorite_foods := []; favorite_foods_seq := 1;
     sugar_insights := []; sugar_insights_seq := 1 |}.

(** What the two clock calls of the source read:
    [datetime.now().strftime('%Y-%m-%d')] and [datetime.utcnow()]. *)
Record clock := {
  today : string;
  utcnow : Z
}.

(** [str(fdc_id)] *)
Definition ext_id_str (e : ext_id) : string :=
  match e with
  | IdNone => "None"
  | IdInt z => NilZero.string_of_int (Z.to_int z)
  | IdStr s => s
  end.

(** Storing a Python number in a [Float] column: an int is converted,
    and one beyond the binary64 range is refused. *)
Definition float_column (n : pynum) : result F64.t := num_to_float n.

(** [sum(xs)] over floats: [0 + x1 + ... + xn] from left to right, the int
    [0] converted at the first addition. (From CPython 3.12 on, [sum] carries
    a compensation term over floats; it gives the same float on lists of up
    to two items, and no statement below depends on the rounding of a longer
    sum.) *)
Definition py_sum (xs : list F64.t) : F64.t :=
  fold_left F64.add xs (F64.of_Z 0).

Section Backend.
(** How the backend compares a text column with an integer parameter
    ([external_id == 169655]): [None] when it refuses the query, as a
    strictly typed backend does, otherwise its comparison. *)
Variable text_eq_int : option (string -> Z -> bool).

(** [FoodItem.external_id == food_data.get('fdc_id', '')]; comparing
    with [None] is [IS NULL], and the column is never null. *)
Definition external_id_filter (e : ext_id) : result (string -> bool) :=
  match e with
  | IdNone => Ok (fun _ => false)
  | IdStr s => Ok (fun col => String.eqb col s)
  | IdInt z =>
      match text_eq_int with
      | Some cmp => Ok (fun col => cmp col z)
      | None => Raise DataError
      end
  end.

Definition save_food_item_body (food_data : food_data) (clk : clock) (d : db)
    : result (db * Z) :=
  same_id ← external_id_filter (fdc_id food_data);
  let existing_food :=
    head (filter (fun r => FoodItem.name r = name food_data
                           ∧ same_id (FoodItem.external_id r) = true)
                 (food_items d)) in
  match existing_food with
  | Some r => Ok (d, FoodItem.id r)
  | None =>
      s ← float_column (sugar_g food_data);
      c ← float_column (calories food_data);
      cb ← float_column (carbs_g food_data);
      p ← float_column (protein_g food_data);
      f ← float_column (fat_g food_data);
      fb ← float_column (fiber_g food_data);
      na ← float_column (sodium_mg food_data);
      let food_item :=
        {| FoodItem.id := food_items_seq d;
           FoodItem.name := name food_data;
           FoodItem.description := description food_data;
           FoodItem.sugar_g := s;
           FoodItem.calories := c;
           FoodItem.carbs_g := cb;
           FoodItem.protein_g := p;
           FoodItem.fat_g := f;
           FoodItem.fiber_g := fb;
           FoodItem.sodium_mg := na;
           FoodItem.data_source := data_type food_data;
           FoodItem.external_id := ext_id_str (fdc_id food_data);
           FoodItem.created_at := utcnow clk |} in
      Ok ({| food_items := food_items d ++ [food_item];
             food_items_seq := food_items_seq d + 1;
             daily_tracker := daily_tracker d;
             daily_tracker_seq := daily_tracker_seq d;
             favorite_foods := favorite_foods d;
             favorite_foods_seq := favorite_foods_seq d;
             sugar_insights := sugar_insights d;
             sugar_insights_seq := sugar_insights_seq d |},
          food_items_seq d)
  end.

Definition save_food_item (food_data : food_data) (clk : clock) (d : db)
    : db * option Z :=
  match save_food_item_body food_data clk d with
  | Ok (d', food_id) => (d', Some food_id)
  | Raise _ => (d, None)
  end.

Definition add_tracker_entry_body (food_data : food_data) (portion_g : pynum)
    (user_id : Z) (food_id : option Z) (clk : clock) (d : db) : result db :=
  q ← num_truediv (sugar_g food_data) (NInt 100);
  actual_sugar ← num_mul (NFloat q) portion_g;
  q ← num_truediv (calories food_data) (NInt 100);
  actual_calories ← num_mul (NFloat q) portion_g;
  portion ← float_column portion_g;
  sugar ← float_column actual_sugar;
  cal ← float_column actual_calories;
  let tracker_entry :=
    {| DailyTracker.id := daily_tracker_seq d;
       DailyTracker.user_id := user_id;
       DailyTracker.food_item_id := food_id;
       DailyTracker.food_name := name food_data;
       DailyTracker.portion_g := portion;
       DailyTracker.sugar_g := sugar;
       DailyTracker.calories := cal;
       DailyTracker.consumed_at := utcnow clk;
       DailyTracker.date := today clk |} in
  Ok {| food_items := food_items d;
        food_items_seq := food_items_seq d;
        daily_tracker := daily_tracker d ++ [tracker_entry];
        daily_tracker_seq := daily_tracker_seq d + 1;
        favorite_foods := favorite_foods d;
        favorite_foods_seq := favorite_foods_seq d;
        sugar_insights := sugar_insights d;
        sugar_insights_seq := sugar_insights_seq d |}.

(** The food item is saved in a session of its own before the entry is
    computed, so it stays when the entry fails. *)
Definition add_to_daily_tracker (food_data : food_data) (portion_g : pynum)
    (user_id : Z) (clk : clock) (d : db) : db * bool :=
  let '(d1, food_id) := save_food_item food_data clk d in
  match add_tracker_entry_body food_data portion_g user_id food_id clk d1 with
  | Ok d2 => (d2, true)
  | Raise _ => (d1, false)
  end.

Definition add_favorite_body (food_data : food_data) (user_id : Z)
    (food_id : option Z) (clk : clock) (d : db) : result db :=
  s ← float_column (sugar_g food_data);
  c ← float_column (calories food_data);
  let favorite :=
    {| FavoriteFood.id := favorite_foods_seq d;
       FavoriteFood.user_id := user_id;
       FavoriteFood.food_item_id := food_id;
       FavoriteFood.food_name := name food_data;
       FavoriteFood.sugar_g := s;
       FavoriteFood.calories := c;
       FavoriteFood.food_data := food_data;
       FavoriteFood.added_at := utcnow clk |} in
  Ok {| food_items := food_items d;
        food_items_seq := food_items_seq d;
        daily_tracker := daily_tracker d;
        daily_tracker_seq := daily_tracker_seq d;
        favorite_foods := favorite_foods d ++ [favorite];
        favorite_foods_seq := favorite_foods_seq d + 1;
        sugar_insights := sugar_insights d;
        sugar_insights_seq := sugar_insights_seq d |}.

Definition add_to_favorites (food_data : food_data) (user_id : Z)
    (clk : clock) (d : db) : db * bool :=
  let existing :=
    head (filter (fun r => FavoriteFood.user_id r = user_id
                           ∧ FavoriteFood.food_name r = name food_data)
                 (favorite_foods d)) in
  match existing with
  | Some _ => (d, false)
  | None =>
      let '(d1, food_id) := save_food_item food_data clk d in
      match add_favorite_body food_data user_id food_id clk d1 with
      | Ok d2 => (d2, true)
      | Raise _ => (d1, false)
      end
  end.
End Backend.

(** The rows [filter(user_id == ..., date == ...)] selects. *)
Definition tracker_entries (user_id : Z) (date : string) (d : db)
    : list DailyTracker.t :=
  filter (fun e => DailyTracker.user_id e = user_id ∧ DailyTracker.date e = date)
         (daily_tracker d).

Definition insight_rows (user_id : Z) (date : string) (d : db)
    : list SugarInsight.t :=
  filter (fun r => SugarInsight.user_id r = user_id ∧ SugarInsight.date r = date)
         (sugar_insights d).

Definition set_daily_tracker (rows : list DailyTracker.t) (d : db) : db :=
  {| food_items := food_items d;
     food_items_seq := food_items_seq d;
     daily_tracker := rows;
     daily_tracker_seq := daily_tracker_seq d;
     favorite_foods := favorite_foods d;
     favorite_foods_seq := favorite_foods_seq d;
     sugar_insights := sugar_insights d;
     sugar_insights_seq := sugar_insights_seq d |}.

Definition set_favorite_foods (rows : list FavoriteFood.t) (d : db) : db :=
  {| food_items := food_items d;
     food_items_seq := food_items_seq d;
     daily_tracker := daily_tracker d;
     daily_tracker_seq := daily_tracker_seq d;
     favorite_foods := rows;
     favorite_foods_seq := favorite_foods_seq d;
     sugar_insights := sugar_insights d;
     sugar_insights_seq := sugar_insights_seq d |}.

Definition remove_from_daily_tracker (entry_id : Z) (d : db) : db * bool :=
  match head (filter (fun e => DailyTracker.id e = entry_id) (daily_tracker d)) with
  | Some entry =>
      (set_daily_tracker
         (filter (fun e => DailyTracker.id e ≠ DailyTracker.id entry) (daily_tracker d)) d,
       true)
  | None => (d, false)
  end.

Definition clear_daily_tracker (date : option string) (user_id : Z)
    (clk : clock) (d : db) : db * bool :=
  let date := default (today clk) date in
  (set_daily_tracker
     (filter (fun e => ¬ (DailyTracker.user_id e = user_id ∧ DailyTracker.date e = date))
             (daily_tracker d)) d,
   true).

Definition remove_from_favorites (favorite_id : Z) (d : db) : db * bool :=
  match head (filter (fun r => FavoriteFood.id r = favorite_id) (favorite_foods d)) with
  | Some favorite =>
      (set_favorite_foods
         (filter (fun r => FavoriteFood.id r ≠ FavoriteFood.id favorite) (favorite_foods d)) d,
       true)
  | None => (d, false)
  end.

Definition clear_favorites (user_id : Z) (d : db) : db * bool :=
  (set_favorite_foods
     (filter (fun r => FavoriteFood.user_id r ≠ user_id) (favorite_foods d)) d,
   true).

(** The ORM writes the four assigned attributes to the row with the
    primary key of [existing]. *)
Definition update_insight (existing : SugarInsight.t)
    (total_sugar total_calories : F64.t) (food_count : Z) (exceeded_limit : bool)
    (r : SugarInsight.t) : SugarInsight.t :=
  if decide (SugarInsight.id r = SugarInsight.id existing) then
    {| SugarInsight.id := SugarInsight.id r;
       SugarInsight.user_id := SugarInsight.user_id r;
       SugarInsight.date := SugarInsight.date r;
       SugarInsight.total_sugar_g := total_sugar;
       SugarInsight.total_calories := total_calories;
       SugarInsight.food_count := food_count;
       SugarInsight.exceeded_limit := exceeded_limit;
       SugarInsight.created_at := SugarInsight.created_at r |}
  else r.

Definition save_daily_insight (date : option string) (user_id : Z)
    (clk : clock) (d : db) : db * bool :=
  let date := default (today clk) date in
  let entries := tracker_entries user_id date d in
  match entries with
  | [] => (d, false)
  | _ =>
      let total_sugar := py_sum (DailyTracker.sugar_g <$> entries) in
      let total_calories := py_sum (DailyTracker.calories <$> entries) in
      let food_count := Z.of_nat (length entries) in
      let exceeded_limit := F64.ltb who_limit total_sugar in
      match head (insight_rows user_id date d) with
      | Some existing =>
          ({| food_items := food_items d;
              food_items_seq := food_items_seq d;
              daily_tracker := daily_tracker d;
              daily_tracker_seq := daily_tracker_seq d;
              favorite_foods := favorite_foods d;
              favorite_foods_seq := favorite_foods_seq d;
              sugar_insights :=
                update_insight existing total_sugar total_calories
                               food_count exceeded_limit <$> sugar_insights d;
              sugar_insights_seq := sugar_insights_seq d |},
           true)
      | None =>
          let insight :=
            {| SugarInsight.id := sugar_insights_seq d;
               SugarInsight.user_id := user_id;
               SugarInsight.date := date;
               SugarInsight.total_sugar_g := total_sugar;
               SugarInsight.total_calories := total_calories;
               SugarInsight.food_count := food_count;
               SugarInsight.exceeded_limit := exceeded_limit;
               SugarInsight.created_at := utcnow clk |} in
          ({| food_items := food_items d;
              food_items_seq := food_items_seq d;
              daily_tracker := daily_tracker d;
              daily_tracker_seq := daily_tracker_seq d;
              favorite_foods := favorite_foods d;
              favorite_foods_seq := favorite_foods_seq d;
              sugar_insights := sugar_insights d ++ [insight];
              sugar_insights_seq := sugar_insights_seq d + 1 |},
           true)
      end
  end.

(** The dict [get_weekly_insights] returns for a row. *)
Record insight_summary := {
  s_date : string;
  s_total_sugar_g : F64.t;
  s_total_calories : F64.t;
  s_food_count : Z;
  s_exceeded_limit : bool
}.

Definition summary_of (r : SugarInsight.t) : insight_summary :=
  {| s_date := SugarInsight.date r;
     s_total_sugar_g := SugarInsight.total_sugar_g r;
     s_total_calories := SugarInsight.total_calories r;
     s_food_count := SugarInsight.food_count r;
     s_exceeded_limit := SugarInsight.exceeded_limit r |}.

(** [order_by(SugarInsight.date.desc())]: a row comes before the rows
    whose date is not later, dates compared as strings. *)
Definition date_desc (r1 r2 : SugarInsight.t) : Prop :=
  String.leb (SugarInsight.date r2) (SugarInsight.date r1) = true.

#[global] Instance date_desc_dec r1 r2 : Decision (date_desc r1 r2) :=
  decide (String.leb (SugarInsight.date r2) (SugarInsight.date r1) = true).

(** [days] is the [limit]; a negative one is outside the model. *)
Definition get_weekly_insights (user_id : Z) (days : nat) (d : db)
    : list insight_summary :=
  summary_of <$>
    take days
      (merge_sort date_desc
         (filter (fun r => SugarInsight.user_id r = user_id) (sugar_insights d))).

End Database.

(** * Vocabulary of the statements *)

(** ** Provider B payloads *)

(** The key of the [nutriments] dict each nutrient is read from. *)
Definition off_key (k : NutritionAPI.nutrient_key) : string :=
  match k with
  | NutritionAPI.sugar_g => "sugars_100g"
  | NutritionAPI.calories => "energy-kcal_100g"
  | NutritionAPI.carbs_g => "carbohydrates_100g"
  | NutritionAPI.protein_g => "proteins_100g"
  | NutritionAPI.fat_g => "fat_100g"
  | NutritionAPI.fiber_g => "fiber_100g"
  | NutritionAPI.sodium_mg => "sodium_100g"
  end.

(** The key is missing from the dict, or maps to [null]. *)
Definition absent_or_null (d : gmap string pyval) (key : string) : Prop :=
  d !! key = None \/ d !! key = Some PNone.

(** Missing, [null] or a JSON number. *)
Definition number_or_missing (o : option pyval) : Prop :=
  match o with
  | None | Some PNone | Some (PNum _) => True
  | _ => False
  end.

(** When both [brands] and [categories] are truthy, [categories] is a
    string, so that [split] exists. *)
Definition description_well_formed (product : gmap string pyval) : Prop :=
  py_truthy (default PNone (product !! "brands")) = true ->
  py_truthy (default PNone (product !! "categories")) = true ->
  exists s, product !! "categories" = Some (PStr s).

(** The product of the sample: only a name and [sodium_100g = 0.4]. *)
Definition sodium_sample_nutriments : gmap string pyval :=
  {[ "sodium_100g" := PFloat (F64.decimal 4 10) ]}.

Definition sodium_sample : gmap string pyval :=
  {[ "product_name" := PStr "Crackers";
     "nutriments" := PDict sodium_sample_nutriments ]}.

(** ** Provider A payloads *)

Module ProviderA.
Import NutritionAPI.

(** The USDA nutrient number the loop maps to each key. *)
Definition table_id (k : nutrient_key) : Z :=
  match k with
  | sugar_g => 2000
  | calories => 1008
  | carbs_g => 1005
  | protein_g => 1003
  | fat_g => 1004
  | fiber_g => 1079
  | sodium_mg => 1093
  end.

(** The test on the lower-cased nutrient name that stands for each key. *)
Definition name_rule (k : nutrient_key) (nm : string) : bool :=
  match k with
  | sugar_g => contains "sugar" nm && contains "total" nm
  | calories => contains "energy" nm || contains "calorie" nm
  | carbs_g => contains "carbohydrate" nm && contains "total" nm
  | protein_g => contains "protein" nm
  | fat_g => contains "fat" nm && (contains "total" nm || contains "lipid" nm)
  | fiber_g => contains "fiber" nm
  | sodium_mg => contains "sodium" nm
  end.

Definition keys : list nutrient_key :=
  [sugar_g; calories; carbs_g; protein_g; fat_g; fiber_g; sodium_mg].

(** The keys whose name test is tried before that of [k]. *)
Definition earlier (k : nutrient_key) : list nutrient_key :=
  match k with
  | sugar_g => []
  | calories => [sugar_g]
  | carbs_g => [sugar_g; calories]
  | protein_g => [sugar_g; calories; carbs_g]
  | fat_g => [sugar_g; calories; carbs_g; protein_g]
  | fiber_g => [sugar_g; calories; carbs_g; protein_g; fat_g]
  | sodium_mg => [sugar_g; calories; carbs_g; protein_g; fat_g; fiber_g]
  end.

Definition entry_id (e : gmap string pyval) : pyval :=
  default PNone (e !! "nutrientId").

Definition entry_value (e : gmap string pyval) : pyval :=
  default (PInt 0) (e !! "value").

(** The nutrient name is a string, or is left out. *)
Definition entry_ok (e : gmap string pyval) : Prop :=
  exists s, default (PStr "") (e !! "nutrientName") = PStr s.

(** The lower-cased nutrient name. *)
Definition entry_name (e : gmap string pyval) : string :=
  match default (PStr "") (e !! "nutrientName") with
  | PStr s => lower s
  | _ => ""
  end.

(** The entry carries the nutrient number of [k]. *)
Definition has_id (k : nutrient_key) (e : gmap string pyval) : bool :=
  py_eq_int (entry_id e) (table_id k).

(** The entry carries one of the seven nutrient numbers. *)
Definition in_id_table (e : gmap string pyval) : bool :=
  existsb (fun k => has_id k e) keys.

(** The entry reaches the name test of [k] and passes it: it has none of
    the seven numbers and fails the tests tried earlier. *)
Definition by_name (k : nutrient_key) (e : gmap string pyval) : bool :=
  negb (in_id_table e)
  && forallb (fun k' => negb (name_rule k' (entry_name e))) (earlier k)
  && name_rule k (entry_name e).

(** The value is not [== 0]. *)
Definition nonzero (v : pyval) : bool := negb (py_eq_int v 0).

(** What one entry does to the field [k] holding [cur]. *)
Definition field_step (k : nutrient_key) (cur : pyval) (e : gmap string pyval)
    : pyval :=
  if has_id k e then entry_value e
  else if by_name k e then (if py_eq_int cur 0 then entry_value e else cur)
  else cur.

(** A payload whose [foodNutrients] is the list of the dicts [entries]. *)
Definition payload_of (food_data : gmap string pyval)
    (entries : list (gmap string pyval)) : Prop :=
  default (PList []) (food_data !! "foodNutrients") = PList (PDict <$> entries).

(** The first entry matched by name for [k] whose value is not zero. *)
Definition first_named (k : nutrient_key) (entries : list (gmap string pyval))
    : option (gmap string pyval) :=
  head (filter (fun e => by_name k e = true ∧ nonzero (entry_value e) = true) entries).

Definition mk_entry (id : Z) (nm : string) (v : pyval) : gmap string pyval :=
  {[ "nutrientId" := PInt id; "nutrientName" := PStr nm; "value" := v ]}.

Definition mk_food (entries : list (gmap string pyval)) : gmap string pyval :=
  {[ "description" := PStr "Cola"; "fdcId" := PInt 174852;
     "dataType" := PStr "SR Legacy";
     "foodNutrients" := PList (PDict <$> entries) ]}.

(** The two samples of the spec. *)
Definition sample_by_id : list (gmap string pyval) :=
  [mk_entry 1008 "Energy" (PInt 42);
   mk_entry 2000 "Sugars" (PFloat (F64.decimal 125 10))].

Definition sample_by_name : list (gmap string pyval) :=
  [mk_entry 1008 "Energy" (PInt 42);
   mk_entry 1063 "Total Sugars" (PFloat (F64.of_Z 8))].

(** A zero under number 2000, then a name match of another number. *)
Definition zero_then_named : list (gmap string pyval) :=
  [mk_entry 2000 "Total Sugars" (PInt 0);
   mk_entry 1063 "Sugars, Total" (PFloat (F64.of_Z 8))].

(** No number 2000, and the first name match holds a zero. *)
Definition named_zero_first : list (gmap string pyval) :=
  [mk_entry 1063 "Sugars, Total" (PInt 0);
   mk_entry 269 "Total sugars" (PFloat (F64.of_Z 5))].

End ProviderA.

(** ** Non-negative source values *)

(** Missing, [null], or a number that is [>= 0]. *)
Definition nonneg_or_missing (o : option pyval) : Prop :=
  match o with
  | None | Some PNone => True
  | Some v => py_nonneg_number v = true
  end.

(** A product and a food with a negative sugar value. *)
Definition negative_product : gmap string pyval :=
  {[ "product_name" := PStr "Syrup";
     "nutriments" := PDict {[ "sugars_100g" := PInt (-1) ]} ]}.

Definition negative_food : gmap string pyval :=
  ProviderA.mk_food [ProviderA.mk_entry 2000 "Total Sugars" (PInt (-1))].

(** ** Stores *)

Module Store.
Import Database.

(** The key of an aggregate row. *)
Definition insight_key (r : SugarInsight.t) : Z * string :=
  (SugarInsight.user_id r, SugarInsight.date r).

(** What an update in place leaves alone. *)
Definition insight_identity (r : SugarInsight.t) : Z * Z * string * Z :=
  (SugarInsight.id r, SugarInsight.user_id r, SugarInsight.date r,
   SugarInsight.created_at r).

(** At most one aggregate row per [(user_id, date)], and the primary-key
    sequence of the table is ahead of every row. *)
Definition insights_ok (d : db) : Prop :=
  NoDup (insight_key <$> sugar_insights d)
  /\ Forall (fun r => SugarInsight.id r < sugar_insights_seq d) (sugar_insights d).

(** The favorites of a user under a food name. *)
Definition favorites_named (user_id : Z) (food_name : string) (d : db)
    : list FavoriteFood.t :=
  filter (fun r => FavoriteFood.user_id r = user_id
                   ∧ FavoriteFood.food_name r = food_name)
         (favorite_foods d).

(** [n / 100] does not overflow: any float, and any int short of the
    binary64 range. *)
Definition scalable (n : pynum) : Prop :=
  match n with
  | NFloat _ => True
  | NInt z => F64.is_infinite (F64.div_Z z 100) = false
  end.

(** The calls that write to the store, each with the clock it reads. *)
Inductive call :=
  | Track (food_data : food_data) (portion_g : pynum) (user_id : Z)
  | Untrack (entry_id : Z)
  | ClearDay (date : option string) (user_id : Z)
  | Favorite (food_data : food_data) (user_id : Z)
  | Unfavorite (favorite_id : Z)
  | ClearFavorites (user_id : Z)
  | Recompute (date : option string) (user_id : Z).

Definition run_call (text_eq_int : option (string -> Z -> bool))
    (d : db) (c : clock * call) : db :=
  let clk := c.1 in
  match c.2 with
  | Track fd portion_g user_id =>
      (add_to_daily_tracker text_eq_int fd portion_g user_id clk d).1
  | Untrack entry_id => (remove_from_daily_tracker entry_id d).1
  | ClearDay date user_id => (clear_daily_tracker date user_id clk d).1
  | Favorite fd user_id => (add_to_favorites text_eq_int fd user_id clk d).1
  | Unfavorite favorite_id => (remove_from_favorites favorite_id d).1
  | ClearFavorites user_id => (clear_favorites user_id d).1
  | Recompute date user_id => (save_daily_insight date user_id clk d).1
  end.

Definition run (text_eq_int : option (string -> Z -> bool))
    (calls : list (clock * call)) (d : db) : db :=
  fold_left (run_call text_eq_int) calls d.

(** The food of the end-to-end sample: 10.6 g of sugar per 100 g. *)
Definition coca_cola : food_data :=
  {| name := "Coca Cola";
     description := "";
     fdc_id := IdInt 174852;
     data_type := "SR Legacy";
     sugar_g := NFloat (F64.decimal 106 10);
     calories := NInt 42;
     carbs_g := NFloat (F64.decimal 106 10);
     protein_g := NInt 0;
     fat_g := NInt 0;
     fiber_g := NInt 0;
     sodium_mg := NInt 4 |}.

Definition apple : food_data :=
  {| name := "Apple";
     description := "";
     fdc_id := IdStr "0000000000017";
     data_type := "OpenFoodFacts";
     sugar_g := NFloat (F64.decimal 104 10);
     calories := NInt 52;
     carbs_g := NFloat (F64.decimal 138 10);
     protein_g := NFloat (F64.decimal 3 10);
     fat_g := NFloat (F64.decimal 2 10);
     fiber_g := NFloat (F64.decimal 24 10);
     sodium_mg := NInt 1 |}.

Definition monday : clock := {| today := "2024-03-04"; utcnow := 1709550000 |}.
Definition monday_later : clock := {| today := "2024-03-04"; utcnow := 1709553600 |}.

(** A backend that compares a text column with an int by its decimal text. *)
Definition lenient : option (string -> Z -> bool) :=
  Some (fun col z => String.eqb col (NilZero.string_of_int (Z.to_int z))).

(** The store after tracking 250 g of the sample food on an empty store. *)
Definition tracked_cola : db :=
  (add_to_daily_tracker lenient coca_cola (NInt 250) 1 monday empty_db).1.

(** Three days of history for user 1, and a row of another user. *)
Definition insight_on (id : Z) (user_id : Z) (date : string) (total : Z)
    : SugarInsight.t :=
  {| SugarInsight.id := id;
     SugarInsight.user_id := user_id;
     SugarInsight.date := date;
     SugarInsight.total_sugar_g := F64.of_Z total;
     SugarInsight.total_calories := F64.of_Z 100;
     SugarInsight.food_count := 1;
     SugarInsight.exceeded_limit := F64.ltb who_limit (F64.of_Z total);
     SugarInsight.created_at := 0 |}.

Definition three_days : db :=
  {| food_items := []; food_items_seq := 1;
     daily_tracker := []; daily_tracker_seq := 1;
     favorite_foods := []; favorite_foods_seq := 1;
     sugar_insights :=
       [insight_on 1 1 "2024-03-02" 30; insight_on 2 2 "2024-03-03" 10;
        insight_on 3 1 "2024-03-04" 12; insight_on 4 1 "2024-03-01" 26];
     sugar_insights_seq := 5 |}.

End Store.

(** ** Frames and orders used in the statements *)

(** What [save_food_item] leaves alone: every table but [food_items]. *)
Definition same_but_food_items (d d' : Database.db) : Prop :=
  Database.daily_tracker d' = Database.daily_tracker d
  /\ Database.daily_tracker_seq d' = Database.daily_tracker_seq d
  /\ Database.favorite_foods d' = Database.favorite_foods d
  /\ Database.favorite_foods_seq d' = Database.favorite_foods_seq d
  /\ Database.sugar_insights d' = Database.sugar_insights d
  /\ Database.sugar_insights_seq d' = Database.sugar_insights_seq d.

(** The returned dicts, newest date first. *)
Definition newest_first (s1 s2 : Database.insight_summary) : Prop :=
  String.leb (Database.s_date s2) (Database.s_date s1) = true.

(** The sample food under another barcode: same name, new food item. *)
Definition apple_other_barcode : Database.food_data :=
  {| Database.name := "Apple";
     Database.description := "";
     Database.fdc_id := Database.IdStr "0000000000024";
     Database.data_type := "OpenFoodFacts";
     Database.sugar_g := NFloat (F64.decimal 104 10);
     Database.calories := NInt 52;
     Database.carbs_g := NFloat (F64.decimal 138 10);
     Database.protein_g := NFloat (F64.decimal 3 10);
     Database.fat_g := NFloat (F64.decimal 2 10);
     Database.fiber_g := NFloat (F64.decimal 24 10);
     Database.sodium_mg := NInt 1 |}.

(** The store after user 1 saved the sample food as a favorite. *)
Definition apple_saved : Database.db :=
  (Database.add_to_favorites Store.lenient Store.apple 1 Store.monday
     Database.empty_db).1.

(** The store after tracking the sample food and recomputing the day. *)
Definition cola_recomputed : Database.db :=
  (Database.save_daily_insight None 1 Store.monday Store.tracked_cola).1.

(** * The rest of the code *)

(** ** utils.py, continued *)

(** [a <= b] and [a > b] for a float literal [b] with an integer value: an
    int compares exactly, a float as binary64 (a NaN is neither). *)
Definition num_le_int (a : pynum) (b : Z) : bool :=
  match a with
  | NInt x => x <=? b
  | NFloat f => F64.leb f (F64.of_Z b)
  end.

Definition num_gt_int (a : pynum) (b : Z) : bool :=
  match a with
  | NInt x => b <? x
  | NFloat f => F64.ltb (F64.of_Z b) f
  end.

Definition sugar_to_teaspoons (sugar_grams : pynum) : result F64.t :=
  num_truediv sugar_grams (NFloat (F64.of_Z 4)).

Definition teaspoons_to_sugar (teaspoons : pynum) : result pynum :=
  num_mul teaspoons (NFloat (F64.of_Z 4)).

(** [(warning_level, warning_text, color)] *)
Definition get_health_warning_color (sugar_content : pynum)
    : string * string * string :=
  if num_le_int sugar_content 5 then
    ("LOW SUGAR",
     "This food is low in sugar and is a good choice for a healthy diet.",
     "green")
  else if num_le_int sugar_content 15 then
    ("MODERATE SUGAR",
     "This food contains moderate amounts of sugar. Consume in moderation.",
     "yellow")
  else
    ("HIGH SUGAR",
     "This food is high in sugar. Consider limiting your consumption.",
     "red").

Definition get_sugar_health_tips (sugar_content : pynum) : list string :=
  let tips := [] in
  if num_le_int sugar_content 5 then
    tips ++ ["Great choice! This food is naturally low in sugar.";
             "You can enjoy this as part of a balanced diet.";
             "Consider pairing with protein for sustained energy."]
  else if num_le_int sugar_content 15 then
    tips ++ ["Moderate sugar content - enjoy in reasonable portions.";
             "Consider the timing of consumption (e.g., before exercise).";
             "Balance with low-sugar foods throughout the day."]
  else
    tips ++ ["High sugar content - consider limiting portion size.";
             "Try to consume with fiber-rich foods to slow absorption.";
             "Consider this as an occasional treat rather than daily food.";
             "Look for lower-sugar alternatives when possible."].

(** The dict [calculate_sugar_impact_score] returns. *)
Record impact := {
  actual_sugar_g : pynum;
  teaspoons : F64.t;
  who_daily_percentage : pynum;
  ada_male_percentage : pynum;
  ada_female_percentage : pynum;
  impact_level : string;
  impact_score : Z;
  portion_size : pynum
}.

(** [portion_size] is [None] when the caller leaves the default [100.0]. *)
Definition calculate_sugar_impact_score
    (sugar_content : pynum) (portion_size : option pynum) : result impact :=
  let portion_size := default (NFloat (F64.of_Z 100)) portion_size in
  q ← num_truediv sugar_content (NInt 100);
  actual_sugar ← num_mul (NFloat q) portion_size;
  teaspoons ← sugar_to_teaspoons actual_sugar;
  who_percentage ←
    calculate_daily_sugar_percentage actual_sugar (Some (NFloat (F64.of_Z 25)));
  ada_male_percentage ←
    calculate_daily_sugar_percentage actual_sugar (Some (NFloat (F64.of_Z 36)));
  ada_female_percentage ←
    calculate_daily_sugar_percentage actual_sugar (Some (NFloat (F64.of_Z 25)));
  let '(impact_level, impact_score) :=
    if num_le_int actual_sugar 5 then ("Low Impact", 1)
    else if num_le_int actual_sugar 10 then ("Moderate Impact", 2)
    else if num_le_int actual_sugar 20 then ("High Impact", 3)
    else ("Very High Impact", 4) in
  Ok {| actual_sugar_g := actual_sugar;
        teaspoons := teaspoons;
        who_daily_percentage := who_percentage;
        ada_male_percentage := ada_male_percentage;
        ada_female_percentage := ada_female_percentage;
        impact_level := impact_level;
        impact_score := impact_score;
        portion_size := portion_size |}.

(** The order of the three colours, mildest first. *)
Definition severity (color : string) : nat :=
  if String.eqb color "green" then 0
  else if String.eqb color "yellow" then 1
  else 2.

(** [a <= b] between two numbers of the same kind. *)
Definition num_le (a b : pynum) : Prop :=
  match a, b with
  | NInt x, NInt y => x <= y
  | NFloat f, NFloat g => F64.leb f g = true
  | _, _ => False
  end.


(** A float whose quarter is a float: a zero, an infinity, a NaN, or a
    normal number of magnitude at least [2^-1020]. *)
Definition quarter_is_exact (f : F64.t) : Prop :=
  match f with
  | S754_finite _ m e => digits2_pos m = 53%positive /\ -1072 <= e <= 971
  | _ => True
  end.

(** A float whose fourfold is a float: a zero, an infinity, a NaN, or a
    normal number of magnitude below [2^1022]. *)
Definition fourfold_is_exact (f : F64.t) : Prop :=
  match f with
  | S754_finite _ m e => digits2_pos m = 53%positive /\ -1074 <= e <= 969
  | _ => True
  end.

(** The smallest positive float, [2^-1074]. *)
Definition tiniest : F64.t := S754_finite false 1 (-1074).

(** ** nutrition_api.py, continued *)

(** What [requests.get] comes back with: an exception, or a response with
    its status code and, when the body is JSON, the decoded body. *)
Inductive http_reply :=
  | TimedOut
  | ConnectionFailed
  | OtherFailure
  | Response (status_code : Z) (json : option pyval).

(** [response.json()] *)
Definition reply_json (json : option pyval) : result pyval :=
  match json with
  | Some data => Ok data
  | None => Raise DataError
  end.

(** [v[:3]]: a list or a string can be sliced. *)
Definition py_first_three (v : pyval) : result (list pyval) :=
  match v with
  | PList l => Ok (take 3 l)
  | PStr s => Ok (take 3 (string_chars s))
  | _ => Raise TypeError
  end.

(** The loop of [search_food_by_name] over the foods kept: a food that
    does not normalise is left out. *)
Fixpoint process_foods (foods : list pyval) : list NutritionAPI.food_info :=
  match foods with
  | [] => []
  | food :: rest =>
      match NutritionAPI._extract_nutrition_data food with
      | Some nutrition_info => nutrition_info :: process_foods rest
      | None => process_foods rest
      end
  end.

Definition search_by_name_body (json : option pyval)
    : result (list NutritionAPI.food_info) :=
  data ← reply_json json;
  foods ← py_get data "foods" (PList []);
  if negb (py_truthy foods) then Ok []
  else
    kept ← py_first_three foods;
    Ok (process_foods kept).

(** [search_food_by_name], from the reply to its request on: every
    exception and every status but 200 gives the empty list. *)
Definition search_food_by_name (reply : http_reply)
    : list NutritionAPI.food_info :=
  match reply with
  | Response 200 json =>
      match search_by_name_body json with
      | Ok processed_foods => processed_foods
      | Raise _ => []
      end
  | _ => []
  end.

(** *** Text typed by the user

    A Python [str] is a sequence of Unicode code points: [len] counts them,
    and [strip], [isdigit] and [replace] look at them one by one; it is a
    list of code points. *)

(** The code points of an ASCII literal of the source. *)
Definition code_points (s : string) : list N :=
  Ascii.N_of_ascii <$> String.list_ascii_of_string s.

(** [s.replace(c, "")] for a one-character [c]. *)
Definition remove_char (c : N) (s : list N) : list N :=
  filter (fun x => x <> c) s.

(** [barcode.replace(" ", "").replace("-", "")] *)
Definition clean_barcode (barcode : list N) : list N :=
  remove_char 45 (remove_char 32 barcode).

(** The address [search_food_by_barcode] requests. *)
Definition barcode_url (barcode : list N) : list N :=
  code_points "https://world.openfoodfacts.org/api/v0/product/"
  ++ clean_barcode barcode ++ code_points ".json".

Definition search_by_barcode_body (json : option pyval)
    : result (list NutritionAPI.food_info) :=
  data ← reply_json json;
  status ← py_get data "status" PNone;
  match data with
  | PDict d =>
      if py_eq_int status 1 && bool_decide (is_Some (d !! "product")) then
        match d !! "product" with
        | Some product =>
            match NutritionAPI._extract_openfoodfacts_data product with
            | Some nutrition_info => Ok [nutrition_info]
            | None => Ok []
            end
        | None => Raise DataError
        end
      else Ok []
  | _ => Raise AttributeError
  end.

(** [search_food_by_barcode], from the reply to its request on. *)
Definition search_food_by_barcode (reply : http_reply)
    : list NutritionAPI.food_info :=
  match reply with
  | Response 200 json =>
      match search_by_barcode_body json with
      | Ok found => found
      | Raise _ => []
      end
  | _ => []
  end.

(** ** utils.py: input validation *)

(** The code points [str.isspace] holds of, which are those [str.strip]
    takes off: tab to carriage return, the separators 28 to 31, space, next
    line, no-break space, and the Unicode spaces and line separators. *)
Definition whitespace : list N :=
  [9; 10; 11; 12; 13; 28; 29; 30; 31; 32; 133; 160; 5760; 8192; 8193; 8194;
   8195; 8196; 8197; 8198; 8199; 8200; 8201; 8202; 8232; 8233; 8239; 8287;
   12288]%N.

Definition is_space (c : N) : bool := bool_decide (c ∈ whitespace).

(** The ranges of code points [str.isdigit] holds of (Unicode 14.0, the
    character database of CPython 3.11): the decimal digits of every
    script, and the superscript, subscript, circled and other characters
    with a digit value. *)
Definition digit_ranges : list (N * N) :=
  [(48, 57); (178, 179); (185, 185); (1632, 1641); (1776, 1785);
   (1984, 1993); (2406, 2415); (2534, 2543); (2662, 2671); (2790, 2799);
   (2918, 2927); (3046, 3055); (3174, 3183); (3302, 3311); (3430, 3439);
   (3558, 3567); (3664, 3673); (3792, 3801); (3872, 3881); (4160, 4169);
   (4240, 4249); (4969, 4977); (6112, 6121); (6160, 6169); (6470, 6479);
   (6608, 6618); (6784, 6793); (6800, 6809); (6992, 7001); (7088, 7097);
   (7232, 7241); (7248, 7257); (8304, 8304); (8308, 8313); (8320, 8329);
   (9312, 9320); (9332, 9340); (9352, 9360); (9450, 9450); (9461, 9469);
   (9471, 9471); (10102, 10110); (10112, 10120); (10122, 10130);
   (42528, 42537); (43216, 43225); (43264, 43273); (43472, 43481);
   (43504, 43513); (43600, 43609); (44016, 44025); (65296, 65305);
   (66720, 66729); (68160, 68163); (68912, 68921); (69216, 69224);
   (69714, 69722); (69734, 69743); (69872, 69881); (69942, 69951);
   (70096, 70105); (70384, 70393); (70736, 70745); (70864, 70873);
   (71248, 71257); (71360, 71369); (71472, 71481); (71904, 71913);
   (72016, 72025); (72784, 72793); (73040, 73049); (73120, 73129);
   (92768, 92777); (92864, 92873); (93008, 93017); (120782, 120831);
   (123200, 123209); (123632, 123641); (125264, 125273); (127232, 127242);
   (130032, 130041)]%N.

Definition is_digit (c : N) : bool :=
  existsb (fun r => (r.1 <=? c) && (c <=? r.2))%N digit_ranges.

Fixpoint lstrip (s : list N) : list N :=
  match s with
  | [] => []
  | c :: s' => if is_space c then lstrip s' else s
  end.

(** Dropping the white space at the end: the string is empty from a
    position on exactly when all that follows is white space. *)
Fixpoint rstrip (s : list N) : list N :=
  match s with
  | [] => []
  | c :: s' =>
      match rstrip s' with
      | [] => if is_space c then [] else [c]
      | rest => c :: rest
      end
  end.

(** [s.strip()] *)
Definition strip (s : list N) : list N := rstrip (lstrip s).

(** [s.isdigit()]: at least one character, all of them digits. *)
Definition isdigit (s : list N) : bool :=
  match s with
  | [] => false
  | _ => forallb is_digit s
  end.

(** [(is_valid, error_message)] *)
Definition validate_food_search_input (input_value : list N) : bool * string :=
  if bool_decide (input_value = []) || bool_decide (strip input_value = []) then
    (false, "Please enter a food name or barcode.")
  else if (length (strip input_value) <? 2)%nat then
    (false, "Please enter at least 2 characters.")
  else if (100 <? length (strip input_value))%nat then
    (false, "Search term is too long. Please use fewer than 100 characters.")
  else (true, "").

Definition validate_barcode_input (barcode : list N) : bool * string :=
  if bool_decide (barcode = []) || bool_decide (strip barcode = []) then
    (false, "Please enter a barcode number.")
  else
    let clean_barcode := clean_barcode barcode in
    if negb (isdigit clean_barcode) then
      (false, "Barcode should contain only numbers.")
    else if negb (bool_decide (length clean_barcode ∈ [8; 12; 13; 14]%nat)) then
      (false, "Barcode should be 8, 12, 13, or 14 digits long.")
    else (true, "").

(** ** database.py, continued *)

(** The dict [get_daily_tracker] returns for an entry; [time] is the
    [consumed_at] it formats as hours and minutes. *)
Record tracker_view := {
  v_id : Z;
  v_name : string;
  v_portion_g : F64.t;
  v_sugar_g : F64.t;
  v_calories : F64.t;
  v_time : Z
}.

Definition tracker_view_of (entry : Database.DailyTracker.t) : tracker_view :=
  {| v_id := Database.DailyTracker.id entry;
     v_name := Database.DailyTracker.food_name entry;
     v_portion_g := Database.DailyTracker.portion_g entry;
     v_sugar_g := Database.DailyTracker.sugar_g entry;
     v_calories := Database.DailyTracker.calories entry;
     v_time := Database.DailyTracker.consumed_at entry |}.

Definition get_daily_tracker (date : option string) (user_id : Z)
    (clk : Database.clock) (d : Database.db) : list tracker_view :=
  let date := default (Database.today clk) date in
  tracker_view_of <$> Database.tracker_entries user_id date d.

(** The dict [get_favorites] returns for a row: the food dict decoded from
    the stored JSON text, with the row's id under [favorite_id]. *)
Record favorite_view := {
  f_food : Database.food_data;
  f_favorite_id : Z
}.

Definition favorite_view_of (fav : Database.FavoriteFood.t) : favorite_view :=
  {| f_food := Database.FavoriteFood.food_data fav;
     f_favorite_id := Database.FavoriteFood.id fav |}.

(** [order_by(FavoriteFood.added_at.desc())] *)
Definition added_desc (r1 r2 : Database.FavoriteFood.t) : Prop :=
  Database.FavoriteFood.added_at r2 <= Database.FavoriteFood.added_at r1.

#[global] Instance added_desc_dec r1 r2 : Decision (added_desc r1 r2) :=
  decide (Database.FavoriteFood.added_at r2 <= Database.FavoriteFood.added_at r1).

Definition get_favorites (user_id : Z) (d : Database.db) : list favorite_view :=
  favorite_view_of <$>
    merge_sort added_desc
      (filter (fun r => Database.FavoriteFood.user_id r = user_id)
              (Database.favorite_foods d)).

(** ** app.py: the figures the tabs derive

    [pandas] sums the boolean column to the number of days over the limit;
    the quotient of the two small integers is a binary64. *)

Definition days_exceeded (rows : list Database.insight_summary) : Z :=
  Z.of_nat (length (filter (fun r => Database.s_exceeded_limit r = true) rows)).

(** Daily tracker tab: [((7 - days_exceeded) / 7) * 100] over
    [get_weekly_insights(days=7)]. *)
Definition weekly_compliance (rows : list Database.insight_summary) : F64.t :=
  F64.mul (F64.div_Z (7 - days_exceeded rows) 7) (F64.of_Z 100).

(** Insights tab: [((total_days - days_exceeded) / total_days) * 100] over
    [get_weekly_insights(days=30)], shown when there is a row. *)
Definition monthly_compliance (rows : list Database.insight_summary) : F64.t :=
  let total_days := Z.of_nat (length rows) in
  F64.mul (F64.div_Z (total_days - days_exceeded rows) total_days) (F64.of_Z 100).

(** Daily tracker tab: the banner under the totals, [None] when nothing
    is tracked for the date. *)
Inductive banner :=
  | Exceeded
  | Approaching
  | WithinLimits.

Definition tracker_banner (daily_tracker_data : list tracker_view) : option banner :=
  match daily_tracker_data with
  | [] => None
  | _ =>
      let total_sugar := Database.py_sum (v_sugar_g <$> daily_tracker_data) in
      if F64.ltb (F64.of_Z 25) total_sugar then Some Exceeded
      else if F64.ltb (F64.of_Z 20) total_sugar then Some Approaching
      else Some WithinLimits
  end.

(** * Vocabulary of the further statements *)

(** ** app.py: the tips the search tab shows, [tips[:3]] *)
Definition search_tab_tips (sugar_content : pynum) : list string :=
  take 3 (get_sugar_health_tips sugar_content).

(** ** Payloads of the further samples *)

(** A food whose second nutrient entry is a bare number. *)
Definition malformed_food : gmap string pyval :=
  {[ "description" := PStr "Cola";
     "foodNutrients" :=
       PList [PDict (ProviderA.mk_entry 2000 "Sugars" (PInt 9)); PInt 7] ]}.

(** A product with sodium delivered as the text "0.4". *)
Definition text_sodium_nutriments : gmap string pyval :=
  {[ "sodium_100g" := PStr "0.4" ]}.

Definition text_sodium_product : gmap string pyval :=
  {[ "nutriments" := PDict text_sodium_nutriments ]}.

(** A product named by a null. *)
Definition unnamed_product : gmap string pyval :=
  {[ "product_name" := PNone ]}.

(** A name search answered with five items: a malformed food, a food, a
    bare number and two more foods. *)
Definition name_search_reply : gmap string pyval :=
  {[ "foods" :=
       PList [PDict malformed_food;
              PDict (ProviderA.mk_food ProviderA.sample_by_id);
              PInt 3;
              PDict (ProviderA.mk_food ProviderA.sample_by_name);
              PDict (ProviderA.mk_food ProviderA.sample_by_id)] ]}.

(** A barcode search answered with the sample product, and the same answer
    with the status as text. *)
Definition barcode_reply : gmap string pyval :=
  {[ "status" := PInt 1; "product" := PDict sodium_sample ]}.

Definition barcode_reply_text_status : gmap string pyval :=
  {[ "status" := PStr "1"; "product" := PDict sodium_sample ]}.

(** ** Primary keys and favorites *)

Module Keys.
Import Database.

(** The primary keys of a table are distinct and behind its sequence. *)
Definition fresh {A} (id : A -> Z) (rows : list A) (seq : Z) : Prop :=
  NoDup (id <$> rows) /\ Forall (fun r => id r < seq) rows.

Definition keys_ok (d : db) : Prop :=
  fresh FoodItem.id (food_items d) (food_items_seq d)
  /\ fresh DailyTracker.id (daily_tracker d) (daily_tracker_seq d)
  /\ fresh FavoriteFood.id (favorite_foods d) (favorite_foods_seq d).

(** What [add_to_favorites] looks a favorite up by. *)
Definition favorite_key (r : FavoriteFood.t) : Z * string :=
  (FavoriteFood.user_id r, FavoriteFood.food_name r).

(** No user has a food name twice among the favorites, and every row is
    named after the food dict it stores. *)
Definition favorites_ok (d : db) : Prop :=
  NoDup (favorite_key <$> favorite_foods d)
  /\ Forall (fun r => FavoriteFood.food_name r = name (FavoriteFood.food_data r))
            (favorite_foods d).

(** The name a returned favorite is shown under. *)
Definition shown_name (v : favorite_view) : string := name (f_food v).

End Keys.

(** * Properties *)

(** ** utils.py: percentage of the daily limit *)

Lemma int_zero_limit_raises (a : pynum) :
  num_truediv a (NInt 0) = Raise ZeroDivisionError.
Proof. destruct a; reflexivity. Qed.

(** C7 (as the code has it): [calculate_daily_sugar_percentage] computes
    [sugar_content / daily_limit * 100] in binary64, with [25.0] as the
    default limit, whenever the limit is not zero. Nothing guards the
    division: a zero limit, float or int, raises ZeroDivisionError out of
    the function. *)
Theorem C7_percentage_of_daily_limit :
  (forall a l : F64.t,
     calculate_daily_sugar_percentage (NFloat a) (Some (NFloat l)) =
       if F64.eqb l F64.zero then Raise ZeroDivisionError
       else Ok (NFloat (F64.mul (F64.div a l) (F64.of_Z 100))))
  /\ (forall a : F64.t,
        calculate_daily_sugar_percentage (NFloat a) None =
          Ok (NFloat (F64.mul (F64.div a (F64.of_Z 25)) (F64.of_Z 100))))
  /\ (forall a : pynum,
        calculate_daily_sugar_percentage a (Some (NInt 0)) = Raise ZeroDivisionError).
Proof.
  split; [|split].
  - intros a l. unfold calculate_daily_sugar_percentage. simpl.
    destruct (F64.eqb l F64.zero); reflexivity.
  - intros a. reflexivity.
  - intros a. unfold calculate_daily_sugar_percentage. simpl.
    rewrite int_zero_limit_raises. reflexivity.
Qed.

(** C7 (as the spec states it) fails: with a limit of zero the call ends in
    an uncaught ZeroDivisionError, for a float zero as for an int zero. *)
Lemma C7_zero_limit_crashes :
  calculate_daily_sugar_percentage (NFloat (F64.of_Z 10)) (Some (NFloat F64.zero))
    = Raise ZeroDivisionError
  /\ calculate_daily_sugar_percentage (NInt 10) (Some (NInt 0))
    = Raise ZeroDivisionError.
Proof. split; reflexivity. Qed.

(** ** nutrition_api.py: Provider B *)

Section ProviderB.
Import NutritionAPI.

(** What [_extract_openfoodfacts_data] stores under a directly looked-up
    key: [nutriments.get(key, 0) or 0]. *)
Lemma py_or_zero_missing (d : gmap string pyval) (key : string) :
  absent_or_null d key -> py_or (default (PInt 0) (d !! key)) (PInt 0) = PInt 0.
Proof. intros [-> | ->]; reflexivity. Qed.

Lemma py_or_zero_number (d : gmap string pyval) (key : string) (n : pynum) :
  d !! key = Some (PNum n) ->
  py_or (default (PInt 0) (d !! key)) (PInt 0)
    = if num_eq_int n 0 then PInt 0 else PNum n.
Proof.
  intros ->. unfold py_or. simpl. destruct (num_eq_int n 0); reflexivity.
Qed.

Lemma sodium_scaling_defined (o : option pyval) :
  number_or_missing o ->
  exists mg, py_mul (py_or (default (PInt 0) o) (PInt 0)) (PInt 1000) = Ok mg.
Proof.
  destruct o as [[| | [z|f] | | |]|]; simpl; try contradiction; intros _;
    unfold py_or; simpl.
  - eexists; reflexivity.
  - destruct (z =? 0); eexists; reflexivity.
  - destruct (F64.eqb f _); eexists; reflexivity.
  - eexists; reflexivity.
Qed.

(** The record the normaliser returns, field by field, once the three
    places where it can raise are passed. *)
Lemma openfoodfacts_shape (product nutriments : gmap string pyval) (mg : pyval) :
  default (PDict ∅) (product !! "nutriments") = PDict nutriments ->
  description_well_formed product ->
  py_mul (py_or (default (PInt 0) (nutriments !! "sodium_100g")) (PInt 0))
         (PInt 1000) = Ok mg ->
  exists info,
    _extract_openfoodfacts_data (PDict product) = Some info
    /\ nutrient info sodium_mg = mg
    /\ forall k, k <> sodium_mg ->
         nutrient info k = py_or (default (PInt 0) (nutriments !! off_key k)) (PInt 0).
Proof.
  intros Hn Hd Hmg.
  unfold _extract_openfoodfacts_data, extract_openfoodfacts_body.
  cbn [py_get mbind result_bind]. rewrite Hn.
  cbn [py_get mbind result_bind]. rewrite Hmg. cbn [mbind result_bind].
  destruct (py_truthy (default PNone (product !! "brands"))) eqn:Hb.
  - destruct (py_truthy (default PNone (product !! "categories"))) eqn:Hc.
    + destruct (Hd Hb Hc) as [s Hs]. rewrite Hs. simpl.
      eexists; split; [reflexivity|]. split; [reflexivity|].
      intros [] Hk; try reflexivity. contradiction.
    + simpl. eexists; split; [reflexivity|]. split; [reflexivity|].
      intros [] Hk; try reflexivity. contradiction.
  - simpl. eexists; split; [reflexivity|]. split; [reflexivity|].
    intros [] Hk; try reflexivity. contradiction.
Qed.

(** C4: for a Provider-B product whose [nutriments] is a dict (or is left
    out) and whose [sodium_100g] is a number, null or missing, the
    normaliser returns a record in which [sodium_mg] is 1000 times
    [sodium_100g] (an int stays an int, a float is multiplied in binary64,
    and a zero gives the int 0), and is 0 when the key is missing or null;
    0.4 gives 400.0. The six other fields are the value under their key, and
    0 when it is missing, null or zero. *)
Theorem C4_provider_b_sodium_and_defaults
    (product nutriments : gmap string pyval) :
  default (PDict ∅) (product !! "nutriments") = PDict nutriments ->
  description_well_formed product ->
  number_or_missing (nutriments !! "sodium_100g") ->
  exists info,
    _extract_openfoodfacts_data (PDict product) = Some info
    /\ (absent_or_null nutriments "sodium_100g" ->
          nutrient info sodium_mg = PInt 0)
    /\ (forall z, nutriments !! "sodium_100g" = Some (PInt z) ->
          nutrient info sodium_mg = PInt (z * 1000))
    /\ (forall f, nutriments !! "sodium_100g" = Some (PFloat f) ->
          nutrient info sodium_mg =
            if F64.eqb f F64.zero then PInt 0
            else PFloat (F64.mul f (F64.of_Z 1000)))
    /\ (nutriments !! "sodium_100g" = Some (PFloat (F64.decimal 4 10)) ->
          nutrient info sodium_mg = PFloat (F64.of_Z 400))
    /\ (forall k, k <> sodium_mg ->
          (absent_or_null nutriments (off_key k) -> nutrient info k = PInt 0)
          /\ (forall n, nutriments !! off_key k = Some (PNum n) ->
                nutrient info k = if num_eq_int n 0 then PInt 0 else PNum n)).
Proof.
  intros Hn Hd Hs.
  destruct (sodium_scaling_defined _ Hs) as [mg Hmg].
  destruct (openfoodfacts_shape product nutriments mg Hn Hd Hmg)
    as (info & He & Hna & Hk).
  exists info. split; [exact He|]. rewrite Hna.
  assert (Hfloat : forall f, nutriments !! "sodium_100g" = Some (PFloat f) ->
            mg = if F64.eqb f F64.zero then PInt 0
                 else PFloat (F64.mul f (F64.of_Z 1000))).
  { intros f Hf. rewrite Hf in Hmg. unfold py_or in Hmg. simpl in Hmg.
    unfold F64.zero.
    destruct (F64.eqb f (S754_zero false)); simpl in Hmg;
      injection Hmg as <-; reflexivity. }
  split; [|split; [|split; [|split]]].
  - intros Ha. rewrite (py_or_zero_missing _ _ Ha) in Hmg.
    simpl in Hmg. injection Hmg as <-. reflexivity.
  - intros z Hz. rewrite Hz in Hmg. unfold py_or in Hmg. simpl in Hmg.
    destruct (Z.eqb_spec z 0) as [Hz0 | Hz0]; simpl in Hmg;
      inversion Hmg; subst; reflexivity.
  - exact Hfloat.
  - intros Hf. rewrite (Hfloat _ Hf). reflexivity.
  - intros k Hne. rewrite (Hk k Hne). split.
    + intros Ha. apply py_or_zero_missing, Ha.
    + intros n Hv. apply py_or_zero_number, Hv.
Qed.

(** The sample of the spec: [sodium_100g = 0.4] gives [sodium_mg == 400.0]. *)
Lemma C4_sodium_sample :
  exists info,
    _extract_openfoodfacts_data (PDict sodium_sample) = Some info
    /\ nutrient info sodium_mg = PFloat (F64.of_Z 400).
Proof.
  destruct (C4_provider_b_sodium_and_defaults sodium_sample sodium_sample_nutriments)
    as (info & He & _ & _ & _ & H04 & _).
  - reflexivity.
  - intros Hb. vm_compute in Hb. discriminate.
  - vm_compute. exact I.
  - exists info. split; [exact He | apply H04; reflexivity].
Defined.

End ProviderB.

(** ** nutrition_api.py: Provider A *)

Section ProviderAProperties.
Import NutritionAPI ProviderA.

(** A float that compares equal to a finite one is that float. *)
Lemma SFeqb_finite_inv (f : spec_float) s m e :
  SFeqb f (S754_finite s m e) = true -> f = S754_finite s m e.
Proof.
  unfold SFeqb. destruct f as [s0 | s0 | | s0 m0 e0]; simpl.
  - destruct s; discriminate.
  - destruct s0; discriminate.
  - discriminate.
  - destruct s0, s; try discriminate;
      destruct (Z.compare_spec e0 e) as [-> | |]; try discriminate;
      rewrite Pos.compare_cont_spec; simpl;
      destruct (Pos.compare_spec m0 m) as [-> | |]; simpl; try discriminate;
      reflexivity.
Qed.

(** A value equal to a nutrient number is that int, or the float of it. *)
Lemma eq_int_table (v : pyval) (k : nutrient_key) :
  py_eq_int v (table_id k) = true ->
  as_num v = Some (NInt (table_id k))
  \/ as_num v = Some (NFloat (F64.of_Z (table_id k))).
Proof.
  unfold py_eq_int. destruct (as_num v) as [[x | f] |]; cbn [num_eq_int].
  - intros ->%Z.eqb_eq. left; reflexivity.
  - intros H. right. do 2 f_equal.
    destruct k; cbn [table_id] in *;
    match type of H with F64.eqb _ ?c = true =>
      let c' := eval vm_compute in c in
      change c with c' in H |- *; apply (SFeqb_finite_inv _ _ _ _ H) end.
  - discriminate.
Qed.

(** No value equals two nutrient numbers. *)
Lemma id_exclusive (v : pyval) (k k' : nutrient_key) :
  py_eq_int v (table_id k) = true -> py_eq_int v (table_id k') = true -> k = k'.
Proof.
  intros [H1 | H1]%eq_int_table [H2 | H2]%eq_int_table;
    rewrite H1 in H2; destruct k, k'; try reflexivity;
    vm_compute in H2; discriminate.
Qed.

(** An identifier matches none of the seven numbers, or exactly one. *)
Lemma id_cases (v : pyval) :
  (forall k, py_eq_int v (table_id k) = false)
  \/ exists k0, forall k, py_eq_int v (table_id k) = bool_decide (k = k0).
Proof.
  destruct (existsb (fun k => py_eq_int v (table_id k)) keys) eqn:E.
  - right. apply existsb_exists in E as (k0 & _ & Hk0). exists k0. intros k.
    case_bool_decide as Hk; [subst; exact Hk0|].
    destruct (py_eq_int v (table_id k)) eqn:Ek; [|reflexivity].
    exfalso. apply Hk. eapply id_exclusive; eassumption.
  - left. intros k.
    destruct (py_eq_int v (table_id k)) eqn:Ek; [|reflexivity].
    assert (existsb (fun k => py_eq_int v (table_id k)) keys = true) as E'.
    { apply existsb_exists. exists k. split; [|exact Ek]. destruct k; simpl; tauto. }
    congruence.
Qed.

Ltac split_unset :=
  repeat match goal with
         | |- context [if py_eq_int ?a 0 then _ else _] => destruct (py_eq_int a 0)
         end.

Ltac name_atoms nm :=
  generalize (contains "sugar" nm) (contains "total" nm) (contains "energy" nm)
    (contains "calorie" nm) (contains "carbohydrate" nm) (contains "protein" nm)
    (contains "fat" nm) (contains "lipid" nm) (contains "fiber" nm)
    (contains "sodium" nm);
  intros b1 b2 b3 b4 b5 b6 b7 b8 b9 b10.

(** One turn of the loop, seen from each key: the [elif] chain is
    [field_step]. *)
Lemma nutrient_step_field (fi : food_info) (e : gmap string pyval) :
  entry_ok e ->
  exists fi',
    nutrient_step fi (PDict e) = Ok fi'
    /\ (forall k, nutrient fi' k = field_step k (nutrient fi k) e)
    /\ name fi' = name fi /\ description fi' = description fi
    /\ fdc_id fi' = fdc_id fi /\ data_type fi' = data_type fi.
Proof.
  intros [s Hs].
  assert (Hnm : entry_name e = lower s) by (unfold entry_name; rewrite Hs; reflexivity).
  unfold nutrient_step. cbn [py_get mbind result_bind]. rewrite Hs.
  cbn [py_lower mbind result_bind].
  eexists; split; [reflexivity|].
  unfold field_step, by_name, in_id_table, has_id. rewrite Hnm.
  fold (entry_id e) (entry_value e).
  generalize (entry_value e) as v. generalize (lower s) as nm. intros nm v.
  destruct (id_cases (entry_id e)) as [Hall | [k0 Hk0]].
  - pose proof (Hall sugar_g) as H1. pose proof (Hall calories) as H2.
    pose proof (Hall carbs_g) as H3. pose proof (Hall protein_g) as H4.
    pose proof (Hall fat_g) as H5. pose proof (Hall fiber_g) as H6.
    pose proof (Hall sodium_mg) as H7. cbn [table_id] in H1, H2, H3, H4, H5, H6, H7.
    cbn [existsb keys table_id]. rewrite H1, H2, H3, H4, H5, H6, H7.
    cbn [orb negb andb].
    split.
    + intros k; destruct k; cbn [name_rule earlier forallb table_id];
        rewrite ?H1, ?H2, ?H3, ?H4, ?H5, ?H6, ?H7;
        name_atoms nm;
        destruct b1, b2, b3, b4, b5, b6, b7, b8, b9, b10; cbn;
        split_unset; reflexivity.
    + name_atoms nm.
      destruct b1, b2, b3, b4, b5, b6, b7, b8, b9, b10; cbn; split_unset; auto.
  - pose proof (Hk0 sugar_g) as H1. pose proof (Hk0 calories) as H2.
    pose proof (Hk0 carbs_g) as H3. pose proof (Hk0 protein_g) as H4.
    pose proof (Hk0 fat_g) as H5. pose proof (Hk0 fiber_g) as H6.
    pose proof (Hk0 sodium_mg) as H7. cbn [table_id] in H1, H2, H3, H4, H5, H6, H7.
    cbn [existsb keys table_id]. rewrite H1, H2, H3, H4, H5, H6, H7.
    split.
    + intros k; destruct k; cbn [table_id];
        rewrite ?H1, ?H2, ?H3, ?H4, ?H5, ?H6, ?H7;
        destruct k0; cbn; reflexivity.
    + destruct k0; cbn; auto.
Qed.

(** The loop succeeds on well-formed entries and folds [field_step]. *)
Lemma nutrient_loop_fields (entries : list (gmap string pyval)) :
  Forall entry_ok entries ->
  forall fi, exists fi',
    nutrient_loop fi (PDict <$> entries) = Ok fi'
    /\ (forall k, nutrient fi' k = fold_left (field_step k) entries (nutrient fi k))
    /\ name fi' = name fi /\ description fi' = description fi
    /\ fdc_id fi' = fdc_id fi /\ data_type fi' = data_type fi.
Proof.
  induction 1 as [| e l He _ IH]; intros fi.
  - exists fi. repeat split; reflexivity.
  - destruct (nutrient_step_field fi e He) as (fi1 & Hstep & Hk1 & Hn1 & Hd1 & Hf1 & Ht1).
    destruct (IH fi1) as (fi2 & Hloop & Hk2 & Hn2 & Hd2 & Hf2 & Ht2).
    exists fi2. cbn [fmap list_fmap nutrient_loop]. 
    change (PDict <$> l) with (list_fmap _ _ PDict l) in Hloop.
    rewrite Hstep. cbn [mbind result_bind]. split; [exact Hloop|].
    split; [|repeat split; congruence].
    intros k. rewrite Hk2, Hk1. reflexivity.
Qed.

Lemma extract_nutrition_fields (food_data : gmap string pyval)
    (entries : list (gmap string pyval)) :
  payload_of food_data entries ->
  Forall entry_ok entries ->
  exists info,
    _extract_nutrition_data (PDict food_data) = Some info
    /\ forall k, nutrient info k = fold_left (field_step k) entries (PInt 0).
Proof.
  intros Hp Hok.
  unfold _extract_nutrition_data, extract_nutrition_body.
  cbn [py_get mbind result_bind]. rewrite Hp. cbn [py_iter mbind result_bind].
  match goal with |- context [nutrient_loop ?fi0 _] =>
    destruct (nutrient_loop_fields entries Hok fi0) as (info & Hl & Hk & _) end.
  rewrite Hl. exists info. split; [reflexivity|]. exact Hk.
Qed.

(** A field that is not zero is only changed by an entry with its number. *)
Lemma fold_keeps_nonzero (k : nutrient_key) (l : list (gmap string pyval)) (cur : pyval) :
  Forall (fun e => has_id k e = false) l ->
  py_eq_int cur 0 = false ->
  fold_left (field_step k) l cur = cur.
Proof.
  induction 1 as [| e l He _ IH]; intros Hcur; [reflexivity|].
  cbn [fold_left]. unfold field_step at 2. rewrite He, Hcur.
  destruct (by_name k e); apply IH, Hcur.
Qed.

Lemma fold_keeps_unrelated (k : nutrient_key) (l : list (gmap string pyval)) (cur : pyval) :
  Forall (fun e => has_id k e = false) l ->
  Forall (fun e => by_name k e = false) l ->
  fold_left (field_step k) l cur = cur.
Proof.
  induction 1 as [| e l He _ IH]; intros Hn; [reflexivity|].
  inversion Hn as [| ? ? Hne Hnl]; subst.
  cbn [fold_left]. unfold field_step at 2. rewrite He, Hne. apply IH, Hnl.
Qed.

Lemma fold_by_id (k : nutrient_key) (pre post : list (gmap string pyval))
    (e : gmap string pyval) (cur : pyval) :
  has_id k e = true ->
  Forall (fun e' => has_id k e' = false) post ->
  nonzero (entry_value e) = true \/ Forall (fun e' => by_name k e' = false) post ->
  fold_left (field_step k) (pre ++ e :: post) cur = entry_value e.
Proof.
  intros He Hpost Hor. rewrite fold_left_app. cbn [fold_left].
  unfold field_step at 2. rewrite He.
  destruct Hor as [Hnz | Hnn].
  - apply fold_keeps_nonzero; [exact Hpost|].
    unfold nonzero in Hnz. destruct (py_eq_int (entry_value e) 0); [discriminate|reflexivity].
  - apply fold_keeps_unrelated; assumption.
Qed.

Lemma fold_by_name (k : nutrient_key) (l : list (gmap string pyval)) :
  Forall (fun e => has_id k e = false) l ->
  forall cur, py_eq_int cur 0 = true ->
  match first_named k l with
  | Some e => fold_left (field_step k) l cur = entry_value e
  | None => py_eq_int (fold_left (field_step k) l cur) 0 = true
  end.
Proof.
  unfold first_named.
  induction 1 as [| e l He Hl IH]; intros cur Hcur; [exact Hcur|].
  cbn [fold_left]. unfold field_step at 2 4. rewrite He, Hcur.
  rewrite filter_cons. unfold nonzero.
  destruct (by_name k e) eqn:Hn.
  - destruct (py_eq_int (entry_value e) 0) eqn:Hz.
    + rewrite decide_False by (cbn; intros [_ ?]; discriminate).
      apply IH, Hz.
    + rewrite decide_True by (cbn; split; reflexivity).
      cbn [head]. apply fold_keeps_nonzero; assumption.
  - rewrite decide_False by (intros [? _]; discriminate).
    apply IH, Hcur.
Qed.

(** C1 (as the code has it): on a Provider-A payload whose entries are dicts
    with string names, the normaliser returns a record in which, for each
    key [k] and its nutrient number (sugar 2000, energy 1008, carbohydrate
    1005, protein 1003, fat 1004, fiber 1079, sodium 1093):
    - the field is the value of the last entry carrying that number, when
      that value is not zero or no later entry is matched by name for [k];
    - when no entry carries that number, the field is the value of the first
      entry, in list order, that is matched by name for [k] (it has none of
      the seven numbers, fails the name tests tried earlier and passes that
      of [k]: for sugar, the lower-cased name contains "sugar" and "total")
      and whose value is not zero; the field equals 0 if there is none.
    A name match is applied while the field equals 0 and ignored afterwards. *)
Theorem C1_provider_a_field_mapping
    (food_data : gmap string pyval) (entries : list (gmap string pyval)) :
  payload_of food_data entries ->
  Forall entry_ok entries ->
  exists info,
    _extract_nutrition_data (PDict food_data) = Some info
    /\ (forall k pre e post,
          entries = pre ++ e :: post ->
          has_id k e = true ->
          Forall (fun e' => has_id k e' = false) post ->
          nonzero (entry_value e) = true
            \/ Forall (fun e' => by_name k e' = false) post ->
          nutrient info k = entry_value e)
    /\ (forall k,
          Forall (fun e => has_id k e = false) entries ->
          match first_named k entries with
          | Some e => nutrient info k = entry_value e
          | None => py_eq_int (nutrient info k) 0 = true
          end).
Proof.
  intros Hp Hok.
  destruct (extract_nutrition_fields food_data entries Hp Hok) as (info & He & Hk).
  exists info. split; [exact He|]. split.
  - intros k pre e post -> Hid Hpost Hor. rewrite Hk.
    apply fold_by_id; assumption.
  - intros k Hno. rewrite Hk. apply fold_by_name; [exact Hno | reflexivity].
Qed.

(** The samples of the spec: number 2000 with 12.5 gives 12.5; no number
    2000 and an entry named "Total Sugars" with 8.0 gives 8.0. *)
Lemma C1_samples :
  (exists info,
     _extract_nutrition_data (PDict (mk_food sample_by_id)) = Some info
     /\ nutrient info sugar_g = PFloat (F64.decimal 125 10))
  /\ (exists info,
        _extract_nutrition_data (PDict (mk_food sample_by_name)) = Some info
        /\ nutrient info sugar_g = PFloat (F64.of_Z 8)).
Proof.
  split.
  - destruct (C1_provider_a_field_mapping (mk_food sample_by_id) sample_by_id)
      as (info & He & Hid & _).
    + reflexivity.
    + repeat constructor; eexists; reflexivity.
    + exists info. split; [exact He|].
      apply (Hid sugar_g [mk_entry 1008 "Energy" (PInt 42)]
                 (mk_entry 2000 "Sugars" (PFloat (F64.decimal 125 10))) []).
      * reflexivity.
      * reflexivity.
      * constructor.
      * left. vm_compute. reflexivity.
  - destruct (C1_provider_a_field_mapping (mk_food sample_by_name) sample_by_name)
      as (info & He & _ & Hnm).
    + reflexivity.
    + repeat constructor; eexists; reflexivity.
    + exists info. split; [exact He|].
      apply (Hnm sugar_g). repeat constructor.
Defined.

(** C1 (as the spec states it) fails in two ways. A zero under number 2000
    is overwritten by a later name match, so the field is not set from the
    entry with the number; and without number 2000, a first name match that
    holds zero loses to a later one, so the first match does not win. *)
Lemma C1_zero_value_counterexample :
  (exists info,
     _extract_nutrition_data (PDict (mk_food zero_then_named)) = Some info
     /\ nutrient info sugar_g = PFloat (F64.of_Z 8)
     /\ (exists e, e ∈ zero_then_named /\ has_id sugar_g e = true)
     /\ (forall e, e ∈ zero_then_named -> has_id sugar_g e = true ->
           nutrient info sugar_g <> entry_value e))
  /\ (exists info e,
        _extract_nutrition_data (PDict (mk_food named_zero_first)) = Some info
        /\ nutrient info sugar_g = PFloat (F64.of_Z 5)
        /\ Forall (fun e' => has_id sugar_g e' = false) named_zero_first
        /\ head (filter (fun e' => contains "sugar" (entry_name e') = true
                                  ∧ contains "total" (entry_name e') = true)
                        named_zero_first) = Some e
        /\ nutrient info sugar_g <> entry_value e).
Proof.
  split.
  - eexists. split; [vm_compute; reflexivity|]. split; [reflexivity|]. split.
    + eexists. split; [apply list_elem_of_here|]. reflexivity.
    + intros e He Hid.
      apply elem_of_cons in He as [-> | He].
      * vm_compute. discriminate.
      * apply elem_of_cons in He as [-> | He]; [|inversion He].
        vm_compute in Hid. discriminate.
  - eexists. eexists. split; [vm_compute; reflexivity|].
    split; [reflexivity|].
    split; [repeat constructor|]. split; [vm_compute; reflexivity|].
    vm_compute. discriminate.
Qed.

End ProviderAProperties.

(** ** nutrition_api.py: non-negative fields *)

Section NonNegative.
Import NutritionAPI ProviderA.

(** Rounding a non-negative mantissa never yields a negative float or a
    NaN: the shifts and the rounding keep the mantissa non-negative. *)
Lemma shr_1_nonneg mrs : 0 <= shr_m mrs -> 0 <= shr_m (shr_1 mrs).
Proof.
  destruct mrs as [m r s]. simpl.
  destruct m as [| p | p]; [| destruct p | ]; simpl; lia.
Qed.

Lemma iter_shr_1_nonneg p : forall mrs,
  0 <= shr_m mrs -> 0 <= shr_m (SpecFloat.iter_pos (A:=shr_record) shr_1 p mrs).
Proof.
  induction p as [p IH | p IH |]; intros mrs H; simpl.
  - apply IH, IH, shr_1_nonneg, H.
  - apply IH, IH, H.
  - apply shr_1_nonneg, H.
Qed.

Lemma shr_fexp_nonneg prec emax m e l :
  0 <= m -> 0 <= shr_m (fst (shr_fexp prec emax m e l)).
Proof.
  intros H. unfold shr_fexp, shr.
  assert (0 <= shr_m (shr_record_of_loc m l)) as H0.
  { destruct l as [| []]; simpl; exact H. }
  destruct (fexp prec emax (Zdigits2 m + e) - e); simpl; try exact H0.
  apply iter_shr_1_nonneg, H0.
Qed.

Lemma round_nearest_even_nonneg m l : 0 <= m -> 0 <= round_nearest_even m l.
Proof.
  intros H. destruct l as [| []]; simpl; try lia.
  destruct (Z.even m); lia.
Qed.

Lemma binary_round_aux_sign prec emax m e l :
  0 <= m ->
  SFleb (S754_zero false) (binary_round_aux prec emax false m e l) = true.
Proof.
  intros H. unfold binary_round_aux.
  pose proof (shr_fexp_nonneg prec emax m e l H) as H1.
  destruct (shr_fexp prec emax m e l) as [mrs' e']. simpl in H1.
  pose proof (shr_fexp_nonneg prec emax
                (round_nearest_even (shr_m mrs') (loc_of_shr_record mrs')) e' loc_Exact
                (round_nearest_even_nonneg _ _ H1)) as H2.
  destruct (shr_fexp prec emax _ e' loc_Exact) as [mrs'' e'']. simpl in H2.
  destruct (shr_m mrs'') as [| p | p]; [reflexivity | | lia].
  destruct (e'' <=? emax - prec); reflexivity.
Qed.

(** Grams to milligrams keeps the sign. *)
Lemma mul_1000_nonneg (f : F64.t) :
  F64.leb F64.zero f = true ->
  F64.leb F64.zero (F64.mul f (F64.of_Z 1000)) = true.
Proof.
  unfold F64.leb, F64.zero, F64.mul.
  change (F64.of_Z 1000) with (S754_finite false 8796093022208000 (-43)).
  destruct f as [s | s | | s m e]; simpl.
  - intros _. destruct s; reflexivity.
  - destruct s; [discriminate | reflexivity].
  - discriminate.
  - destruct s; [discriminate|]. intros _.
    apply binary_round_aux_sign. lia.
Qed.

Lemma py_or_zero_nonneg (o : option pyval) :
  nonneg_or_missing o ->
  py_nonneg_number (py_or (default (PInt 0) o) (PInt 0)) = true.
Proof.
  destruct o as [[| | n | | |]|]; simpl; try discriminate; try reflexivity.
  intros Hn. unfold py_or. simpl. destruct (num_eq_int n 0); [reflexivity | exact Hn].
Qed.

Lemma nonneg_is_number (o : option pyval) :
  nonneg_or_missing o -> number_or_missing o.
Proof.
  destruct o as [[| | n | | |]|]; simpl; try discriminate; trivial.
Qed.

Lemma sodium_scaling_nonneg (o : option pyval) (mg : pyval) :
  nonneg_or_missing o ->
  py_mul (py_or (default (PInt 0) o) (PInt 0)) (PInt 1000) = Ok mg ->
  py_nonneg_number mg = true.
Proof.
  destruct o as [[| | [z | f] | | |]|]; simpl; try discriminate;
    unfold py_or; simpl.
  - intros _ H. injection H as <-. reflexivity.
  - intros Hz H. destruct (z =? 0); simpl in H; injection H as <-; simpl.
    + reflexivity.
    + apply Z.leb_le. apply Z.leb_le in Hz. lia.
  - intros Hf H. destruct (F64.eqb f _); simpl in H; injection H as <-; simpl.
    + reflexivity.
    + apply (mul_1000_nonneg f Hf).
  - intros _ H. injection H as <-. reflexivity.
Qed.

Lemma field_step_nonneg (k : nutrient_key) (cur : pyval) (e : gmap string pyval) :
  py_nonneg_number cur = true ->
  py_nonneg_number (entry_value e) = true ->
  py_nonneg_number (field_step k cur e) = true.
Proof.
  intros Hc He. unfold field_step.
  destruct (has_id k e); [exact He|].
  destruct (by_name k e); [|exact Hc].
  destruct (py_eq_int cur 0); assumption.
Qed.

Lemma fold_nonneg (k : nutrient_key) (l : list (gmap string pyval)) :
  Forall (fun e => py_nonneg_number (entry_value e) = true) l ->
  forall cur, py_nonneg_number cur = true ->
  py_nonneg_number (fold_left (field_step k) l cur) = true.
Proof.
  induction 1 as [| e l He _ IH]; intros cur Hc; [exact Hc|].
  cbn [fold_left]. apply IH, field_step_nonneg; assumption.
Qed.

(** C8 (as the code has it): the record either normaliser returns always
    has its seven nutrient fields, and each of them is a non-negative
    number whenever the source values are: for Provider B each per-100g
    value is a number [>= 0], null or missing (the last two give 0); for
    Provider A each entry's value is a number [>= 0] (0 when the entry has
    no value). Nothing in either normaliser checks the sign. *)
Theorem C8_nonnegative_when_source_is :
  (forall product nutriments : gmap string pyval,
     default (PDict ∅) (product !! "nutriments") = PDict nutriments ->
     description_well_formed product ->
     (forall k, nonneg_or_missing (nutriments !! off_key k)) ->
     exists info,
       _extract_openfoodfacts_data (PDict product) = Some info
       /\ forall k, py_nonneg_number (nutrient info k) = true)
  /\ (forall (food_data : gmap string pyval) (entries : list (gmap string pyval)),
        payload_of food_data entries ->
        Forall entry_ok entries ->
        Forall (fun e => py_nonneg_number (entry_value e) = true) entries ->
        exists info,
          _extract_nutrition_data (PDict food_data) = Some info
          /\ forall k, py_nonneg_number (nutrient info k) = true).
Proof.
  split.
  - intros product nutriments Hn Hd Hall.
    destruct (sodium_scaling_defined _ (nonneg_is_number _ (Hall sodium_mg)))
      as [mg Hmg].
    destruct (openfoodfacts_shape product nutriments mg Hn Hd Hmg)
      as (info & He & Hna & Hk).
    exists info. split; [exact He|]. intros k.
    destruct (decide (k = sodium_mg)) as [-> | Hne].
    + rewrite Hna. exact (sodium_scaling_nonneg _ _ (Hall sodium_mg) Hmg).
    + rewrite (Hk k Hne). apply py_or_zero_nonneg, Hall.
  - intros food_data entries Hp Hok Hv.
    destruct (extract_nutrition_fields food_data entries Hp Hok) as (info & He & Hk).
    exists info. split; [exact He|]. intros k. rewrite Hk.
    apply fold_nonneg; [exact Hv | reflexivity].
Qed.

(** Both halves at the samples: 0.4 g of sodium, and sugar under number
    2000. *)
Lemma C8_nonnegative_samples :
  (exists info,
     _extract_openfoodfacts_data (PDict sodium_sample) = Some info
     /\ forall k, py_nonneg_number (nutrient info k) = true)
  /\ (exists info,
        _extract_nutrition_data (PDict (mk_food sample_by_id)) = Some info
        /\ forall k, py_nonneg_number (nutrient info k) = true).
Proof.
  destruct C8_nonnegative_when_source_is as [HB HA]. split.
  - apply (HB sodium_sample sodium_sample_nutriments).
    + reflexivity.
    + intros Hb. vm_compute in Hb. discriminate.
    + intros []; vm_compute; trivial.
  - apply (HA (mk_food sample_by_id) sample_by_id).
    + reflexivity.
    + repeat constructor; eexists; reflexivity.
    + repeat constructor.
Defined.

(** C8 (as the spec states it) fails: a negative source value comes out
    negative, from either provider. *)
Lemma C8_negative_value_counterexample :
  (exists info,
     _extract_openfoodfacts_data (PDict negative_product) = Some info
     /\ nutrient info sugar_g = PInt (-1)
     /\ py_nonneg_number (nutrient info sugar_g) = false)
  /\ (exists info,
        _extract_nutrition_data (PDict negative_food) = Some info
        /\ nutrient info sugar_g = PInt (-1)
        /\ py_nonneg_number (nutrient info sugar_g) = false).
Proof.
  split; (eexists; split; [vm_compute; reflexivity|]; split; reflexivity).
Qed.

End NonNegative.

(** ** database.py *)

Section StoreProperties.
Import Database Store.
Variable text_eq_int : option (string -> Z -> bool).

(** [save_food_item] writes to [food_items] only. *)
Lemma save_food_item_frame fd clk d :
  same_but_food_items d (save_food_item text_eq_int fd clk d).1.
Proof.
  unfold save_food_item, save_food_item_body, same_but_food_items.
  destruct (external_id_filter text_eq_int (fdc_id fd)) as [same_id |];
    cbn; [|tauto].
  destruct (head _); cbn; [tauto|].
  destruct (float_column (sugar_g fd)); cbn; [|tauto].
  destruct (float_column (calories fd)); cbn; [|tauto].
  destruct (float_column (carbs_g fd)); cbn; [|tauto].
  destruct (float_column (protein_g fd)); cbn; [|tauto].
  destruct (float_column (fat_g fd)); cbn; [|tauto].
  destruct (float_column (fiber_g fd)); cbn; [|tauto].
  destruct (float_column (sodium_mg fd)); cbn; tauto.
Qed.

Lemma head_filter_None {A} (P : A -> Prop) `{!forall x, Decision (P x)} (l : list A) :
  head (filter P l) = None -> filter P l = [].
Proof. destruct (filter P l); [reflexivity | discriminate]. Qed.

(** A tracker entry that is written carries [value / 100 * portion]. *)
Lemma add_tracker_entry_body_inv fd portion_g user_id food_id clk d1 d2 :
  add_tracker_entry_body fd portion_g user_id food_id clk d1 = Ok d2 ->
  exists q actual_sugar entry,
    num_truediv (sugar_g fd) (NInt 100) = Ok q
    /\ num_mul (NFloat q) portion_g = Ok actual_sugar
    /\ float_column actual_sugar = Ok (DailyTracker.sugar_g entry)
    /\ DailyTracker.user_id entry = user_id
    /\ DailyTracker.date entry = today clk
    /\ d2 = {| food_items := food_items d1;
               food_items_seq := food_items_seq d1;
               daily_tracker := daily_tracker d1 ++ [entry];
               daily_tracker_seq := daily_tracker_seq d1 + 1;
               favorite_foods := favorite_foods d1;
               favorite_foods_seq := favorite_foods_seq d1;
               sugar_insights := sugar_insights d1;
               sugar_insights_seq := sugar_insights_seq d1 |}.
Proof.
  unfold add_tracker_entry_body. intros Hb.
  destruct (num_truediv (sugar_g fd) (NInt 100)) as [q |] eqn:Hq;
    cbn [mbind result_bind] in Hb; [|discriminate].
  destruct (num_mul (NFloat q) portion_g) as [actual_sugar |] eqn:Hm;
    cbn [mbind result_bind] in Hb; [|discriminate].
  destruct (num_truediv (calories fd) (NInt 100)) as [q' |];
    cbn [mbind result_bind] in Hb; [|discriminate].
  destruct (num_mul (NFloat q') portion_g) as [actual_calories |];
    cbn [mbind result_bind] in Hb; [|discriminate].
  destruct (float_column portion_g) as [portion |];
    cbn [mbind result_bind] in Hb; [|discriminate].
  destruct (float_column actual_sugar) as [sugar |] eqn:Hsugar;
    cbn [mbind result_bind] in Hb; [|discriminate].
  destruct (float_column actual_calories) as [cal |];
    cbn [mbind result_bind] in Hb; [|discriminate].
  injection Hb as <-.
  eexists q, actual_sugar, _. repeat split; try reflexivity; assumption.
Qed.

Lemma add_to_daily_tracker_insights fd portion_g user_id clk d :
  let d' := (add_to_daily_tracker text_eq_int fd portion_g user_id clk d).1 in
  sugar_insights d' = sugar_insights d /\ sugar_insights_seq d' = sugar_insights_seq d.
Proof.
  unfold add_to_daily_tracker.
  pose proof (save_food_item_frame fd clk d) as Hf.
  destruct (save_food_item text_eq_int fd clk d) as [d1 food_id].
  destruct Hf as (_ & _ & _ & _ & Hi & Hs). cbn [fst] in Hi, Hs.
  destruct (add_tracker_entry_body fd portion_g user_id food_id clk d1) as [d2 |] eqn:Hb;
    cbn [fst]; [|tauto].
  apply add_tracker_entry_body_inv in Hb as (? & ? & ? & _ & _ & _ & _ & _ & ->).
  cbn. tauto.
Qed.

Lemma add_favorite_body_inv fd user_id food_id clk d1 d2 :
  add_favorite_body fd user_id food_id clk d1 = Ok d2 ->
  exists favorite,
    FavoriteFood.user_id favorite = user_id
    /\ FavoriteFood.food_name favorite = name fd
    /\ d2 = {| food_items := food_items d1;
               food_items_seq := food_items_seq d1;
               daily_tracker := daily_tracker d1;
               daily_tracker_seq := daily_tracker_seq d1;
               favorite_foods := favorite_foods d1 ++ [favorite];
               favorite_foods_seq := favorite_foods_seq d1 + 1;
               sugar_insights := sugar_insights d1;
               sugar_insights_seq := sugar_insights_seq d1 |}.
Proof.
  unfold add_favorite_body. intros Hb.
  destruct (float_column (sugar_g fd)) as [s |];
    cbn [mbind result_bind] in Hb; [|discriminate].
  destruct (float_column (calories fd)) as [c |];
    cbn [mbind result_bind] in Hb; [|discriminate].
  injection Hb as <-. eexists. repeat split; reflexivity.
Qed.

Lemma add_to_favorites_insights fd user_id clk d :
  let d' := (add_to_favorites text_eq_int fd user_id clk d).1 in
  sugar_insights d' = sugar_insights d /\ sugar_insights_seq d' = sugar_insights_seq d.
Proof.
  unfold add_to_favorites. destruct (head _); cbn [fst]; [tauto|].
  pose proof (save_food_item_frame fd clk d) as Hf.
  destruct (save_food_item text_eq_int fd clk d) as [d1 food_id].
  destruct Hf as (_ & _ & _ & _ & Hi & Hs). cbn [fst] in Hi, Hs.
  destruct (add_favorite_body fd user_id food_id clk d1) as [d2 |] eqn:Hb;
    cbn [fst]; [|tauto].
  apply add_favorite_body_inv in Hb as (? & _ & _ & ->). cbn. tauto.
Qed.

(** *** The aggregate *)

Lemma update_insight_identity ex ts tc n b r :
  insight_identity (update_insight ex ts tc n b r) = insight_identity r.
Proof. unfold update_insight. destruct (decide _); reflexivity. Qed.

Lemma update_insight_key ex ts tc n b r :
  insight_key (update_insight ex ts tc n b r) = insight_key r.
Proof. unfold update_insight. destruct (decide _); reflexivity. Qed.

Lemma update_insight_id ex ts tc n b r :
  SugarInsight.id (update_insight ex ts tc n b r) = SugarInsight.id r.
Proof. unfold update_insight. destruct (decide _); reflexivity. Qed.

Lemma filter_update_insight ex ts tc n b user_id date (rows : list SugarInsight.t) :
  filter (fun r => SugarInsight.user_id r = user_id ∧ SugarInsight.date r = date)
         (update_insight ex ts tc n b <$> rows)
  = update_insight ex ts tc n b <$>
      filter (fun r => SugarInsight.user_id r = user_id ∧ SugarInsight.date r = date) rows.
Proof.
  induction rows as [| r rows IH]; [reflexivity|].
  rewrite fmap_cons, !filter_cons, IH.
  assert (Hk : insight_key (update_insight ex ts tc n b r) = insight_key r)
    by apply update_insight_key.
  unfold insight_key in Hk. injection Hk as Hu Hd. rewrite Hu, Hd.
  destruct (decide _); reflexivity.
Qed.

Lemma update_insight_twice ex ex' ts tc n b r :
  SugarInsight.id ex' = SugarInsight.id ex ->
  update_insight ex' ts tc n b (update_insight ex ts tc n b r)
  = update_insight ex ts tc n b r.
Proof.
  intros Hid. unfold update_insight. rewrite Hid.
  destruct (decide (SugarInsight.id r = SugarInsight.id ex)) as [Heq | Hne]; cbn.
  - rewrite decide_True by exact Heq. reflexivity.
  - rewrite decide_False by exact Hne. reflexivity.
Qed.

(** The three outcomes of a recomputation: nothing to do, update in place,
    insert. *)
Lemma save_daily_insight_cases date user_id clk d :
  let day := default (today clk) date in
  let entries := tracker_entries user_id day d in
  match entries with
  | [] => save_daily_insight date user_id clk d = (d, false)
  | _ =>
      exists d', save_daily_insight date user_id clk d = (d', true)
        /\ food_items d' = food_items d /\ food_items_seq d' = food_items_seq d
        /\ daily_tracker d' = daily_tracker d
        /\ daily_tracker_seq d' = daily_tracker_seq d
        /\ favorite_foods d' = favorite_foods d
        /\ favorite_foods_seq d' = favorite_foods_seq d
        /\ match head (insight_rows user_id day d) with
           | Some ex =>
               sugar_insights d' =
                 update_insight ex (py_sum (DailyTracker.sugar_g <$> entries))
                   (py_sum (DailyTracker.calories <$> entries))
                   (Z.of_nat (length entries))
                   (F64.ltb who_limit (py_sum (DailyTracker.sugar_g <$> entries)))
                 <$> sugar_insights d
               /\ sugar_insights_seq d' = sugar_insights_seq d
           | None =>
               sugar_insights d' = sugar_insights d ++
                 [{| SugarInsight.id := sugar_insights_seq d;
                     SugarInsight.user_id := user_id;
                     SugarInsight.date := day;
                     SugarInsight.total_sugar_g := py_sum (DailyTracker.sugar_g <$> entries);
                     SugarInsight.total_calories := py_sum (DailyTracker.calories <$> entries);
                     SugarInsight.food_count := Z.of_nat (length entries);
                     SugarInsight.exceeded_limit :=
                       F64.ltb who_limit (py_sum (DailyTracker.sugar_g <$> entries));
                     SugarInsight.created_at := utcnow clk |}]
               /\ sugar_insights_seq d' = sugar_insights_seq d + 1
           end
  end.
Proof.
  cbn zeta. unfold save_daily_insight.
  destruct (tracker_entries user_id (default (today clk) date) d) as [| e l]; [reflexivity|].
  destruct (head (insight_rows user_id (default (today clk) date) d));
    eexists; (split; [reflexivity|]); cbn; tauto.
Qed.

Lemma db_ext (d d' : db) :
  food_items d = food_items d' -> food_items_seq d = food_items_seq d' ->
  daily_tracker d = daily_tracker d' -> daily_tracker_seq d = daily_tracker_seq d' ->
  favorite_foods d = favorite_foods d' -> favorite_foods_seq d = favorite_foods_seq d' ->
  sugar_insights d = sugar_insights d' -> sugar_insights_seq d = sugar_insights_seq d' ->
  d = d'.
Proof. destruct d, d'; cbn; intros; subst; reflexivity. Qed.

(** A recomputation keeps the aggregate keys distinct. *)
Lemma save_daily_insight_ok date user_id clk d :
  insights_ok d -> insights_ok (save_daily_insight date user_id clk d).1.
Proof.
  intros [Hnd Hfresh].
  pose proof (save_daily_insight_cases date user_id clk d) as Hc. cbn zeta in Hc.
  destruct (tracker_entries user_id (default (today clk) date) d) as [| e l];
    [rewrite Hc; split; assumption|].
  destruct Hc as (d' & -> & _ & _ & _ & _ & _ & _ & Hi). cbn [fst].
  unfold insights_ok.
  destruct (head (insight_rows user_id (default (today clk) date) d)) as [ex |] eqn:Hex;
    destruct Hi as [-> ->].
  - split.
    + rewrite <- list_fmap_compose.
      erewrite (list_fmap_ext _ insight_key); [exact Hnd|].
      intros i r _. apply update_insight_key.
    + apply Forall_fmap. eapply Forall_impl; [exact Hfresh|].
      intros r Hr. cbn. rewrite update_insight_id. exact Hr.
  - apply head_filter_None in Hex. split.
    + rewrite fmap_app. apply NoDup_app. split; [exact Hnd|]. split.
      * intros k Hk Hin. apply list_elem_of_fmap in Hk as (r & -> & Hr).
        apply list_elem_of_singleton in Hin. unfold insight_key in Hin. cbn in Hin.
        injection Hin as Hu Hd.
        eapply (filter_nil_not_elem_of _ _ r Hex); [|exact Hr]. split; assumption.
      * apply NoDup_singleton.
    + apply Forall_app. split.
      * eapply Forall_impl; [exact Hfresh|]. cbn. intros; lia.
      * constructor; [cbn; lia | constructor].
Qed.

Lemma run_call_ok d c : insights_ok d -> insights_ok (run_call text_eq_int d c).
Proof.
  intros Hok.
  destruct c as [clk [fd portion_g user_id | entry_id | date user_id | fd user_id
                     | favorite_id | user_id | date user_id]];
    cbn [run_call fst snd].
  - destruct (add_to_daily_tracker_insights fd portion_g user_id clk d) as [Hi Hs].
    unfold insights_ok. rewrite Hi, Hs. exact Hok.
  - unfold remove_from_daily_tracker. destruct (head _); exact Hok.
  - exact Hok.
  - destruct (add_to_favorites_insights fd user_id clk d) as [Hi Hs].
    unfold insights_ok. rewrite Hi, Hs. exact Hok.
  - unfold remove_from_favorites. destruct (head _); exact Hok.
  - exact Hok.
  - apply save_daily_insight_ok, Hok.
Qed.

Lemma run_ok calls : forall d, insights_ok d -> insights_ok (run text_eq_int calls d).
Proof.
  induction calls as [| c calls IH]; intros d Hok; [exact Hok|].
  cbn [run fold_left]. apply IH, run_call_ok, Hok.
Qed.

Lemma unique_key_row (rows : list SugarInsight.t) user_id date :
  NoDup (insight_key <$> rows) ->
  (length (filter (fun r => SugarInsight.user_id r = user_id
                            ∧ SugarInsight.date r = date) rows) <= 1)%nat.
Proof.
  induction rows as [| r rows IH]; intros Hnd; [cbn; lia|].
  rewrite fmap_cons in Hnd. apply NoDup_cons in Hnd as [Hnin Hnd].
  rewrite filter_cons. destruct (decide _) as [[Hu Hd] | _]; [|apply IH, Hnd].
  destruct (filter _ rows) as [| r' l] eqn:Hf; [cbn; lia|].
  exfalso. apply Hnin. apply list_elem_of_fmap. exists r'.
  assert (Hin : r' ∈ filter (fun r => SugarInsight.user_id r = user_id
                                      ∧ SugarInsight.date r = date) rows)
    by (rewrite Hf; apply list_elem_of_here).
  apply list_elem_of_filter in Hin as [[Hu' Hd'] Hin].
  split; [|exact Hin]. unfold insight_key. congruence.
Qed.

(** Recomputing right after a recomputation changes nothing. *)
Lemma save_daily_insight_again date user_id clk1 clk2 d :
  insights_ok d ->
  tracker_entries user_id (default (today clk1) date) d <> [] ->
  default (today clk2) date = default (today clk1) date ->
  exists d1,
    save_daily_insight date user_id clk1 d = (d1, true)
    /\ save_daily_insight date user_id clk2 d1 = (d1, true).
Proof.
  intros [Hnd Hfresh] Hne Hday.
  pose proof (save_daily_insight_cases date user_id clk1 d) as H1. cbn zeta in H1.
  set (day := default (today clk1) date) in *.
  destruct (tracker_entries user_id day d) as [| e l] eqn:He; [contradiction|].
  destruct H1 as (d1 & Hs1 & Hfi & Hfs & Hdt & Hds & Hff & Hffs & Hins).
  exists d1. split; [exact Hs1|].
  pose proof (save_daily_insight_cases date user_id clk2 d1) as H2. cbn zeta in H2.
  rewrite Hday in H2.
  assert (He1 : tracker_entries user_id day d1 = e :: l)
    by (unfold tracker_entries; rewrite Hdt; exact He).
  rewrite He1 in H2.
  destruct H2 as (d2 & Hs2 & Hfi2 & Hfs2 & Hdt2 & Hds2 & Hff2 & Hffs2 & Hins2).
  rewrite Hs2. f_equal.
  set (ts := py_sum (DailyTracker.sugar_g <$> e :: l)) in *.
  set (tc := py_sum (DailyTracker.calories <$> e :: l)) in *.
  set (n := Z.of_nat (length (e :: l))) in *.
  set (b := F64.ltb who_limit ts) in *.
  assert (Hagain : sugar_insights d2 = sugar_insights d1
                   /\ sugar_insights_seq d2 = sugar_insights_seq d1);
    [|destruct Hagain; apply db_ext; congruence].
  unfold insight_rows in Hins, Hins2.
  destruct (head (filter _ (sugar_insights d))) as [ex |] eqn:Hex;
    destruct Hins as [Hrows Hseq]; rewrite Hrows in Hins2 |- *.
  - rewrite filter_update_insight in Hins2.
    destruct (filter _ (sugar_insights d)) as [| ex0 rest]; [discriminate|].
    cbn in Hex. injection Hex as ->. cbn [fmap list_fmap head] in Hins2.
    destruct Hins2 as [-> ->]. split; [|reflexivity].
    rewrite <- list_fmap_compose. apply list_fmap_ext. intros i r _. cbn.
    apply update_insight_twice, update_insight_id.
  - apply head_filter_None in Hex.
    rewrite filter_app, Hex, filter_cons, decide_True in Hins2 by (cbn; tauto).
    cbn [app head filter] in Hins2. destruct Hins2 as [-> ->].
    split; [|reflexivity].
    rewrite fmap_app. f_equal.
    + rewrite <- (list_fmap_id (sugar_insights d)) at 2.
      apply Forall_fmap_ext_1. eapply Forall_impl; [exact Hfresh|].
      intros r Hr. cbn in Hr |- *. unfold update_insight. cbn.
      rewrite decide_False by lia. reflexivity.
    + cbn. unfold update_insight. cbn. rewrite decide_True by reflexivity. reflexivity.
Qed.

(** After a recomputation the first row of the pair holds the totals. *)
Lemma save_daily_insight_row date user_id clk d e l :
  tracker_entries user_id (default (today clk) date) d = e :: l ->
  exists d1 row,
    save_daily_insight date user_id clk d = (d1, true)
    /\ head (insight_rows user_id (default (today clk) date) d1) = Some row
    /\ SugarInsight.total_sugar_g row = py_sum (DailyTracker.sugar_g <$> e :: l)
    /\ SugarInsight.total_calories row = py_sum (DailyTracker.calories <$> e :: l)
    /\ SugarInsight.food_count row = Z.of_nat (length (e :: l))
    /\ SugarInsight.exceeded_limit row
       = F64.ltb who_limit (py_sum (DailyTracker.sugar_g <$> e :: l))
    /\ (forall ex, head (insight_rows user_id (default (today clk) date) d) = Some ex ->
          insight_identity <$> sugar_insights d1 = insight_identity <$> sugar_insights d
          /\ sugar_insights_seq d1 = sugar_insights_seq d).
Proof.
  intros He.
  pose proof (save_daily_insight_cases date user_id clk d) as H1. cbn zeta in H1.
  set (day := default (today clk) date) in *. rewrite He in H1.
  destruct H1 as (d1 & Hs1 & _ & _ & _ & _ & _ & _ & Hins).
  exists d1. unfold insight_rows in *.
  destruct (head (filter _ (sugar_insights d))) as [ex |] eqn:Hex;
    destruct Hins as [Hrows Hseq]; rewrite Hrows.
  - rewrite filter_update_insight.
    destruct (filter _ (sugar_insights d)) as [| ex0 rest]; [discriminate|].
    cbn in Hex. injection Hex as ->. cbn [fmap list_fmap head].
    eexists. split; [exact Hs1|]. split; [reflexivity|].
    unfold update_insight. rewrite decide_True by reflexivity. cbn.
    repeat split; try reflexivity.
    + rewrite <- list_fmap_compose. apply list_fmap_ext. intros i r _. cbn.
      apply update_insight_identity.
    + exact Hseq.
  - apply head_filter_None in Hex.
    rewrite filter_app, Hex, filter_cons, decide_True by (cbn; tauto).
    cbn [app head filter].
    eexists. split; [exact Hs1|]. split; [reflexivity|]. cbn.
    repeat split; try reflexivity; congruence.
Qed.

(** What a recomputation writes: the row of the pair holds the totals of
    the day's entries; an existing row keeps its id and creation time and
    the rows under other ids stay as they are, a new row is appended under
    the next id. *)
Lemma save_daily_insight_written date user_id clk d e l :
  tracker_entries user_id (default (today clk) date) d = e :: l ->
  exists d1 row,
    save_daily_insight date user_id clk d = (d1, true)
    /\ head (insight_rows user_id (default (today clk) date) d1) = Some row
    /\ SugarInsight.user_id row = user_id
    /\ SugarInsight.date row = default (today clk) date
    /\ SugarInsight.total_sugar_g row = py_sum (DailyTracker.sugar_g <$> e :: l)
    /\ SugarInsight.total_calories row = py_sum (DailyTracker.calories <$> e :: l)
    /\ SugarInsight.food_count row = Z.of_nat (length (e :: l))
    /\ SugarInsight.exceeded_limit row
       = F64.ltb who_limit (py_sum (DailyTracker.sugar_g <$> e :: l))
    /\ (forall ex, head (insight_rows user_id (default (today clk) date) d) = Some ex ->
          insight_identity row = insight_identity ex
          /\ (forall i r, sugar_insights d !! i = Some r ->
                SugarInsight.id r <> SugarInsight.id ex ->
                sugar_insights d1 !! i = Some r)
          /\ length (sugar_insights d1) = length (sugar_insights d)
          /\ sugar_insights_seq d1 = sugar_insights_seq d)
    /\ (insight_rows user_id (default (today clk) date) d = [] ->
          sugar_insights d1 = sugar_insights d ++ [row]
          /\ SugarInsight.id row = sugar_insights_seq d
          /\ SugarInsight.created_at row = utcnow clk
          /\ sugar_insights_seq d1 = sugar_insights_seq d + 1)
    /\ food_items d1 = food_items d
    /\ daily_tracker d1 = daily_tracker d
    /\ favorite_foods d1 = favorite_foods d.
Proof.
  intros He.
  pose proof (save_daily_insight_cases date user_id clk d) as H1. cbn zeta in H1.
  set (day := default (today clk) date) in *. rewrite He in H1.
  destruct H1 as (d1 & Hs1 & Hfi & _ & Hdt & _ & Hff & _ & Hins).
  exists d1. unfold insight_rows in *.
  destruct (head (filter _ (sugar_insights d))) as [ex |] eqn:Hex;
    destruct Hins as [Hrows Hseq]; rewrite Hrows.
  - rewrite filter_update_insight.
    destruct (filter _ (sugar_insights d)) as [| ex0 rest] eqn:Hf; [discriminate|].
    cbn in Hex. injection Hex as ->. cbn [fmap list_fmap head].
    assert (Hin : ex ∈ filter (fun r => SugarInsight.user_id r = user_id
                                       ∧ SugarInsight.date r = day) (sugar_insights d))
      by (rewrite Hf; apply list_elem_of_here).
    apply list_elem_of_filter in Hin as [[Hu Hd] _].
    eexists. split; [exact Hs1|]. split; [reflexivity|].
    unfold update_insight at 1 2 3 4 5 6. rewrite decide_True by reflexivity.
    cbn [SugarInsight.user_id SugarInsight.date SugarInsight.total_sugar_g
         SugarInsight.total_calories SugarInsight.food_count
         SugarInsight.exceeded_limit].
    split; [exact Hu|]. split; [exact Hd|].
    split; [reflexivity|]. split; [reflexivity|]. split; [reflexivity|].
    split; [reflexivity|]. split; [|split; [discriminate | auto]].
    intros ex' [= <-]. split; [apply update_insight_identity|]. split; [|split].
    + intros i r Hi Hne. rewrite list_lookup_fmap, Hi. cbn.
      unfold update_insight. rewrite decide_False by exact Hne. reflexivity.
    + apply length_fmap.
    + exact Hseq.
  - apply head_filter_None in Hex.
    rewrite filter_app, Hex, filter_cons, decide_True by (cbn; tauto).
    cbn [app head filter].
    eexists. split; [exact Hs1|]. split; [reflexivity|].
    cbn [SugarInsight.user_id SugarInsight.date SugarInsight.total_sugar_g
         SugarInsight.total_calories SugarInsight.food_count
         SugarInsight.exceeded_limit SugarInsight.id SugarInsight.created_at].
    split; [reflexivity|]. split; [reflexivity|].
    split; [reflexivity|]. split; [reflexivity|]. split; [reflexivity|].
    split; [reflexivity|]. split; [intros ex [=]|].
    split; [intros _; auto|]. auto.
Qed.

(** C2: over a store in which the aggregate keys are distinct and the key
    sequence is fresh (the empty store is one, and every call keeps it so),
    recomputing a day that has tracker entries succeeds, and recomputing it
    again, with no tracker change in between, gives back the very same
    store. After the recomputation exactly one aggregate row exists for
    the pair, and it holds what was computed: the sums of the sugar and of
    the calories of the day's entries, their number, and whether the sugar
    sum is above 25. When a row existed before, it is updated in place: it
    keeps its id and creation time, the rows under other ids are as they
    were, and the table keeps its rows' ids, keys and creation times and
    gains no row. When none existed, the row is appended under the next id.
    The other tables are not written. After any sequence of calls at most
    one row exists per [(user_id, date)]. *)
Theorem C2_recompute_idempotent_upsert :
  (forall date user_id clk1 clk2 d,
     insights_ok d ->
     tracker_entries user_id (default (today clk1) date) d <> [] ->
     default (today clk2) date = default (today clk1) date ->
     exists d1 row,
       save_daily_insight date user_id clk1 d = (d1, true)
       /\ save_daily_insight date user_id clk2 d1 = (d1, true)
       /\ insight_rows user_id (default (today clk1) date) d1 = [row]
       /\ (forall ex,
             head (insight_rows user_id (default (today clk1) date) d) = Some ex ->
             insight_identity <$> sugar_insights d1
               = insight_identity <$> sugar_insights d)
       /\ SugarInsight.user_id row = user_id
       /\ SugarInsight.date row = default (today clk1) date
       /\ (let entries := tracker_entries user_id (default (today clk1) date) d in
           SugarInsight.total_sugar_g row = py_sum (DailyTracker.sugar_g <$> entries)
           /\ SugarInsight.total_calories row = py_sum (DailyTracker.calories <$> entries)
           /\ SugarInsight.food_count row = Z.of_nat (length entries)
           /\ SugarInsight.exceeded_limit row
              = F64.ltb (F64.of_Z 25) (py_sum (DailyTracker.sugar_g <$> entries)))
       /\ (forall ex,
             head (insight_rows user_id (default (today clk1) date) d) = Some ex ->
             SugarInsight.id row = SugarInsight.id ex
             /\ SugarInsight.created_at row = SugarInsight.created_at ex
             /\ (forall i r, sugar_insights d !! i = Some r ->
                   SugarInsight.id r <> SugarInsight.id ex ->
                   sugar_insights d1 !! i = Some r)
             /\ length (sugar_insights d1) = length (sugar_insights d)
             /\ sugar_insights_seq d1 = sugar_insights_seq d)
       /\ (insight_rows user_id (default (today clk1) date) d = [] ->
             sugar_insights d1 = sugar_insights d ++ [row]
             /\ SugarInsight.id row = sugar_insights_seq d
             /\ SugarInsight.created_at row = utcnow clk1
             /\ sugar_insights_seq d1 = sugar_insights_seq d + 1)
       /\ food_items d1 = food_items d
       /\ daily_tracker d1 = daily_tracker d
       /\ favorite_foods d1 = favorite_foods d)
  /\ insights_ok empty_db
  /\ (forall calls d, insights_ok d ->
        insights_ok (run text_eq_int calls d)
        /\ forall user_id date,
             (length (insight_rows user_id date (run text_eq_int calls d)) <= 1)%nat).
Proof.
  split; [|split].
  - intros date user_id clk1 clk2 d Hok Hne Hday.
    destruct (save_daily_insight_again date user_id clk1 clk2 d Hok Hne Hday)
      as (d1 & Hs1 & Hs2).
    destruct (tracker_entries user_id (default (today clk1) date) d) as [| e l] eqn:He;
      [contradiction|].
    destruct (save_daily_insight_row date user_id clk1 d e l He)
      as (d1' & row' & Hs1' & Hrow' & _ & _ & _ & _ & Hup).
    rewrite Hs1 in Hs1'. injection Hs1' as <-.
    destruct (save_daily_insight_written date user_id clk1 d e l He)
      as (d1' & row & Hs1' & Hrow & Hu & Hd & Hts & Htc & Hn & Hb & Hex & Hnew
          & Hfi & Hdt & Hff).
    rewrite Hs1 in Hs1'. injection Hs1' as <-.
    exists d1, row. split; [exact Hs1|]. split; [exact Hs2|]. split.
    { pose proof (save_daily_insight_ok date user_id clk1 d Hok) as [Hnd _].
      rewrite Hs1 in Hnd. cbn [fst] in Hnd.
      pose proof (unique_key_row _ user_id (default (today clk1) date) Hnd) as Hlen.
      fold (insight_rows user_id (default (today clk1) date) d1) in Hlen.
      destruct (insight_rows user_id (default (today clk1) date) d1) as [| r [| r' rest]];
        cbn in Hrow, Hlen; [discriminate | congruence | lia]. }
    split; [intros ex Hex'; apply (Hup ex Hex')|].
    split; [exact Hu|]. split; [exact Hd|].
    split; [cbn zeta; auto|].
    split.
    { intros ex Hex'. destruct (Hex ex Hex') as (Hid & Hkeep & Hlen & Hseq).
      unfold insight_identity in Hid. injection Hid as Hi _ _ Hc. auto. }
    auto.
  - split; [constructor | constructor].
  - intros calls d Hok. pose proof (run_ok calls d Hok) as Hr.
    split; [exact Hr|]. intros user_id date. apply unique_key_row, Hr.
Qed.

Lemma scalable_truediv (n : pynum) :
  scalable n -> exists q, num_truediv n (NInt 100) = Ok q.
Proof.
  destruct n as [z | f]; cbn [scalable]; intros H.
  - unfold num_truediv. cbn [Z.eqb]. rewrite H. eexists; reflexivity.
  - eexists. reflexivity.
Qed.

Lemma add_to_daily_tracker_inv fd portion_g user_id clk d d1 :
  add_to_daily_tracker text_eq_int fd portion_g user_id clk d = (d1, true) ->
  exists q actual_sugar entry,
    num_truediv (sugar_g fd) (NInt 100) = Ok q
    /\ num_mul (NFloat q) portion_g = Ok actual_sugar
    /\ float_column actual_sugar = Ok (DailyTracker.sugar_g entry)
    /\ DailyTracker.user_id entry = user_id
    /\ DailyTracker.date entry = today clk
    /\ daily_tracker d1 = daily_tracker d ++ [entry]
    /\ sugar_insights d1 = sugar_insights d.
Proof.
  unfold add_to_daily_tracker.
  pose proof (save_food_item_frame fd clk d) as Hf.
  destruct (save_food_item text_eq_int fd clk d) as [d0 food_id].
  destruct Hf as (Hdt & _ & _ & _ & Hi & _). cbn [fst] in Hdt, Hi.
  destruct (add_tracker_entry_body fd portion_g user_id food_id clk d0) as [d2 |] eqn:Hb;
    [|discriminate].
  intros [= <-].
  apply add_tracker_entry_body_inv in Hb as (q & s & entry & Hq & Hm & Hc & Hu & Hd & ->).
  exists q, s, entry. cbn. rewrite Hdt, Hi. tauto.
Qed.

Lemma add_to_daily_tracker_succeeds fd portion_g user_id clk d :
  scalable (sugar_g fd) -> scalable (calories fd) ->
  (exists p, num_to_float portion_g = Ok p) ->
  exists d1, add_to_daily_tracker text_eq_int fd portion_g user_id clk d = (d1, true).
Proof.
  intros Hs Hc [p Hp]. unfold add_to_daily_tracker.
  destruct (save_food_item text_eq_int fd clk d) as [d0 food_id].
  unfold add_tracker_entry_body.
  destruct (scalable_truediv _ Hs) as [q ->]. destruct (scalable_truediv _ Hc) as [q' ->].
  cbn [mbind result_bind]. unfold num_mul, float_column.
  cbn [num_to_float mbind result_bind]. rewrite Hp. cbn [mbind result_bind num_to_float].
  eexists; reflexivity.
Qed.

(** C3: a tracker entry that is written holds [sugar_g / 100 * portion_g]
    of the food record, computed when it is created. Tracking 250 g (as an
    int or as a float) of a food whose record has 10.6 g of sugar per 100 g
    succeeds and appends an entry whose [sugar_g] is exactly 26.5, the
    binary64 value of [10.6 / 100 * 250]; with no other entry of the user on
    that day, recomputing the day stores a row with [total_sugar_g = 26.5],
    [food_count = 1] and [exceeded_limit = True], 26.5 being greater than
    25.0. *)
Theorem C3_track_then_recompute :
  (forall fd portion_g user_id clk d d1,
     add_to_daily_tracker text_eq_int fd portion_g user_id clk d = (d1, true) ->
     exists q scaled entry,
       num_truediv (sugar_g fd) (NInt 100) = Ok q
       /\ num_mul (NFloat q) portion_g = Ok scaled
       /\ float_column scaled = Ok (DailyTracker.sugar_g entry)
       /\ daily_tracker d1 = daily_tracker d ++ [entry])
  /\ (forall fd portion_g user_id clk d,
        sugar_g fd = NFloat (F64.decimal 106 10) ->
        portion_g = NInt 250 \/ portion_g = NFloat (F64.of_Z 250) ->
        scalable (calories fd) ->
        tracker_entries user_id (today clk) d = [] ->
        exists d1 entry,
          add_to_daily_tracker text_eq_int fd portion_g user_id clk d = (d1, true)
          /\ daily_tracker d1 = daily_tracker d ++ [entry]
          /\ DailyTracker.sugar_g entry = F64.decimal 265 10
          /\ DailyTracker.user_id entry = user_id
          /\ DailyTracker.date entry = today clk
          /\ forall clk2, today clk2 = today clk ->
               exists d2 row,
                 save_daily_insight None user_id clk2 d1 = (d2, true)
                 /\ head (insight_rows user_id (today clk) d2) = Some row
                 /\ SugarInsight.total_sugar_g row = F64.decimal 265 10
                 /\ SugarInsight.food_count row = 1
                 /\ SugarInsight.exceeded_limit row = true).
Proof.
  split.
  { intros fd portion_g user_id clk d d1 Hadd.
    destruct (add_to_daily_tracker_inv _ _ _ _ _ _ Hadd)
      as (q & s & entry & Hq & Hm & Hc & _ & _ & Hdt & _).
    exists q, s, entry. auto. }
  intros fd portion_g user_id clk d Hsugar Hportion Hcal Hnone.
  destruct (add_to_daily_tracker_succeeds fd portion_g user_id clk d) as [d1 Hadd].
  { rewrite Hsugar. exact I. }
  { exact Hcal. }
  { destruct Hportion as [-> | ->]; eexists; reflexivity. }
  destruct (add_to_daily_tracker_inv _ _ _ _ _ _ Hadd)
    as (q & s & entry & Hq & Hm & Hc & Hu & Hd & Hdt & _).
  rewrite Hsugar in Hq. vm_compute in Hq. injection Hq as <-.
  assert (Hs : s = NFloat (F64.decimal 265 10)).
  { destruct Hportion as [-> | ->]; vm_compute in Hm; injection Hm as <-;
      vm_compute; reflexivity. }
  subst s. cbn in Hc. injection Hc as Hc.
  exists d1, entry. split; [exact Hadd|]. split; [exact Hdt|].
  split; [rewrite <- Hc; reflexivity|]. split; [exact Hu|]. split; [exact Hd|].
  intros clk2 Hday.
  assert (He : tracker_entries user_id (default (today clk2) None) d1 = [entry]).
  { cbn [default]. rewrite Hday. unfold tracker_entries in *. rewrite Hdt, filter_app, Hnone.
    rewrite filter_cons, decide_True by (split; assumption). reflexivity. }
  destruct (save_daily_insight_row None user_id clk2 d1 entry [] He)
    as (d2 & row & Hs & Hrow & Hts & _ & Hn & Hex & _).
  cbn [default] in Hrow. rewrite Hday in Hrow.
  exists d2, row. split; [exact Hs|]. split; [exact Hrow|].
  cbn [fmap list_fmap] in Hts, Hex. rewrite <- Hc in Hts, Hex.
  split; [rewrite Hts; vm_compute; reflexivity|]. split; [exact Hn|].
  rewrite Hex. vm_compute. reflexivity.
Qed.

Lemma add_to_favorites_duplicate fd user_id clk d :
  favorites_named user_id (name fd) d <> [] ->
  add_to_favorites text_eq_int fd user_id clk d = (d, false).
Proof.
  unfold add_to_favorites, favorites_named. intros Hne.
  destruct (filter _ (favorite_foods d)); [contradiction | reflexivity].
Qed.

Lemma add_to_favorites_added fd user_id clk d d1 :
  add_to_favorites text_eq_int fd user_id clk d = (d1, true) ->
  favorites_named user_id (name fd) d = []
  /\ exists favorite,
       favorite_foods d1 = favorite_foods d ++ [favorite]
       /\ FavoriteFood.user_id favorite = user_id
       /\ FavoriteFood.food_name favorite = name fd.
Proof.
  unfold add_to_favorites, favorites_named.
  destruct (head _) eqn:Hh; [discriminate|]. apply head_filter_None in Hh.
  pose proof (save_food_item_frame fd clk d) as Hf.
  destruct (save_food_item text_eq_int fd clk d) as [d0 food_id].
  destruct Hf as (_ & _ & Hfav & _). cbn [fst] in Hfav.
  destruct (add_favorite_body fd user_id food_id clk d0) as [d2 |] eqn:Hb; [|discriminate].
  intros [= <-]. split; [exact Hh|].
  apply add_favorite_body_inv in Hb as (favorite & Hu & Hn & ->).
  exists favorite. cbn. rewrite Hfav. tauto.
Qed.

(** C5: once a favorite has been added for [(user_id, food name)], adding
    the same food again returns [False] and leaves the favorites table as it
    was: exactly one favorite row exists for the pair. *)
Theorem C5_duplicate_favorite_is_refused fd user_id clk1 clk2 d d1 :
  add_to_favorites text_eq_int fd user_id clk1 d = (d1, true) ->
  exists d2,
    add_to_favorites text_eq_int fd user_id clk2 d1 = (d2, false)
    /\ favorite_foods d2 = favorite_foods d1
    /\ length (favorites_named user_id (name fd) d2) = 1%nat.
Proof.
  intros Hadd.
  apply add_to_favorites_added in Hadd as (Hnone & favorite & Hrows & Hu & Hn).
  assert (Hone : favorites_named user_id (name fd) d1 = [favorite]).
  { unfold favorites_named in *. rewrite Hrows, filter_app, Hnone.
    rewrite filter_cons, decide_True by (split; assumption). reflexivity. }
  exists d1. rewrite add_to_favorites_duplicate by (rewrite Hone; discriminate).
  rewrite Hone. auto.
Qed.

(** C10: when a favorite row exists for [(user_id, food name)],
    [add_to_favorites] returns [False] and the whole store, [food_items]
    included, is the store it was given: the duplicate check comes before
    [save_food_item] is called. *)
Theorem C10_duplicate_favorite_writes_nothing fd user_id clk d :
  (exists r, r ∈ favorite_foods d
             /\ FavoriteFood.user_id r = user_id
             /\ FavoriteFood.food_name r = name fd) ->
  add_to_favorites text_eq_int fd user_id clk d = (d, false).
Proof.
  intros (r & Hin & Hu & Hn). apply add_to_favorites_duplicate.
  intros Hnil. eapply (filter_nil_not_elem_of _ _ r Hnil); [|exact Hin].
  split; assumption.
Qed.

Lemma clear_daily_tracker_empties date user_id clk d :
  tracker_entries user_id (default (today clk) date)
    (clear_daily_tracker date user_id clk d).1 = [].
Proof.
  unfold clear_daily_tracker, tracker_entries. cbn.
  induction (daily_tracker d) as [| e l IH]; [reflexivity|].
  rewrite filter_cons. destruct (decide _) as [Hkeep | Hdrop].
  - rewrite filter_cons, decide_False by exact Hkeep. exact IH.
  - exact IH.
Qed.

(** C9: with no tracker entry for [(user_id, date)], [save_daily_insight]
    returns [False] and gives back the store unchanged. So after
    [clear_daily_tracker] has emptied the day, a recomputation leaves
    [sugar_insights] as it was before the clearing: the row stored for the
    pair stays, with its old totals. *)
Theorem C9_empty_day_leaves_stale_insight :
  (forall date user_id clk d,
     tracker_entries user_id (default (today clk) date) d = [] ->
     save_daily_insight date user_id clk d = (d, false))
  /\ (forall date user_id clk clk' d,
        default (today clk') date = default (today clk) date ->
        let cleared := (clear_daily_tracker date user_id clk d).1 in
        save_daily_insight date user_id clk' cleared = (cleared, false)
        /\ sugar_insights cleared = sugar_insights d
        /\ insight_rows user_id (default (today clk) date) cleared
           = insight_rows user_id (default (today clk) date) d).
Proof.
  assert (Hempty : forall date user_id clk d,
            tracker_entries user_id (default (today clk) date) d = [] ->
            save_daily_insight date user_id clk d = (d, false)).
  { intros date user_id clk d He. unfold save_daily_insight. rewrite He. reflexivity. }
  split; [exact Hempty|].
  intros date user_id clk clk' d Hday. cbn zeta. split; [|split; reflexivity].
  apply Hempty. rewrite Hday. apply clear_daily_tracker_empties.
Qed.

End StoreProperties.

Section StoreSamples.
Import Database Store.

(** Two recomputations of the day of the sample, an hour apart: one row,
    with 26.5 g from one entry, over the limit. *)
Lemma C2_recompute_twice_sample :
  exists d1 row,
    save_daily_insight None 1 monday tracked_cola = (d1, true)
    /\ save_daily_insight None 1 monday_later d1 = (d1, true)
    /\ insight_rows 1 "2024-03-04" d1 = [row]
    /\ SugarInsight.total_sugar_g row = F64.decimal 265 10
    /\ SugarInsight.food_count row = 1
    /\ SugarInsight.exceeded_limit row = true
    /\ SugarInsight.id row = 1.
Proof.
  destruct (C2_recompute_idempotent_upsert lenient) as [Htwice _].
  destruct (Htwice None 1 monday monday_later tracked_cola)
    as (d1 & row & H1 & H2 & H3 & _ & _ & _ & (Hts & _ & Hn & Hb) & _ & Hnew & _).
  - split; constructor.
  - vm_compute. discriminate.
  - reflexivity.
  - exists d1, row. split; [exact H1|]. split; [exact H2|]. split; [exact H3|].
    split; [rewrite Hts; vm_compute; reflexivity|].
    split; [rewrite Hn; vm_compute; reflexivity|].
    split; [rewrite Hb; vm_compute; reflexivity|].
    destruct Hnew as (_ & Hid & _); [vm_compute; reflexivity|].
    rewrite Hid. reflexivity.
Defined.


(** The end-to-end sample on an empty store. *)
Lemma C3_coca_cola_sample :
  exists d1 entry d2 row,
    add_to_daily_tracker lenient coca_cola (NInt 250) 1 monday empty_db = (d1, true)
    /\ daily_tracker d1 = [entry]
    /\ DailyTracker.sugar_g entry = F64.decimal 265 10
    /\ save_daily_insight None 1 monday_later d1 = (d2, true)
    /\ head (insight_rows 1 "2024-03-04" d2) = Some row
    /\ SugarInsight.total_sugar_g row = F64.decimal 265 10
    /\ SugarInsight.exceeded_limit row = true.
Proof.
  destruct (C3_track_then_recompute lenient) as [_ Htrack].
  destruct (Htrack coca_cola (NInt 250) 1 monday empty_db)
    as (d1 & entry & Hadd & Hdt & Hs & _ & _ & Hrec).
  - reflexivity.
  - left. reflexivity.
  - vm_compute. reflexivity.
  - reflexivity.
  - destruct (Hrec monday_later eq_refl) as (d2 & row & Hsave & Hrow & Hts & _ & Hex).
    exists d1, entry, d2, row. auto 10.
Defined.

(** Saving "Apple" twice for user 1. *)
Lemma C5_apple_twice_sample :
  exists d1 d2,
    add_to_favorites lenient apple 1 monday empty_db = (d1, true)
    /\ add_to_favorites lenient apple 1 monday_later d1 = (d2, false)
    /\ favorite_foods d2 = favorite_foods d1
    /\ length (favorites_named 1 "Apple" d2) = 1%nat.
Proof.
  assert (Hfirst : add_to_favorites lenient apple 1 monday empty_db = (apple_saved, true))
    by (vm_compute; reflexivity).
  destruct (C5_duplicate_favorite_is_refused lenient apple 1 monday monday_later
              empty_db apple_saved Hfirst) as (d2 & H2 & Hsame & Hone).
  exists apple_saved, d2. auto.
Defined.

(** A second "Apple" under another barcode: refused, and the food item
    [save_food_item] would have created is not there. *)
Lemma C10_other_barcode_sample :
  add_to_favorites lenient apple_other_barcode 1 monday_later apple_saved
    = (apple_saved, false)
  /\ length (food_items apple_saved) = 1%nat
  /\ length (food_items
               (save_food_item lenient apple_other_barcode monday_later apple_saved).1)
     = 2%nat.
Proof.
  split; [|split; vm_compute; reflexivity].
  apply (C10_duplicate_favorite_writes_nothing lenient).
  eexists. split; [apply list_elem_of_here|]. split; reflexivity.
Defined.

(** The day of the sample, recomputed, cleared and recomputed again: the
    row with 26.5 g is still there. *)
Lemma C9_stale_row_sample :
  let cleared := (clear_daily_tracker None 1 monday_later cola_recomputed).1 in
  daily_tracker cleared = []
  /\ save_daily_insight None 1 monday_later cleared = (cleared, false)
  /\ (SugarInsight.total_sugar_g <$> insight_rows 1 "2024-03-04" cleared)
     = [F64.decimal 265 10].
Proof.
  cbn zeta. destruct C9_empty_day_leaves_stale_insight as [Hempty Hclear].
  split; [vm_compute; reflexivity|]. split.
  - apply Hempty. vm_compute. reflexivity.
  - destruct (Hclear None 1 monday_later monday_later cola_recomputed eq_refl)
      as (_ & _ & Hrows).
    cbn [default today monday_later] in Hrows. rewrite Hrows.
    vm_compute. reflexivity.
Defined.

End StoreSamples.

(** ** database.py: weekly insights *)

Section WeeklyInsights.
Import Database Store.

(** The string order is transitive. *)
Lemma string_leb_trans (s1 s2 s3 : string) :
  String.leb s1 s2 = true -> String.leb s2 s3 = true -> String.leb s1 s3 = true.
Proof.
  unfold String.leb. revert s2 s3.
  induction s1 as [| c1 s1 IH]; intros [| c2 s2] [| c3 s3]; cbn;
    try reflexivity; try discriminate.
  unfold Ascii.compare.
  destruct (N.compare_spec (Ascii.N_of_ascii c1) (Ascii.N_of_ascii c2)) as [E12 | L12 | G12];
    destruct (N.compare_spec (Ascii.N_of_ascii c2) (Ascii.N_of_ascii c3)) as [E23 | L23 | G23];
    destruct (N.compare_spec (Ascii.N_of_ascii c1) (Ascii.N_of_ascii c3)) as [E13 | L13 | G13];
    try reflexivity; try discriminate; try lia.
  apply IH.
Qed.

Lemma date_desc_trans : Transitive date_desc.
Proof.
  intros r1 r2 r3 H12 H23. unfold date_desc in *.
  eapply string_leb_trans; eassumption.
Qed.

Lemma date_desc_total : Total date_desc.
Proof.
  intros r1 r2. unfold date_desc.
  destruct (String.leb_total (SugarInsight.date r2) (SugarInsight.date r1)); auto.
Qed.

Lemma StronglySorted_take_drop {A} (R : relation A) (l : list A) (n : nat) :
  StronglySorted R l ->
  StronglySorted R (take n l)
  /\ forall x y, x ∈ take n l -> y ∈ drop n l -> R x y.
Proof.
  intros Hs. rewrite <- (take_drop n l) in Hs.
  apply StronglySorted_app in Hs as (H1 & H2 & _). split; assumption.
Qed.

(** C6: [get_weekly_insights user_id days] returns dicts of stored rows of
    that user only, newest date first, as many as the smaller of [days] and
    the number of stored rows: the rows left out are not newer than the ones
    returned, and no row is made up for a missing day. With three stored
    days and [days = 7] it returns exactly three rows. *)
Theorem C6_weekly_insights_no_backfill (user_id : Z) (days : nat) (d : db) :
  let stored := filter (fun r => SugarInsight.user_id r = user_id) (sugar_insights d) in
  let result := get_weekly_insights user_id days d in
  length result = Nat.min days (length stored)
  /\ StronglySorted newest_first result
  /\ (exists returned left_out,
        result = summary_of <$> returned
        /\ returned ++ left_out ≡ₚ stored
        /\ forall r r', r ∈ returned -> r' ∈ left_out -> date_desc r r')
  /\ (length stored <= days -> length result = length stored)%nat
  /\ (length stored = 3%nat -> length (get_weekly_insights user_id 7 d) = 3%nat).
Proof.
  cbn zeta. unfold get_weekly_insights.
  set (stored := filter _ (sugar_insights d)).
  pose proof (@StronglySorted_merge_sort _ date_desc _ date_desc_trans date_desc_total stored)
    as Hsorted.
  pose proof (merge_sort_Permutation date_desc stored) as Hperm.
  assert (Hlen : length (merge_sort date_desc stored) = length stored)
    by (rewrite Hperm; reflexivity).
  destruct (StronglySorted_take_drop date_desc _ days Hsorted) as [Htake Hdrop].
  repeat split.
  - rewrite length_fmap, length_take, Hlen. reflexivity.
  - eapply StronglySorted_fmap; [|exact Htake]. intros r1 r2 H. exact H.
  - exists (take days (merge_sort date_desc stored)),
           (drop days (merge_sort date_desc stored)).
    split; [reflexivity|]. split; [rewrite take_drop; exact Hperm | exact Hdrop].
  - intros Hle. rewrite length_fmap, length_take, Hlen. lia.
  - intros H3. rewrite length_fmap, length_take, Hlen. rewrite H3. reflexivity.
Qed.

(** Three days of history for user 1 (and a row of user 2): three rows. *)
Lemma C6_three_days_sample :
  s_date <$> get_weekly_insights 1 7 three_days
    = ["2024-03-04"; "2024-03-02"; "2024-03-01"]
  /\ length (get_weekly_insights 1 7 three_days) = 3%nat.
Proof.
  split; [vm_compute; reflexivity|].
  destruct (C6_weekly_insights_no_backfill 1 7 three_days) as (_ & _ & _ & _ & H3).
  apply H3. vm_compute. reflexivity.
Defined.

End WeeklyInsights.

(** * Further properties *)

(** ** utils.py: conversions, warning, tips and impact score *)

Section UtilsProperties.

Ltac cmp_cases :=
  repeat match goal with
         | H : context [Z.compare ?x ?y] |- _ => destruct (Z.compare_spec x y); subst
         | |- context [Z.compare ?x ?y] => destruct (Z.compare_spec x y); subst
         | H : context [Pos.compare_cont Eq ?x ?y] |- _ =>
             rewrite Pos.compare_cont_spec in H; cbn [Pos.switch_Eq] in H
         | |- context [Pos.compare_cont Eq ?x ?y] =>
             rewrite Pos.compare_cont_spec; cbn [Pos.switch_Eq]
         | H : context [Pos.compare ?x ?y] |- _ => destruct (Pos.compare_spec x y); subst
         | |- context [Pos.compare ?x ?y] => destruct (Pos.compare_spec x y); subst
         end.

Lemma SFleb_trans (a b c : spec_float) :
  SFleb a b = true -> SFleb b c = true -> SFleb a c = true.
Proof.
  unfold SFleb, SFcompare.
  destruct a as [sa | sa | | sa ma ea], b as [sb | sb | | sb mb eb],
    c as [sc | sc | | sc mc ec];
    try discriminate; try reflexivity;
    try destruct sa; try destruct sb; try destruct sc;
    try discriminate; try reflexivity;
    intros H1 H2; cmp_cases; cbn in *; try discriminate; try reflexivity; try lia.
Qed.

Lemma SFltb_not_leb (a b : spec_float) :
  SFltb a b = true -> SFleb b a = false.
Proof.
  unfold SFleb, SFltb, SFcompare.
  destruct a as [sa | sa | | sa ma ea], b as [sb | sb | | sb mb eb];
    try discriminate; try reflexivity;
    try destruct sa; try destruct sb;
    try discriminate; try reflexivity;
    intros H1; cmp_cases; cbn in *; try discriminate; try reflexivity; try lia.
Qed.

Lemma SFleb_total_or_nan (a b : spec_float) :
  SFleb a b = false -> SFltb b a = true \/ a = S754_nan \/ b = S754_nan.
Proof.
  unfold SFleb, SFltb, SFcompare.
  destruct a as [sa | sa | | sa ma ea], b as [sb | sb | | sb mb eb];
    try discriminate; auto;
    try destruct sa; try destruct sb;
    try discriminate; auto;
    intros H1; cmp_cases; cbn in *; try discriminate; auto; try lia.
Qed.

Lemma num_le_int_down (a b : pynum) (k : Z) :
  num_le a b -> num_le_int b k = true -> num_le_int a k = true.
Proof.
  destruct a as [x | f], b as [y | g]; cbn; try contradiction.
  - intros Hxy Hy. apply Z.leb_le. apply Z.leb_le in Hy. lia.
  - intros Hfg Hg. unfold F64.leb in *. eapply SFleb_trans; eassumption.
Qed.

(** X1: The warning never gets milder as the sugar content grows: for two ints
    or two floats with [a <= b], the colour for [a] is at most as severe as
    the colour for [b], in the order green, yellow, red. *)
Theorem warning_is_monotone (a b : pynum) :
  num_le a b ->
  (severity (get_health_warning_color a).2 <= severity (get_health_warning_color b).2)%nat.
Proof.
  intros Hab. unfold get_health_warning_color.
  destruct (num_le_int b 5) eqn:Hb5.
  - rewrite (num_le_int_down a b 5 Hab Hb5). cbn. lia.
  - destruct (num_le_int b 15) eqn:Hb15.
    + rewrite (num_le_int_down a b 15 Hab Hb15).
      destruct (num_le_int a 5); cbn; lia.
    + destruct (num_le_int a 5); [cbn; lia|].
      destruct (num_le_int a 15); cbn; lia.
Qed.

(** 5.01 g and 15 g. *)
Lemma warning_is_monotone_sample :
  (severity (get_health_warning_color (NFloat (F64.decimal 501 100))).2
   <= severity (get_health_warning_color (NFloat (F64.of_Z 15))).2)%nat.
Proof.
  apply warning_is_monotone. vm_compute. reflexivity.
Defined.

Lemma num_le_int_up (a : pynum) (j k : Z) :
  j <= k -> F64.leb (F64.of_Z j) (F64.of_Z k) = true ->
  num_le_int a j = true -> num_le_int a k = true.
Proof.
  intros Hjk Hf. destruct a as [x | f]; unfold num_le_int.
  - intros H. apply Z.leb_le. apply Z.leb_le in H. lia.
  - intros H. unfold F64.leb in *. eapply SFleb_trans; eassumption.
Qed.

(** X2: The tips follow the warning colour: four tips when the colour is red
    (the sugar content is not [<= 15.0]), otherwise three. The search tab shows the first three
    of them, so it always shows three tips and never the fourth tip of the
    red list. *)
Theorem tips_follow_the_warning (sugar_content : pynum) :
  let color := (get_health_warning_color sugar_content).2 in
  length (get_sugar_health_tips sugar_content)
  = (if String.eqb color "red" then 4 else 3)%nat
  /\ (num_le_int sugar_content 15 = false <-> color = "red")
  /\ length (search_tab_tips sugar_content) = 3%nat
  /\ "Look for lower-sugar alternatives when possible."
     ∉ search_tab_tips sugar_content.
Proof.
  cbn zeta.
  unfold search_tab_tips, get_health_warning_color, get_sugar_health_tips.
  assert (Hnot : forall a b c : string,
            a <> "Look for lower-sugar alternatives when possible." ->
            b <> "Look for lower-sugar alternatives when possible." ->
            c <> "Look for lower-sugar alternatives when possible." ->
            "Look for lower-sugar alternatives when possible." ∉ [a; b; c]).
  { intros a b c Ha Hb Hc Hin.
    repeat (apply elem_of_cons in Hin as [Hin | Hin]; [congruence|]).
    inversion Hin. }
  destruct (num_le_int sugar_content 5) eqn:H5.
  - rewrite (num_le_int_up sugar_content 5 15) by (try lia; try exact H5; reflexivity).
    split; [reflexivity|]. split; [split; discriminate|]. split; [reflexivity|].
    apply Hnot; discriminate.
  - destruct (num_le_int sugar_content 15); cbn [app take snd].
    + split; [reflexivity|]. split; [split; discriminate|]. split; [reflexivity|].
      apply Hnot; discriminate.
    + split; [reflexivity|]. split; [split; reflexivity|]. split; [reflexivity|].
      apply Hnot; discriminate.
Qed.

(** 26.5 g: four tips, three of them shown. *)
Lemma tips_sample :
  length (get_sugar_health_tips (NFloat (F64.decimal 265 10))) = 4%nat
  /\ length (search_tab_tips (NFloat (F64.decimal 265 10))) = 3%nat.
Proof.
  destruct (tips_follow_the_warning (NFloat (F64.decimal 265 10)))
    as (Hlen & _ & Hshown & _).
  split; [|exact Hshown]. rewrite Hlen. vm_compute. reflexivity.
Defined.

Lemma fexp_normal (x : Z) :
  -1074 <= x - 53 -> fexp F64.prec F64.emax x = x - 53.
Proof. unfold fexp, emin, F64.prec, F64.emax. lia. Qed.

(** Rounding a mantissa of 53 bits, followed by [k] zero bits, drops the
    zero bits. *)
Lemma round_shifted (s : bool) (m : positive) (e : Z) (k : positive) :
  digits2_pos m = 53%positive ->
  digits2_pos (Pos.iter xO m k) = (53 + k)%positive ->
  SpecFloat.iter_pos shr_1 k
    {| shr_m := Zpos (Pos.iter xO m k); shr_r := false; shr_s := false |}
  = {| shr_m := Zpos m; shr_r := false; shr_s := false |} ->
  -1074 <= e + Zpos k <= 971 ->
  binary_round_aux F64.prec F64.emax s (Zpos (Pos.iter xO m k)) e loc_Exact
  = S754_finite s m (e + Zpos k).
Proof.
  intros Hd Hdk Hiter He.
  unfold binary_round_aux, shr_fexp.
  unfold Zdigits2 at 1. rewrite Hdk.
  rewrite fexp_normal by lia.
  replace (Zpos (53 + k) + e - 53 - e) with (Zpos k) by lia.
  unfold shr at 1. cbn [shr_record_of_loc]. rewrite Hiter.
  cbn [shr_m loc_of_shr_record round_nearest_even].
  unfold Zdigits2. rewrite Hd. rewrite fexp_normal by lia.
  replace (53 + (e + Zpos k) - 53 - (e + Zpos k)) with 0 by lia.
  cbn [shr shr_record_of_loc shr_m].
  replace (e + Zpos k <=? F64.emax - F64.prec) with true; [reflexivity|].
  symmetry. apply Z.leb_le. unfold F64.emax, F64.prec. lia.
Qed.

Lemma round_exact (s : bool) (m : positive) (e : Z) :
  digits2_pos m = 53%positive ->
  -1074 <= e <= 971 ->
  binary_round_aux F64.prec F64.emax s (Zpos m) e loc_Exact = S754_finite s m e.
Proof.
  intros Hd He.
  unfold binary_round_aux, shr_fexp.
  unfold Zdigits2 at 1. rewrite Hd. rewrite fexp_normal by lia.
  replace (53 + e - 53 - e) with 0 by lia.
  cbn [shr shr_record_of_loc shr_m loc_of_shr_record round_nearest_even].
  unfold Zdigits2. rewrite Hd. rewrite fexp_normal by lia.
  replace (53 + e - 53 - e) with 0 by lia.
  cbn [shr shr_record_of_loc shr_m].
  replace (e <=? F64.emax - F64.prec) with true; [reflexivity|].
  symmetry. apply Z.leb_le. unfold F64.emax, F64.prec. lia.
Qed.

Lemma mul_four (s : bool) (m : positive) (e : Z) :
  digits2_pos m = 53%positive ->
  -1076 <= e <= 969 ->
  F64.mul (S754_finite s m e) (F64.of_Z 4) = S754_finite s m (e + 2).
Proof.
  intros Hd He.
  change (F64.of_Z 4) with (S754_finite false 4503599627370496 (-50)).
  unfold F64.mul, SFmul. rewrite xorb_false_r.
  assert (Hm : (m * 4503599627370496)%positive = Pos.iter xO m 52)
    by (rewrite Pos.mul_comm; reflexivity).
  rewrite Hm. rewrite (round_shifted s m (e + -50) 52 Hd).
  - f_equal. lia.
  - cbn [Pos.iter digits2_pos]. rewrite Hd. reflexivity.
  - reflexivity.
  - lia.
Qed.

Lemma div_eucl_pow (m : positive) (k : positive) (b : positive) :
  Zpos (Pos.iter xO m k) = Zpos b * Zpos m ->
  Z.div_eucl (Zpos (Pos.iter xO m k)) (Zpos b) = (Zpos m, 0).
Proof.
  intros H. rewrite H.
  assert (Hdm : forall a b, Z.div_eucl a b = (a / b, a mod b)).
  { intros a c. unfold Z.div, Z.modulo. destruct (Z.div_eucl a c); reflexivity. }
  rewrite Hdm, (Z.mul_comm (Zpos b)), Z.div_mul, Z.mod_mul by lia. reflexivity.
Qed.

Lemma div_four (s : bool) (m : positive) (e : Z) :
  digits2_pos m = 53%positive ->
  -1072 <= e <= 971 ->
  F64.div (S754_finite s m e) (F64.of_Z 4) = S754_finite s m (e - 2).
Proof.
  intros Hd He.
  change (F64.of_Z 4) with (S754_finite false 4503599627370496 (-50)).
  unfold F64.div, SFdiv. rewrite xorb_false_r.
  unfold SFdiv_core_binary. unfold Zdigits2. rewrite Hd.
  change (Z.pos (digits2_pos 4503599627370496)) with 53.
  destruct (Z.eq_dec e (-1072)) as [-> | Hne].
  - change (Z.min (fexp F64.prec F64.emax (53 + -1072 - (53 + -50))) (-1072 - -50))
      with (-1074).
    change (-1072 - -50 - -1074) with 52.
    change (Z.shiftl (Z.pos m) 52) with (Zpos (Pos.iter xO m 52)).
    cbv beta iota.
    change (IntDef.Z.div_eucl (Z.pos (Pos.iter xO m 52)) 4503599627370496)
      with (Z.div_eucl (Z.pos (Pos.iter xO m 52)) 4503599627370496).
    rewrite (div_eucl_pow m 52 4503599627370496) by reflexivity.
    change (new_location 4503599627370496 0) with loc_Exact.
    apply round_exact; [exact Hd | lia].
  - replace (Z.min (fexp F64.prec F64.emax (53 + e - (53 + -50))) (e - -50))
      with (e - 3)
      by (rewrite fexp_normal by lia; lia).
    replace (e - -50 - (e - 3)) with 53 by lia.
    change (Z.shiftl (Z.pos m) 53) with (Zpos (Pos.iter xO (xO m) 52)).
    cbv beta iota.
    change (IntDef.Z.div_eucl (Z.pos (Pos.iter xO (xO m) 52)) 4503599627370496)
      with (Z.div_eucl (Z.pos (Pos.iter xO (xO m) 52)) 4503599627370496).
    rewrite (div_eucl_pow (xO m) 52 4503599627370496) by reflexivity.
    change (new_location 4503599627370496 0) with loc_Exact.
    change (Z.pos (xO m)) with (Zpos (Pos.iter xO m 1)).
    rewrite (round_shifted s m (e - 3) 1 Hd).
    + f_equal. lia.
    + cbn [Pos.iter digits2_pos]. rewrite Hd. reflexivity.
    + reflexivity.
    + lia.
Qed.

Lemma truediv_by_four (g : F64.t) :
  sugar_to_teaspoons (NFloat g) = Ok (F64.div g (F64.of_Z 4)).
Proof. reflexivity. Qed.

Lemma times_four (t : F64.t) :
  teaspoons_to_sugar (NFloat t) = Ok (NFloat (F64.mul t (F64.of_Z 4))).
Proof. reflexivity. Qed.

(** X3: Grams to teaspoons and back, in binary64. The two conversions undo each
    other on every float whose quarter (fourfold) is a float again: zeros,
    infinities and normal numbers from [2^-1020] on (below [2^1022]). They
    do not on the smallest positive float, whose quarter rounds to zero. *)
Theorem teaspoons_round_trip :
  (forall g, quarter_is_exact g ->
     exists t, sugar_to_teaspoons (NFloat g) = Ok t
               /\ teaspoons_to_sugar (NFloat t) = Ok (NFloat g))
  /\ (forall t, fourfold_is_exact t ->
        exists g, teaspoons_to_sugar (NFloat t) = Ok (NFloat g)
                  /\ sugar_to_teaspoons (NFloat g) = Ok t)
  /\ (exists t, sugar_to_teaspoons (NFloat tiniest) = Ok t
                /\ teaspoons_to_sugar (NFloat t) = Ok (NFloat F64.zero)).
Proof.
  split; [|split].
  - intros g Hg. rewrite truediv_by_four. eexists. split; [reflexivity|].
    rewrite times_four. do 2 f_equal.
    destruct g as [s | s | | s m e]; try (destruct s; reflexivity); try reflexivity.
    destruct Hg as [Hd He]. rewrite div_four by assumption.
    rewrite mul_four by (try assumption; lia). f_equal. lia.
  - intros t Ht. rewrite times_four. eexists. split; [reflexivity|].
    rewrite truediv_by_four. f_equal.
    destruct t as [s | s | | s m e]; try (destruct s; reflexivity); try reflexivity.
    destruct Ht as [Hd He]. rewrite mul_four by (try assumption; lia).
    rewrite div_four by (try assumption; lia). f_equal. lia.
  - eexists. split; reflexivity.
Qed.

(** 10.6 g, and 2.65 teaspoons. *)
Lemma teaspoons_round_trip_sample :
  (exists t, sugar_to_teaspoons (NFloat (F64.decimal 106 10)) = Ok t
             /\ teaspoons_to_sugar (NFloat t) = Ok (NFloat (F64.decimal 106 10)))
  /\ (exists g, teaspoons_to_sugar (NFloat (F64.decimal 265 100)) = Ok (NFloat g)
                /\ sugar_to_teaspoons (NFloat g) = Ok (F64.decimal 265 100)).
Proof.
  destruct teaspoons_round_trip as (Hg & Ht & _). split.
  - apply Hg. vm_compute. split; [reflexivity | split; discriminate].
  - apply Ht. vm_compute. split; [reflexivity | split; discriminate].
Defined.

(** *** Impact score *)

Lemma percentage_of_float (a : F64.t) (l : Z) (fl : F64.t) :
  F64.of_Z l = fl -> F64.eqb fl F64.zero = false ->
  calculate_daily_sugar_percentage (NFloat a) (Some (NFloat fl))
  = Ok (NFloat (F64.mul (F64.div a fl) (F64.of_Z 100))).
Proof.
  intros _ Hnz. unfold calculate_daily_sugar_percentage.
  change (default (NFloat who_limit) (Some (NFloat fl))) with (NFloat fl).
  unfold num_truediv. cbn [num_to_float mbind result_bind]. rewrite Hnz. reflexivity.
Qed.

Ltac band_done :=
  first [ reflexivity | lia | discriminate
        | intros; exfalso; lia | intros; exfalso; discriminate ].

(** X4: The impact score of a float sugar content, for any portion that
    converts to a float: the call returns, [actual_sugar_g] is
    [sugar_content / 100 * portion_size], the WHO percentage and the ADA
    percentage for women are the same number, the score is 1, 2, 3 or 4,
    score 1 goes with the green warning of the same amount and score 4 with
    the red one. *)
Theorem impact_score_is_defined (sugar_content p : F64.t) (portion_size : option pynum) :
  num_to_float (default (NFloat (F64.of_Z 100)) portion_size) = Ok p ->
  exists i,
    calculate_sugar_impact_score (NFloat sugar_content) portion_size = Ok i
    /\ actual_sugar_g i = NFloat (F64.mul (F64.div sugar_content (F64.of_Z 100)) p)
    /\ who_daily_percentage i = ada_female_percentage i
    /\ 1 <= impact_score i <= 4
    /\ (impact_score i = 1 <-> (get_health_warning_color (actual_sugar_g i)).2 = "green")
    /\ (impact_score i = 4 -> (get_health_warning_color (actual_sugar_g i)).2 = "red").
Proof.
  intros Hp.
  unfold calculate_sugar_impact_score.
  set (ps := default (NFloat (F64.of_Z 100)) portion_size) in *.
  change (num_truediv (NFloat sugar_content) (NInt 100))
    with (Ok (A:=F64.t) (F64.div sugar_content (F64.of_Z 100))).
  cbn [mbind result_bind].
  set (q := F64.div sugar_content (F64.of_Z 100)).
  assert (Hmul : num_mul (NFloat q) ps = Ok (NFloat (F64.mul q p))).
  { unfold num_mul. cbn [num_to_float mbind result_bind]. rewrite Hp. reflexivity. }
  rewrite Hmul. cbn [mbind result_bind].
  set (actual := F64.mul q p).
  rewrite truediv_by_four. cbn [mbind result_bind].
  rewrite (percentage_of_float actual 25 (F64.of_Z 25)) by reflexivity.
  rewrite (percentage_of_float actual 36 (F64.of_Z 36)) by reflexivity.
  cbn [mbind result_bind].
  assert (H5_15 := num_le_int_up (NFloat actual) 5 15 ltac:(lia) eq_refl).
  assert (H10_15 := num_le_int_up (NFloat actual) 10 15 ltac:(lia) eq_refl).
  assert (H15_20 := num_le_int_up (NFloat actual) 15 20 ltac:(lia) eq_refl).
  unfold get_health_warning_color.
  destruct (num_le_int (NFloat actual) 5) eqn:H5;
    [|destruct (num_le_int (NFloat actual) 10) eqn:H10;
      [|destruct (num_le_int (NFloat actual) 20) eqn:H20]];
    (eexists; split; [reflexivity|]);
    cbn [actual_sugar_g who_daily_percentage ada_female_percentage impact_score];
    rewrite ?H5.
  - cbn [snd]. repeat split; band_done.
  - rewrite (H10_15 eq_refl). cbn [snd].
    repeat split; band_done.
  - destruct (num_le_int (NFloat actual) 15); cbn [snd];
      repeat split; band_done.
  - destruct (num_le_int (NFloat actual) 15) eqn:H15.
    + discriminate (H15_20 eq_refl).
    + cbn [snd]. repeat split; band_done.
Qed.

(** 26.5 g in the default portion of 100 g: score 4. *)
Lemma impact_score_sample :
  exists i,
    calculate_sugar_impact_score (NFloat (F64.decimal 265 10)) None = Ok i
    /\ impact_score i = 4
    /\ (get_health_warning_color (actual_sugar_g i)).2 = "red".
Proof.
  destruct (impact_score_is_defined (F64.decimal 265 10) (F64.of_Z 100) None eq_refl)
    as (i & Hi & Ha & _ & _ & _ & H4).
  exists i. split; [exact Hi|].
  assert (Hscore : impact_score i = 4).
  { vm_compute in Hi. injection Hi as <-. reflexivity. }
  split; [exact Hscore | exact (H4 Hscore)].
Defined.

(** X5: The sugar the impact score reports for a food and a portion is the
    sugar [add_to_daily_tracker] stores for them: when the entry is
    written, the call with the same two arguments returns, and its
    [actual_sugar_g], stored in a float column, is the [sugar_g] of the
    entry. *)
Theorem impact_matches_tracked_sugar text_eq_int fd portion_g user_id clk d d1 :
  Database.add_to_daily_tracker text_eq_int fd portion_g user_id clk d = (d1, true) ->
  exists i entry,
    calculate_sugar_impact_score (Database.sugar_g fd) (Some portion_g) = Ok i
    /\ Database.daily_tracker d1 = Database.daily_tracker d ++ [entry]
    /\ Database.float_column (actual_sugar_g i)
       = Ok (Database.DailyTracker.sugar_g entry)
    /\ portion_size i = portion_g.
Proof.
  intros Hadd.
  apply add_to_daily_tracker_inv in Hadd
    as (q & a & entry & Hq & Hm & Hc & _ & _ & Hdt & _).
  unfold calculate_sugar_impact_score.
  change (default (NFloat (F64.of_Z 100)) (Some portion_g)) with portion_g.
  rewrite Hq. cbn [mbind result_bind]. rewrite Hm. cbn [mbind result_bind].
  assert (Ha : exists x, a = NFloat x).
  { revert Hm. unfold num_mul. cbn [num_to_float mbind result_bind].
    destruct (num_to_float portion_g); cbn [mbind result_bind]; [|discriminate].
    intros [= <-]. eauto. }
  destruct Ha as [x ->].
  rewrite truediv_by_four. cbn [mbind result_bind].
  rewrite (percentage_of_float x 25 (F64.of_Z 25)) by reflexivity.
  rewrite (percentage_of_float x 36 (F64.of_Z 36)) by reflexivity.
  cbn [mbind result_bind].
  destruct (num_le_int (NFloat x) 5);
    [|destruct (num_le_int (NFloat x) 10); [|destruct (num_le_int (NFloat x) 20)]];
    eexists _, entry; (split; [reflexivity|]); (split; [exact Hdt|]);
    (split; [exact Hc | reflexivity]).
Qed.

(** 250 g of the sample food: 26.5 g both ways. *)
Lemma impact_matches_sample :
  exists i entry,
    calculate_sugar_impact_score (NFloat (F64.decimal 106 10)) (Some (NInt 250)) = Ok i
    /\ Database.daily_tracker Store.tracked_cola = [entry]
    /\ actual_sugar_g i = NFloat (Database.DailyTracker.sugar_g entry).
Proof.
  destruct (impact_matches_tracked_sugar Store.lenient Store.coca_cola (NInt 250) 1
              Store.monday Database.empty_db Store.tracked_cola)
    as (i & entry & Hi & Hdt & Hc & _).
  - vm_compute. reflexivity.
  - exists i, entry. split; [exact Hi|]. split; [exact Hdt|].
    destruct (actual_sugar_g i) as [z | x] eqn:Ha.
    + vm_compute in Hi. injection Hi as <-. discriminate.
    + injection Hc as ->. reflexivity.
Defined.

End UtilsProperties.

(** ** utils.py: input validation *)

Section Validation.

Lemma space_is_no_digit (c : N) : is_space c = true -> is_digit c = false.
Proof.
  intros Hc. apply bool_decide_eq_true in Hc.
  assert (Hall : forallb (fun x => negb (is_digit x)) whitespace = true)
    by (vm_compute; reflexivity).
  rewrite forallb_forall in Hall. apply negb_true_iff, Hall.
  apply list_elem_of_In, Hc.
Qed.

Lemma digit_is_no_space (c : N) : is_digit c = true -> is_space c = false.
Proof.
  intros Hd. destruct (is_space c) eqn:Hs; [|reflexivity].
  apply space_is_no_digit in Hs. congruence.
Qed.

Lemma lstrip_head (s : list N) :
  lstrip s = [] \/ exists c t, lstrip s = c :: t /\ is_space c = false.
Proof.
  induction s as [| c s IH]; [left; reflexivity|].
  cbn [lstrip]. destruct (is_space c) eqn:Hc; [exact IH|]. right. eauto.
Qed.

Lemma rstrip_idem (s : list N) : rstrip (rstrip s) = rstrip s.
Proof.
  induction s as [| c s IH]; [reflexivity|].
  cbn [rstrip]. destruct (rstrip s) as [| x r] eqn:Hr.
  - destruct (is_space c) eqn:Hc; [reflexivity|]. cbn [rstrip]. rewrite Hc. reflexivity.
  - change (rstrip (c :: x :: r))
      with (match rstrip (x :: r) with
            | [] => if is_space c then [] else [c]
            | rest => c :: rest
            end).
    rewrite IH. reflexivity.
Qed.

Lemma rstrip_head (c : N) (t : list N) :
  is_space c = false -> exists t', rstrip (c :: t) = c :: t'.
Proof.
  intros Hc. cbn [rstrip]. destruct (rstrip t); [rewrite Hc|]; eauto.
Qed.

Lemma strip_idem (s : list N) : strip (strip s) = strip s.
Proof.
  unfold strip. destruct (lstrip_head s) as [-> | (c & t & -> & Hc)]; [reflexivity|].
  destruct (rstrip_head c t Hc) as [t' Ht']. rewrite Ht'.
  cbn [lstrip]. rewrite Hc, <- Ht'. apply rstrip_idem.
Qed.

Lemma strip_nil (s : list N) : s = [] -> strip s = [].
Proof. intros ->. reflexivity. Qed.

(** X6: [validate_food_search_input] looks at the input with the white space
    around it taken off, and only at its length in code points: stripping
    the input first gives the same verdict and message, an input is
    accepted exactly when what is left has 2 to 100 characters, and exactly
    then the message is empty. *)
Theorem food_search_validation (input_value : list N) :
  validate_food_search_input (strip input_value)
  = validate_food_search_input input_value
  /\ ((validate_food_search_input input_value).1 = true
      <-> (2 <= length (strip input_value) <= 100)%nat)
  /\ ((validate_food_search_input input_value).1 = true
      <-> (validate_food_search_input input_value).2 = "").
Proof.
  unfold validate_food_search_input. rewrite strip_idem.
  assert (Hor : bool_decide (input_value = []) || bool_decide (strip input_value = [])
                = bool_decide (strip input_value = [])).
  { destruct (decide (input_value = [])) as [He | He].
    - rewrite (bool_decide_eq_true_2 _ He), (bool_decide_eq_true_2 _ (strip_nil _ He)).
      reflexivity.
    - rewrite (bool_decide_eq_false_2 _ He). reflexivity. }
  rewrite Hor, orb_diag.
  destruct (decide (strip input_value = [])) as [He | He].
  - rewrite (bool_decide_eq_true_2 _ He), He. cbn.
    repeat split; try discriminate; intros; lia.
  - rewrite (bool_decide_eq_false_2 _ He).
    assert (Hlen : (0 < length (strip input_value))%nat).
    { destruct (strip input_value); [contradiction | cbn; lia]. }
    destruct (Nat.ltb_spec (length (strip input_value)) 2);
      [cbn; repeat split; try discriminate; intros; lia|].
    destruct (Nat.ltb_spec 100 (length (strip input_value)));
      cbn; repeat split; try discriminate; intros; lia.
Qed.

(** Two letters between spaces and a no-break space; a single letter; and
    a single character beyond Latin-1. *)
Lemma food_search_sample :
  validate_food_search_input (code_points "  ok " ++ [160%N]) = (true, "")
  /\ validate_food_search_input (code_points " a ")
     = (false, "Please enter at least 2 characters.")
  /\ validate_food_search_input [26085%N]
     = (false, "Please enter at least 2 characters.").
Proof.
  split; [|split].
  - rewrite <- (proj1 (food_search_validation (code_points "  ok " ++ [160%N]))).
    vm_compute. reflexivity.
  - rewrite <- (proj1 (food_search_validation (code_points " a "))).
    vm_compute. reflexivity.
  - rewrite <- (proj1 (food_search_validation [26085%N])). vm_compute. reflexivity.
Defined.

Lemma remove_char_digits (c : N) (t : list N) :
  is_digit c = false -> forallb is_digit t = true -> remove_char c t = t.
Proof.
  intros Hc Ht. unfold remove_char.
  induction t as [| x t IH]; [reflexivity|].
  cbn [forallb] in Ht. apply andb_prop in Ht as [Hx Ht].
  rewrite filter_cons. destruct (decide (x <> c)) as [_ | Hxc].
  - f_equal. apply IH, Ht.
  - exfalso. assert (x = c) by (destruct (decide (x = c)); tauto). congruence.
Qed.

Lemma rstrip_digits (t : list N) : forallb is_digit t = true -> rstrip t = t.
Proof.
  induction t as [| x t IH]; [reflexivity|].
  cbn [forallb rstrip]. intros [Hx Ht]%andb_prop. rewrite (IH Ht).
  destruct t; [rewrite (digit_is_no_space x Hx)|]; reflexivity.
Qed.

Lemma strip_digits (t : list N) : forallb is_digit t = true -> strip t = t.
Proof.
  intros Ht. unfold strip. destruct t as [| x t]; [reflexivity|].
  pose proof Ht as Ht'. cbn [forallb] in Ht'. apply andb_prop in Ht' as [Hx _].
  cbn [lstrip]. rewrite (digit_is_no_space x Hx). apply rstrip_digits, Ht.
Qed.

Lemma lstrip_empty_digits (c1 c2 : N) (s : list N) :
  lstrip s = [] ->
  forallb is_digit (remove_char c1 (remove_char c2 s)) = true ->
  remove_char c1 (remove_char c2 s) = [].
Proof.
  unfold remove_char. induction s as [| x s IH]; [reflexivity|].
  cbn [lstrip]. destruct (is_space x) eqn:Hx; [|discriminate].
  intros Hs. rewrite filter_cons.
  destruct (decide (x <> c2)); [|apply IH, Hs].
  rewrite filter_cons. destruct (decide (x <> c1)); [|apply IH, Hs].
  cbn [forallb]. rewrite (space_is_no_digit x Hx). discriminate.
Qed.

Lemma strip_empty (s : list N) : strip s = [] -> lstrip s = [].
Proof.
  unfold strip. destruct (lstrip_head s) as [-> | (c & t & -> & Hc)]; [reflexivity|].
  destruct (rstrip_head c t Hc) as [t' ->]. discriminate.
Qed.

Lemma isdigit_forallb (s : list N) :
  isdigit s = true <-> s <> [] /\ forallb is_digit s = true.
Proof.
  destruct s as [| c s]; cbn [isdigit].
  - split; [discriminate | intros [H _]; contradiction].
  - split; [intros H; split; [discriminate | exact H] | tauto].
Qed.

(** X7: [validate_barcode_input] accepts a barcode exactly when, with its
    spaces and dashes taken out, it consists of digits (the characters
    [str.isdigit] holds of, in any script) and has 8, 12, 13 or 14 of them;
    an accepted barcode is accepted again in its cleaned form, which is
    also the form [search_food_by_barcode] puts into the address it
    requests. *)
Theorem barcode_validation (barcode : list N) :
  ((validate_barcode_input barcode).1 = true
   <-> forallb is_digit (clean_barcode barcode) = true
       /\ length (clean_barcode barcode) ∈ [8; 12; 13; 14]%nat)
  /\ ((validate_barcode_input barcode).1 = true ->
      validate_barcode_input (clean_barcode barcode) = (true, "")
      /\ barcode_url (clean_barcode barcode) = barcode_url barcode).
Proof.
  assert (Hnonempty : forall t : list N, length t ∈ [8; 12; 13; 14]%nat -> t <> []).
  { intros t Hlen ->. apply (bool_decide_eq_true_2 _) in Hlen.
    vm_compute in Hlen. discriminate. }
  assert (Hiff : (validate_barcode_input barcode).1 = true
   <-> forallb is_digit (clean_barcode barcode) = true
       /\ length (clean_barcode barcode) ∈ [8; 12; 13; 14]%nat).
  { unfold validate_barcode_input. cbn zeta. split.
    - destruct (bool_decide (barcode = []) || bool_decide (strip barcode = []));
        [discriminate|].
      destruct (isdigit (clean_barcode barcode)) eqn:Hd; [|discriminate].
      apply isdigit_forallb in Hd as [_ Hd]. cbn [negb].
      destruct (bool_decide _) eqn:Hlen; [|discriminate].
      apply bool_decide_eq_true in Hlen. auto.
    - intros [Hd Hlen]. pose proof (Hnonempty _ Hlen) as Hne.
      assert (H1 : barcode <> []) by (intros ->; apply Hne; reflexivity).
      assert (H2 : strip barcode <> []).
      { intros He. apply Hne.
        apply lstrip_empty_digits; [apply strip_empty, He | exact Hd]. }
      rewrite (bool_decide_eq_false_2 _ H1), (bool_decide_eq_false_2 _ H2).
      cbn [orb].
      rewrite (proj2 (isdigit_forallb _) (conj Hne Hd)). cbn [negb].
      rewrite bool_decide_eq_true_2 by exact Hlen. reflexivity. }
  split; [exact Hiff|]. intros Hok. apply Hiff in Hok as [Hd Hlen].
  assert (Hclean : clean_barcode (clean_barcode barcode) = clean_barcode barcode).
  { unfold clean_barcode at 1.
    rewrite (remove_char_digits 32) by (reflexivity || exact Hd).
    apply remove_char_digits; [reflexivity | exact Hd]. }
  split.
  - pose proof (Hnonempty _ Hlen) as Hne.
    unfold validate_barcode_input. cbn zeta.
    rewrite Hclean, (strip_digits _ Hd).
    rewrite (bool_decide_eq_false_2 _ Hne). cbn [orb].
    rewrite (proj2 (isdigit_forallb _) (conj Hne Hd)). cbn [negb].
    rewrite bool_decide_eq_true_2 by exact Hlen. reflexivity.
  - unfold barcode_url. rewrite Hclean. reflexivity.
Qed.

(** A barcode typed with spaces and dashes, and one of eight fullwidth
    digits. *)
Lemma barcode_sample :
  validate_barcode_input (code_points "5449-0000 00996") = (true, "")
  /\ validate_barcode_input (clean_barcode (code_points "5449-0000 00996")) = (true, "")
  /\ (validate_barcode_input (replicate 8 65296%N)).1 = true.
Proof.
  destruct (barcode_validation (code_points "5449-0000 00996")) as [_ Hclean].
  split; [vm_compute; reflexivity|]. split.
  - apply Hclean. vm_compute. reflexivity.
  - apply (barcode_validation (replicate 8 65296%N)).
    split; [vm_compute; reflexivity|].
    apply (bool_decide_eq_true_1 _). vm_compute. reflexivity.
Defined.

End Validation.

(** ** nutrition_api.py: the normalisers and the two searches *)

Section Normalisers.
Import NutritionAPI ProviderA.

(** The identity fields of a Provider-B record, and its description. *)
Lemma openfoodfacts_fields (product : gmap string pyval) (info : food_info) :
  _extract_openfoodfacts_data (PDict product) = Some info ->
  name info = default (PStr "Unknown Product") (product !! "product_name")
  /\ fdc_id info = default (PStr "") (product !! "code")
  /\ data_type info = PStr "OpenFoodFacts"
  /\ (py_truthy (default PNone (product !! "brands")) = false ->
      description info = Verbatim (default (PStr "") (product !! "brands")))
  /\ (py_truthy (default PNone (product !! "brands")) = true ->
      py_truthy (default PNone (product !! "categories")) = false ->
      description info = BrandCategory (default PNone (product !! "brands")) "")
  /\ (py_truthy (default PNone (product !! "brands")) = true ->
      forall s, product !! "categories" = Some (PStr s) -> s <> "" ->
      description info
      = BrandCategory (default PNone (product !! "brands")) (split_first ","%char s))
  /\ exists nutriments mg,
       default (PDict ∅) (product !! "nutriments") = PDict nutriments
       /\ py_mul (py_or (default (PInt 0) (nutriments !! "sodium_100g")) (PInt 0))
                 (PInt 1000) = Ok mg
       /\ description_well_formed product.
Proof.
  unfold _extract_openfoodfacts_data, extract_openfoodfacts_body.
  cbn [py_get mbind result_bind].
  destruct (default (PDict ∅) (product !! "nutriments")) as [| | | | | nutriments] eqn:Hn;
    cbn [py_get mbind result_bind catch_none]; try discriminate.
  destruct (py_mul _ (PInt 1000)) as [mg |] eqn:Hmg;
    cbn [mbind result_bind catch_none]; [|discriminate].
  destruct (py_truthy (default PNone (product !! "brands"))) eqn:Hb.
  - destruct (py_truthy (default PNone (product !! "categories"))) eqn:Hc.
    + destruct (product !! "categories") as [[| | | s | |] |] eqn:Hcat;
        cbn [default from_option id py_split_first mbind result_bind catch_none];
        try discriminate.
      intros [= <-]. cbn [name fdc_id data_type description set set_description].
      repeat split; try discriminate.
      * intros _ s' [= <-] _. reflexivity.
      * exists nutriments, mg. repeat split; try assumption.
        intros _ _. eauto.
    + cbn [mbind result_bind catch_none]. intros [= <-].
      cbn [name fdc_id data_type description set set_description].
      repeat split; try discriminate.
      * intros _ s Hs Hne. rewrite Hs in Hc. cbn in Hc.
        apply negb_false_iff, String.eqb_eq in Hc. contradiction.
      * exists nutriments, mg. repeat split; try assumption.
        intros _ Hc'. congruence.
  - intros [= <-]. cbn [name fdc_id data_type description set set_description].
    repeat split; try discriminate.
    exists nutriments, mg. repeat split; try assumption.
    intros Hb'. congruence.
Qed.


(** X8: The Provider-B normaliser returns a record exactly when the payload is a
    dict whose [nutriments] is a dict (or is left out), whose sodium value
    can be multiplied by 1000, and whose [categories] is a string whenever
    both [brands] and [categories] are truthy. The record then has the name
    under [product_name] ("Unknown Product" only when the key is missing: a
    null name is passed on as it is), the barcode under [code] and the data
    type "OpenFoodFacts". *)
Theorem provider_b_accepts (product : gmap string pyval) :
  (is_Some (_extract_openfoodfacts_data (PDict product))
   <-> exists nutriments mg,
         default (PDict ∅) (product !! "nutriments") = PDict nutriments
         /\ py_mul (py_or (default (PInt 0) (nutriments !! "sodium_100g")) (PInt 0))
                   (PInt 1000) = Ok mg
         /\ description_well_formed product)
  /\ (forall v, (forall d, v <> PDict d) -> _extract_openfoodfacts_data v = None)
  /\ (forall info,
        _extract_openfoodfacts_data (PDict product) = Some info ->
        name info = default (PStr "Unknown Product") (product !! "product_name")
        /\ fdc_id info = default (PStr "") (product !! "code")
        /\ data_type info = PStr "OpenFoodFacts").
Proof.
  split; [|split].
  - split.
    + intros [info Hinfo].
      apply openfoodfacts_fields in Hinfo as (_ & _ & _ & _ & _ & _ & H). exact H.
    + intros (nutriments & mg & Hn & Hmg & Hd).
      destruct (openfoodfacts_shape product nutriments mg Hn Hd Hmg) as (info & -> & _).
      eauto.
  - intros v Hv. destruct v; try reflexivity. exfalso. eapply Hv. reflexivity.
  - intros info Hinfo.
    apply openfoodfacts_fields in Hinfo as (H1 & H2 & H3 & _). auto.
Qed.

(** A product named by a null, with no nutrition data: accepted, and the
    name is passed on as [None]. *)
Lemma provider_b_null_name_sample :
  exists info,
    _extract_openfoodfacts_data (PDict unnamed_product) = Some info
    /\ name info = PNone.
Proof.
  destruct (provider_b_accepts unnamed_product) as (Hacc & _ & Hid).
  destruct (proj2 Hacc) as [info Hinfo].
  - exists ∅, (PInt 0). split; [reflexivity|]. split; [reflexivity|].
    intros Hb. vm_compute in Hb. discriminate.
  - exists info. split; [exact Hinfo|]. apply Hid in Hinfo as (Hname & _).
    exact Hname.
Defined.

(** X9: Provider B does not convert a value delivered as text: a non-empty
    string under a nutrient key is stored as that string, and under
    [sodium_100g] it is repeated 1000 times instead of being scaled. *)
Theorem provider_b_text_values (product nutriments : gmap string pyval) :
  default (PDict ∅) (product !! "nutriments") = PDict nutriments ->
  description_well_formed product ->
  (forall s, nutriments !! "sodium_100g" = Some (PStr s) -> s <> "" ->
     exists info,
       _extract_openfoodfacts_data (PDict product) = Some info
       /\ nutrient info sodium_mg = PStr (string_repeat 1000 s))
  /\ (forall info k s,
        _extract_openfoodfacts_data (PDict product) = Some info ->
        k <> sodium_mg ->
        nutriments !! off_key k = Some (PStr s) -> s <> "" ->
        nutrient info k = PStr s).
Proof.
  intros Hn Hd.
  assert (Htruthy : forall s, s <> "" -> py_or (PStr s) (PInt 0) = PStr s).
  { intros s Hs. unfold py_or. cbn [py_truthy].
    apply String.eqb_neq in Hs. rewrite Hs. reflexivity. }
  split.
  - intros s Hs Hne.
    destruct (openfoodfacts_shape product nutriments (PStr (string_repeat 1000 s)) Hn Hd)
      as (info & Hinfo & Hna & _).
    { rewrite Hs. cbn [default from_option id]. rewrite (Htruthy s Hne). reflexivity. }
    eauto.
  - intros info k s Hinfo Hk Hs Hne.
    pose proof Hinfo as Hfields.
    apply openfoodfacts_fields in Hfields as (_ & _ & _ & _ & _ & _ & n' & mg & Hn' & Hmg & _).
    rewrite Hn in Hn'. injection Hn' as <-.
    destruct (openfoodfacts_shape product nutriments mg Hn Hd Hmg)
      as (info' & Hinfo' & _ & Hother).
    rewrite Hinfo in Hinfo'. injection Hinfo' as <-.
    rewrite (Hother k Hk), Hs. cbn [default from_option id]. apply Htruthy, Hne.
Qed.

(** Sodium delivered as the text "0.4". *)
Lemma provider_b_text_sample :
  exists info,
    _extract_openfoodfacts_data (PDict text_sodium_product) = Some info
    /\ nutrient info sodium_mg = PStr (string_repeat 1000 "0.4").
Proof.
  destruct (provider_b_text_values text_sodium_product text_sodium_nutriments)
    as [Hsodium _].
  - reflexivity.
  - intros Hb. vm_compute in Hb. discriminate.
  - apply (Hsodium "0.4"); [reflexivity | discriminate].
Defined.

(** One turn of the Provider-A loop succeeds only on a dict whose nutrient
    name is a string or is left out. *)
Lemma nutrient_step_inv (fi fi' : food_info) (v : pyval) :
  nutrient_step fi v = Ok fi' -> exists e, v = PDict e /\ entry_ok e.
Proof.
  unfold nutrient_step. destruct v as [| | | | | e]; try discriminate.
  cbn [py_get mbind result_bind].
  destruct (default (PStr "") (e !! "nutrientName")) as [| | | s | |] eqn:Hs;
    try discriminate.
  intros _. exists e. split; [reflexivity|]. exists s. exact Hs.
Qed.

Lemma nutrient_loop_inv (items : list pyval) :
  forall fi fi', nutrient_loop fi items = Ok fi' ->
  Forall (fun v => exists e, v = PDict e /\ entry_ok e) items.
Proof.
  induction items as [| v items IH]; intros fi fi' Hloop; [constructor|].
  cbn [nutrient_loop] in Hloop.
  destruct (nutrient_step fi v) as [fi1 |] eqn:Hstep;
    cbn [mbind result_bind] in Hloop; [|discriminate].
  constructor; [eapply nutrient_step_inv, Hstep | eapply IH, Hloop].
Qed.

Lemma dicts_of (items : list pyval) :
  Forall (fun v => exists e, v = PDict e /\ entry_ok e) items ->
  exists entries, items = PDict <$> entries /\ Forall entry_ok entries.
Proof.
  induction 1 as [| v items (e & -> & He) _ (entries & -> & Hall)].
  - exists []. split; [reflexivity | constructor].
  - exists (e :: entries). split; [reflexivity | constructor; assumption].
Qed.

(** X10: The Provider-A normaliser, on a dict whose [foodNutrients] is a list
    (or is left out), returns a record exactly when every item of the list
    is a dict whose nutrient name is a string or is left out: one
    malformed item loses the whole food. The record has the name under
    [description] ("Unknown Food" only when the key is missing), the id
    under [fdcId] ([None] when missing) and the data type under
    [dataType]. A payload that is not a dict gives no record. *)
Theorem provider_a_accepts (food_data : gmap string pyval) (items : list pyval) :
  default (PList []) (food_data !! "foodNutrients") = PList items ->
  (is_Some (_extract_nutrition_data (PDict food_data))
   <-> Forall (fun v => exists e, v = PDict e /\ entry_ok e) items)
  /\ (forall info,
        _extract_nutrition_data (PDict food_data) = Some info ->
        name info = default (PStr "Unknown Food") (food_data !! "description")
        /\ fdc_id info = default PNone (food_data !! "fdcId")
        /\ data_type info = default (PStr "") (food_data !! "dataType")
        /\ description info
           = Verbatim (default (PStr "") (food_data !! "additionalDescriptions")))
  /\ (forall v, (forall d, v <> PDict d) -> _extract_nutrition_data v = None).
Proof.
  intros Hitems.
  assert (Hbody : _extract_nutrition_data (PDict food_data)
            = catch_none
                (nutrient_loop
                   {| name := default (PStr "Unknown Food") (food_data !! "description");
                      description :=
                        Verbatim (default (PStr "") (food_data !! "additionalDescriptions"));
                      fdc_id := default PNone (food_data !! "fdcId");
                      data_type := default (PStr "") (food_data !! "dataType");
                      nutrient := no_nutrients |} items)).
  { unfold _extract_nutrition_data, extract_nutrition_body.
    cbn [py_get mbind result_bind]. rewrite Hitems. reflexivity. }
  rewrite Hbody. split; [|split].
  - split.
    + intros [info Hinfo].
      destruct (nutrient_loop _ items) as [fi' |] eqn:Hloop; [|discriminate].
      eapply nutrient_loop_inv, Hloop.
    + intros Hall. destruct (dicts_of items Hall) as (entries & -> & Hok).
      destruct (nutrient_loop_fields entries Hok
                  {| name := default (PStr "Unknown Food") (food_data !! "description");
                     description :=
                       Verbatim (default (PStr "") (food_data !! "additionalDescriptions"));
                     fdc_id := default PNone (food_data !! "fdcId");
                     data_type := default (PStr "") (food_data !! "dataType");
                     nutrient := no_nutrients |}) as (fi' & -> & _).
      cbn [catch_none]. eauto.
  - intros info Hinfo.
    destruct (nutrient_loop _ items) as [fi' |] eqn:Hloop; [|discriminate].
    injection Hinfo as <-.
    pose proof (nutrient_loop_inv items _ _ Hloop) as Hall.
    destruct (dicts_of items Hall) as (entries & -> & Hok).
    destruct (nutrient_loop_fields entries Hok
                {| name := default (PStr "Unknown Food") (food_data !! "description");
                   description :=
                     Verbatim (default (PStr "") (food_data !! "additionalDescriptions"));
                   fdc_id := default PNone (food_data !! "fdcId");
                   data_type := default (PStr "") (food_data !! "dataType");
                   nutrient := no_nutrients |}) as (fi2 & Hloop2 & _ & H1 & H2 & H3 & H4).
    rewrite Hloop in Hloop2. injection Hloop2 as <-.
    rewrite H1, H2, H3, H4. auto.
  - intros v Hv. destruct v; try reflexivity. exfalso. eapply Hv. reflexivity.
Qed.

(** A food whose second nutrient entry is a bare number is lost. *)
Lemma provider_a_malformed_sample :
  _extract_nutrition_data (PDict malformed_food) = None.
Proof.
  assert (Hitems : default (PList []) (malformed_food !! "foodNutrients")
                   = PList [PDict (mk_entry 2000 "Sugars" (PInt 9)); PInt 7])
    by reflexivity.
  destruct (provider_a_accepts malformed_food _ Hitems) as (Hacc & _).
  destruct (_extract_nutrition_data _) as [info |] eqn:Hinfo; [|reflexivity].
  exfalso. assert (Hsome : is_Some (Some info)) by eauto.
  apply Hacc in Hsome. apply Forall_cons in Hsome as [_ Hsome].
  apply Forall_cons in Hsome as [(e & He & _) _]. discriminate.
Defined.

End Normalisers.

Section Search.
Import NutritionAPI.

(** Matching a status code against the literal 200. *)
Lemma status_200 {A} (status : Z) (a b : A) :
  match status with 200 => a | _ => b end = if status =? 200 then a else b.
Proof.
  destruct status as [| p | p]; try reflexivity.
  do 8 (destruct p as [p | p |]; try reflexivity).
Qed.

Lemma process_foods_omap (foods : list pyval) :
  process_foods foods = omap _extract_nutrition_data foods.
Proof.
  induction foods as [| food rest IH]; [reflexivity|].
  cbn [process_foods omap list_omap]. rewrite IH.
  destruct (_extract_nutrition_data food); reflexivity.
Qed.

Lemma length_omap {A B} (f : A -> option B) (l : list A) :
  (length (omap f l) <= length l)%nat.
Proof.
  induction l as [| x l IH]; [reflexivity|].
  cbn [omap list_omap]. destruct (f x); cbn [length]; lia.
Qed.

Lemma search_by_name_body_length (json : option pyval) (found : list food_info) :
  search_by_name_body json = Ok found -> (length found <= 3)%nat.
Proof.
  unfold search_by_name_body.
  destruct (reply_json json) as [data |]; cbn [mbind result_bind]; [|discriminate].
  destruct (py_get data "foods" (PList [])) as [foods |];
    cbn [mbind result_bind]; [|discriminate].
  destruct (negb (py_truthy foods)); [intros [= <-]; cbn; lia|].
  destruct (py_first_three foods) as [kept |] eqn:Hkept;
    cbn [mbind result_bind]; [|discriminate].
  intros [= <-]. rewrite process_foods_omap.
  etransitivity; [apply length_omap|].
  destruct foods; try discriminate; injection Hkept as <-;
    rewrite length_take; lia.
Qed.

(** X11: [search_food_by_name] never returns more than three foods. Any reply
    but a response of status 200 gives none; for a response of status 200
    whose body is a dict with a list under [foods], the result is made of
    the records of the first three items, in their order, an item that
    does not normalise being left out without hiding the others. *)
Theorem search_by_name_results :
  (forall reply, (length (search_food_by_name reply) <= 3)%nat)
  /\ (forall status json, status <> 200 ->
        search_food_by_name (Response status json) = [])
  /\ (forall d foods,
        d !! "foods" = Some (PList foods) ->
        search_food_by_name (Response 200 (Some (PDict d)))
        = omap _extract_nutrition_data (take 3 foods))
  /\ (forall d, d !! "foods" = None ->
        search_food_by_name (Response 200 (Some (PDict d))) = []).
Proof.
  split; [|split; [|split]].
  - intros [| | | status json]; try (cbn; lia).
    unfold search_food_by_name. rewrite status_200.
    destruct (status =? 200); [|cbn; lia].
    destruct (search_by_name_body json) as [found |] eqn:Hbody; [|cbn; lia].
    eapply search_by_name_body_length, Hbody.
  - intros status json Hne. unfold search_food_by_name. rewrite status_200.
    apply Z.eqb_neq in Hne. rewrite Hne. reflexivity.
  - intros d foods Hfoods. unfold search_food_by_name, search_by_name_body.
    cbn [reply_json py_get mbind result_bind]. rewrite Hfoods.
    cbn [default from_option id].
    destruct foods as [| food rest]; [reflexivity|].
    cbn [py_truthy negb py_first_three mbind result_bind].
    apply process_foods_omap.
  - intros d Hfoods. unfold search_food_by_name, search_by_name_body.
    cbn [reply_json py_get mbind result_bind]. rewrite Hfoods. reflexivity.
Qed.

(** X12: [search_food_by_barcode] returns one record or none. It returns the
    record [info] exactly when the reply is a response of status 200 whose
    body is a dict with a [status] equal to 1 and a [product] that the
    Provider-B normaliser turns into [info]. *)
Theorem search_by_barcode_results (reply : http_reply) :
  (length (search_food_by_barcode reply) <= 1)%nat
  /\ forall info,
       search_food_by_barcode reply = [info]
       <-> exists d product,
             reply = Response 200 (Some (PDict d))
             /\ py_eq_int (default PNone (d !! "status")) 1 = true
             /\ d !! "product" = Some product
             /\ _extract_openfoodfacts_data product = Some info.
Proof.
  destruct reply as [| | | status json];
    try (split; [cbn; lia|]; intros info; split;
         [discriminate | intros (d & product & Hr & _); discriminate]).
  unfold search_food_by_barcode. rewrite status_200.
  destruct (Z.eqb_spec status 200) as [-> | Hne].
  2: { split; [cbn; lia|]. intros info. split; [discriminate|].
       intros (d & product & [= Hs _] & _). contradiction. }
  unfold search_by_barcode_body.
  destruct json as [[| | | | | d] |]; cbn [reply_json py_get mbind result_bind];
    try (split; [cbn; lia|]; intros info; split;
         [discriminate | intros (d' & product & [=] & _)]).
  destruct (py_eq_int (default PNone (d !! "status")) 1) eqn:Hstatus; cbn [andb].
  2: { split; [cbn; lia|]. intros info. split; [discriminate|].
       intros (d' & product & [= <-] & Hs & _). congruence. }
  destruct (d !! "product") as [product |] eqn:Hproduct.
  2: { rewrite bool_decide_eq_false_2 by (intros [x Hx]; discriminate).
       split; [cbn; lia|]. intros info. split; [discriminate|].
       intros (d' & product & [= <-] & _ & Hp & _). congruence. }
  rewrite bool_decide_eq_true_2 by eauto.
  destruct (_extract_openfoodfacts_data product) as [found |] eqn:Hfound.
  - split; [cbn; lia|]. intros info. split.
    + intros [= <-]. exists d, product. auto.
    + intros (d' & product' & [= <-] & _ & Hp & Hf).
      rewrite Hproduct in Hp. injection Hp as <-. congruence.
  - split; [cbn; lia|]. intros info. split; [discriminate|].
    intros (d' & product' & [= <-] & _ & Hp & Hf).
    rewrite Hproduct in Hp. injection Hp as <-. congruence.
Qed.

(** Five items come back: the first and the third do not normalise, the
    second does, and the last two are beyond the first three. *)
Lemma search_by_name_sample :
  length (search_food_by_name (Response 200 (Some (PDict name_search_reply)))) = 1%nat
  /\ search_food_by_name (Response 403 (Some (PDict name_search_reply))) = [].
Proof.
  destruct search_by_name_results as (_ & Hstatus & Hfoods & _). split.
  - erewrite Hfoods by reflexivity. vm_compute. reflexivity.
  - apply Hstatus. lia.
Defined.

(** The sample product found by barcode; with the status as the text "1"
    nothing is found. *)
Lemma search_by_barcode_sample :
  (exists info,
     search_food_by_barcode (Response 200 (Some (PDict barcode_reply))) = [info]
     /\ nutrient info sodium_mg = PFloat (F64.of_Z 400))
  /\ search_food_by_barcode (Response 200 (Some (PDict barcode_reply_text_status))) = [].
Proof.
  split.
  - destruct (_extract_openfoodfacts_data (PDict sodium_sample)) as [info |] eqn:Hinfo;
      [|vm_compute in Hinfo; discriminate].
    exists info. split.
    + apply (search_by_barcode_results (Response 200 (Some (PDict barcode_reply)))).
      exists barcode_reply, (PDict sodium_sample).
      split; [reflexivity|]. split; [reflexivity|]. split; [reflexivity | exact Hinfo].
    + vm_compute in Hinfo. injection Hinfo as <-. reflexivity.
  - destruct (search_by_barcode_results
                (Response 200 (Some (PDict barcode_reply_text_status)))) as [Hlen Hiff].
    destruct (search_food_by_barcode _) as [| info rest] eqn:Hfound; [reflexivity|].
    exfalso. destruct rest; [|cbn in Hlen; lia].
    destruct (proj1 (Hiff info) eq_refl) as (d & product & [= <-] & Hstatus & _).
    vm_compute in Hstatus. discriminate.
Defined.

End Search.

(** ** database.py: keys, listings and favorites *)

Section StoreInvariants.
Import Database Store Keys.
Variable text_eq_int : option (string -> Z -> bool).

Lemma fresh_snoc {A} (id : A -> Z) (rows : list A) (seq : Z) (r : A) :
  fresh id rows seq -> id r = seq -> fresh id (rows ++ [r]) (seq + 1).
Proof.
  intros [Hnd Hlt] Hid. split.
  - rewrite fmap_app. apply NoDup_app. split; [exact Hnd|]. split.
    + intros k Hk Hin. apply list_elem_of_singleton in Hin. subst k.
      apply list_elem_of_fmap in Hk as (r' & Heq & Hr').
      rewrite Forall_forall in Hlt. specialize (Hlt r' Hr'). lia.
    + apply NoDup_singleton.
  - apply Forall_app. split.
    + eapply Forall_impl; [exact Hlt|]. cbn. intros; lia.
    + constructor; [lia | constructor].
Qed.

Lemma NoDup_fmap_filter {A B} (f : A -> B) (P : A -> Prop)
    `{!forall x, Decision (P x)} (l : list A) :
  NoDup (f <$> l) -> NoDup (f <$> filter P l).
Proof.
  induction l as [| x l IH]; [intros; constructor|].
  rewrite fmap_cons. intros [Hnin Hnd]%NoDup_cons.
  rewrite filter_cons. destruct (decide (P x)); [|apply IH, Hnd].
  rewrite fmap_cons. apply NoDup_cons. split; [|apply IH, Hnd].
  intros (y & Hy & Hin)%list_elem_of_fmap. apply Hnin.
  apply list_elem_of_fmap. exists y. split; [exact Hy|].
  apply list_elem_of_filter in Hin. tauto.
Qed.

Lemma fresh_filter {A} (id : A -> Z) (P : A -> Prop)
    `{!forall x, Decision (P x)} (rows : list A) (seq : Z) :
  fresh id rows seq -> fresh id (filter P rows) seq.
Proof.
  intros [Hnd Hlt]. split; [apply NoDup_fmap_filter, Hnd|].
  rewrite Forall_forall in *. intros r [_ Hr]%list_elem_of_filter. apply Hlt, Hr.
Qed.

(** What [save_food_item] does to the table it writes. *)
Lemma save_food_item_cases fd clk d :
  let r := save_food_item text_eq_int fd clk d in
  (r.1 = d)
  \/ (exists item,
        food_items r.1 = food_items d ++ [item]
        /\ food_items_seq r.1 = food_items_seq d + 1
        /\ FoodItem.id item = food_items_seq d
        /\ FoodItem.name item = name fd
        /\ FoodItem.external_id item = ext_id_str (fdc_id fd)
        /\ r.2 = Some (food_items_seq d)).
Proof.
  cbn zeta. unfold save_food_item, save_food_item_body.
  destruct (external_id_filter text_eq_int (fdc_id fd)) as [same_id |];
    cbn [mbind result_bind]; [|left; reflexivity].
  destruct (head _); [left; reflexivity|].
  destruct (float_column (sugar_g fd)); cbn [mbind result_bind]; [|left; reflexivity].
  destruct (float_column (calories fd)); cbn [mbind result_bind]; [|left; reflexivity].
  destruct (float_column (carbs_g fd)); cbn [mbind result_bind]; [|left; reflexivity].
  destruct (float_column (protein_g fd)); cbn [mbind result_bind]; [|left; reflexivity].
  destruct (float_column (fat_g fd)); cbn [mbind result_bind]; [|left; reflexivity].
  destruct (float_column (fiber_g fd)); cbn [mbind result_bind]; [|left; reflexivity].
  destruct (float_column (sodium_mg fd)); cbn [mbind result_bind]; [|left; reflexivity].
  right. eexists. cbn. repeat split; reflexivity.
Qed.

Lemma save_food_item_keys fd clk d :
  keys_ok d -> keys_ok (save_food_item text_eq_int fd clk d).1.
Proof.
  intros (Hf & Ht & Hv).
  pose proof (save_food_item_frame text_eq_int fd clk d) as (Hdt & Hds & Hff & Hfs & _ & _).
  destruct (save_food_item_cases fd clk d) as [-> | (item & Hi & Hs & Hid & _)];
    [exact (conj Hf (conj Ht Hv))|].
  unfold keys_ok. rewrite Hi, Hs, Hdt, Hds, Hff, Hfs.
  split; [|split; assumption]. apply fresh_snoc; assumption.
Qed.

(** What [add_to_daily_tracker] writes when it returns [True]. *)
Lemma add_to_daily_tracker_cases fd portion_g user_id clk d :
  let d0 := (save_food_item text_eq_int fd clk d).1 in
  let r := add_to_daily_tracker text_eq_int fd portion_g user_id clk d in
  r = (d0, false)
  \/ exists entry q actual_sugar,
       r.2 = true
       /\ food_items r.1 = food_items d0
       /\ food_items_seq r.1 = food_items_seq d0
       /\ daily_tracker r.1 = daily_tracker d ++ [entry]
       /\ daily_tracker_seq r.1 = daily_tracker_seq d + 1
       /\ favorite_foods r.1 = favorite_foods d
       /\ favorite_foods_seq r.1 = favorite_foods_seq d
       /\ sugar_insights r.1 = sugar_insights d
       /\ sugar_insights_seq r.1 = sugar_insights_seq d
       /\ DailyTracker.id entry = daily_tracker_seq d
       /\ DailyTracker.user_id entry = user_id
       /\ DailyTracker.food_name entry = name fd
       /\ DailyTracker.date entry = today clk
       /\ DailyTracker.consumed_at entry = utcnow clk
       /\ DailyTracker.food_item_id entry = (save_food_item text_eq_int fd clk d).2
       /\ num_truediv (sugar_g fd) (NInt 100) = Ok q
       /\ num_mul (NFloat q) portion_g = Ok actual_sugar
       /\ float_column actual_sugar = Ok (DailyTracker.sugar_g entry)
       /\ float_column portion_g = Ok (DailyTracker.portion_g entry).
Proof.
  cbn zeta. unfold add_to_daily_tracker.
  pose proof (save_food_item_frame text_eq_int fd clk d) as Hf.
  destruct (save_food_item text_eq_int fd clk d) as [d0 food_id].
  destruct Hf as (Hdt & Hds & Hff & Hfs & Hi & Hs). cbn [fst snd] in *.
  unfold add_tracker_entry_body.
  destruct (num_truediv (sugar_g fd) (NInt 100)) as [q |] eqn:Hq;
    cbn [mbind result_bind]; [|left; reflexivity].
  destruct (num_mul (NFloat q) portion_g) as [actual_sugar |] eqn:Hm;
    cbn [mbind result_bind]; [|left; reflexivity].
  destruct (num_truediv (calories fd) (NInt 100)) as [q' |];
    cbn [mbind result_bind]; [|left; reflexivity].
  destruct (num_mul (NFloat q') portion_g) as [actual_calories |];
    cbn [mbind result_bind]; [|left; reflexivity].
  destruct (float_column portion_g) as [portion |] eqn:Hp;
    cbn [mbind result_bind]; [|left; reflexivity].
  destruct (float_column actual_sugar) as [sugar |] eqn:Hsg;
    cbn [mbind result_bind]; [|left; reflexivity].
  destruct (float_column actual_calories) as [cal |];
    cbn [mbind result_bind]; [|left; reflexivity].
  right. eexists _, q, actual_sugar.
  cbn [fst snd food_items food_items_seq daily_tracker daily_tracker_seq
       favorite_foods favorite_foods_seq sugar_insights sugar_insights_seq].
  rewrite Hdt, Hds, Hff, Hfs, Hi, Hs. repeat split; try reflexivity; assumption.
Qed.

(** What [add_to_favorites] writes when it returns [True]. *)
Lemma add_to_favorites_cases fd user_id clk d :
  let d0 := (save_food_item text_eq_int fd clk d).1 in
  let r := add_to_favorites text_eq_int fd user_id clk d in
  (r.2 = false /\ (r.1 = d \/ r.1 = d0))
  \/ exists favorite,
       r.2 = true
       /\ favorites_named user_id (name fd) d = []
       /\ food_items r.1 = food_items d0
       /\ food_items_seq r.1 = food_items_seq d0
       /\ daily_tracker r.1 = daily_tracker d
       /\ daily_tracker_seq r.1 = daily_tracker_seq d
       /\ favorite_foods r.1 = favorite_foods d ++ [favorite]
       /\ favorite_foods_seq r.1 = favorite_foods_seq d + 1
       /\ sugar_insights r.1 = sugar_insights d
       /\ sugar_insights_seq r.1 = sugar_insights_seq d
       /\ FavoriteFood.id favorite = favorite_foods_seq d
       /\ FavoriteFood.user_id favorite = user_id
       /\ FavoriteFood.food_name favorite = name fd
       /\ FavoriteFood.food_data favorite = fd
       /\ FavoriteFood.added_at favorite = utcnow clk
       /\ FavoriteFood.food_item_id favorite = (save_food_item text_eq_int fd clk d).2.
Proof.
  cbn zeta. unfold add_to_favorites.
  destruct (head _) eqn:Hex; [left; split; [reflexivity | left; reflexivity]|].
  apply head_filter_None in Hex.
  pose proof (save_food_item_frame text_eq_int fd clk d) as Hf.
  destruct (save_food_item text_eq_int fd clk d) as [d0 food_id].
  destruct Hf as (Hdt & Hds & Hff & Hfs & Hi & Hs). cbn [fst snd] in *.
  unfold add_favorite_body.
  destruct (float_column (sugar_g fd)) as [s |];
    cbn [mbind result_bind]; [|left; split; [reflexivity | right; reflexivity]].
  destruct (float_column (calories fd)) as [c |];
    cbn [mbind result_bind]; [|left; split; [reflexivity | right; reflexivity]].
  right. eexists.
  cbn [fst snd food_items food_items_seq daily_tracker daily_tracker_seq
       favorite_foods favorite_foods_seq sugar_insights sugar_insights_seq].
  rewrite Hdt, Hds, Hff, Hfs, Hi, Hs. repeat split; try reflexivity. exact Hex.
Qed.

Lemma run_call_keys d c : keys_ok d -> keys_ok (run_call text_eq_int d c).
Proof.
  intros Hok.
  destruct c as [clk [fd portion_g user_id | entry_id | date user_id | fd user_id
                     | favorite_id | user_id | date user_id]];
    cbn [run_call fst snd].
  - pose proof (save_food_item_keys fd clk d Hok) as (Hf0 & Ht0 & Hv0).
    pose proof (save_food_item_frame text_eq_int fd clk d) as (Hdt & Hds & Hff & Hfs & _ & _).
    destruct (add_to_daily_tracker_cases fd portion_g user_id clk d)
      as [-> | (entry & q & a & _ & H1 & H2 & H3 & H4 & H5 & H6 & _ & _ & Hid & _)].
    + exact (conj Hf0 (conj Ht0 Hv0)).
    + unfold keys_ok. rewrite H1, H2, H3, H4, H5, H6.
      rewrite Hff, Hfs in Hv0. rewrite Hdt, Hds in Ht0.
      split; [exact Hf0|]. split; [|exact Hv0]. apply fresh_snoc; assumption.
  - unfold remove_from_daily_tracker. destruct (head _); [|exact Hok].
    destruct Hok as (Hf & Ht & Hv). cbn [fst]. unfold keys_ok. cbn.
    split; [exact Hf|]. split; [|exact Hv]. apply fresh_filter, Ht.
  - destruct Hok as (Hf & Ht & Hv). unfold clear_daily_tracker, keys_ok. cbn.
    split; [exact Hf|]. split; [|exact Hv]. apply fresh_filter, Ht.
  - pose proof (save_food_item_keys fd clk d Hok) as (Hf0 & Ht0 & Hv0).
    pose proof (save_food_item_frame text_eq_int fd clk d) as (Hdt & Hds & Hff & Hfs & _ & _).
    destruct (add_to_favorites_cases fd user_id clk d)
      as [[_ [-> | ->]] | (fav & _ & _ & H1 & H2 & H3 & H4 & H5 & H6 & _ & _ & Hid & _)].
    + exact Hok.
    + exact (conj Hf0 (conj Ht0 Hv0)).
    + unfold keys_ok. rewrite H1, H2, H3, H4, H5, H6.
      rewrite Hff, Hfs in Hv0. rewrite Hdt, Hds in Ht0.
      split; [exact Hf0|]. split; [exact Ht0|]. apply fresh_snoc; assumption.
  - unfold remove_from_favorites. destruct (head _); [|exact Hok].
    destruct Hok as (Hf & Ht & Hv). cbn [fst]. unfold keys_ok. cbn.
    split; [exact Hf|]. split; [exact Ht|]. apply fresh_filter, Hv.
  - destruct Hok as (Hf & Ht & Hv). unfold clear_favorites, keys_ok. cbn.
    split; [exact Hf|]. split; [exact Ht|]. apply fresh_filter, Hv.
  - pose proof (save_daily_insight_cases date user_id clk d) as Hc. cbn zeta in Hc.
    destruct (tracker_entries user_id (default (today clk) date) d) as [| e l];
      [rewrite Hc; exact Hok|].
    destruct Hc as (d' & -> & H1 & H2 & H3 & H4 & H5 & H6 & _). cbn [fst].
    unfold keys_ok. rewrite H1, H2, H3, H4, H5, H6. exact Hok.
Qed.

Lemma run_call_favorites d c : favorites_ok d -> favorites_ok (run_call text_eq_int d c).
Proof.
  intros Hok.
  destruct c as [clk [fd portion_g user_id | entry_id | date user_id | fd user_id
                     | favorite_id | user_id | date user_id]];
    cbn [run_call fst snd].
  - pose proof (save_food_item_frame text_eq_int fd clk d) as (_ & _ & Hff & _).
    destruct (add_to_daily_tracker_cases fd portion_g user_id clk d)
      as [-> | (entry & q & a & _ & _ & _ & _ & _ & H5 & _)]; cbn [fst];
      unfold favorites_ok; [rewrite Hff | rewrite H5]; exact Hok.
  - unfold remove_from_daily_tracker. destruct (head _); exact Hok.
  - exact Hok.
  - pose proof (save_food_item_frame text_eq_int fd clk d) as (_ & _ & Hff & _).
    destruct (add_to_favorites_cases fd user_id clk d)
      as [[_ [-> | ->]] | (fav & _ & Hnone & _ & _ & _ & _ & H5 & _ & _ & _ & _ & Hu & Hn & Hd & _)].
    + exact Hok.
    + unfold favorites_ok. rewrite Hff. exact Hok.
    + destruct Hok as [Hnd Hnm]. unfold favorites_ok. rewrite H5. split.
      * rewrite fmap_app. apply NoDup_app. split; [exact Hnd|]. split.
        -- intros k Hk Hin. apply list_elem_of_singleton in Hin. subst k.
           apply list_elem_of_fmap in Hk as (r & Heq & Hr).
           unfold favorite_key in Heq. injection Heq as Hu' Hn'.
           eapply (filter_nil_not_elem_of _ _ r Hnone); [|exact Hr].
           split; congruence.
        -- apply NoDup_singleton.
      * apply Forall_app. split; [exact Hnm|].
        constructor; [congruence | constructor].
  - unfold remove_from_favorites. destruct (head _); [|exact Hok].
    destruct Hok as [Hnd Hnm]. cbn [fst]. unfold favorites_ok. cbn. split.
    + apply NoDup_fmap_filter, Hnd.
    + rewrite Forall_forall in *. intros r [_ Hr]%list_elem_of_filter. apply Hnm, Hr.
  - destruct Hok as [Hnd Hnm]. unfold clear_favorites, favorites_ok. cbn. split.
    + apply NoDup_fmap_filter, Hnd.
    + rewrite Forall_forall in *. intros r [_ Hr]%list_elem_of_filter. apply Hnm, Hr.
  - pose proof (save_daily_insight_cases date user_id clk d) as Hc. cbn zeta in Hc.
    destruct (tracker_entries user_id (default (today clk) date) d) as [| e l];
      [rewrite Hc; exact Hok|].
    destruct Hc as (d' & -> & _ & _ & _ & _ & H5 & _). cbn [fst].
    unfold favorites_ok. rewrite H5. exact Hok.
Qed.

Lemma run_keys calls : forall d, keys_ok d -> keys_ok (run text_eq_int calls d).
Proof.
  induction calls as [| c calls IH]; intros d Hok; [exact Hok|].
  cbn [run fold_left]. apply IH, run_call_keys, Hok.
Qed.

Lemma run_favorites calls :
  forall d, favorites_ok d -> favorites_ok (run text_eq_int calls d).
Proof.
  induction calls as [| c calls IH]; intros d Hok; [exact Hok|].
  cbn [run fold_left]. apply IH, run_call_favorites, Hok.
Qed.


Lemma filter_idemp {A} (P : A -> Prop) `{!forall x, Decision (P x)} (l : list A) :
  filter P (filter P l) = filter P l.
Proof.
  induction l as [| x l IH]; [reflexivity|].
  rewrite filter_cons. destruct (decide (P x)) as [Hx | Hx]; [|exact IH].
  rewrite filter_cons. destruct (decide (P x)); [|contradiction]. f_equal. exact IH.
Qed.

Lemma filter_none {A} (P : A -> Prop) `{!forall x, Decision (P x)} (l : list A) :
  (forall x, x ∈ l -> ¬ P x) -> filter P l = [].
Proof.
  induction l as [| x l IH]; intros Hall; [reflexivity|].
  rewrite filter_cons. destruct (decide (P x)) as [Hx | Hx].
  - exfalso. apply (Hall x); [apply list_elem_of_here | exact Hx].
  - apply IH. intros y Hy. apply Hall. apply list_elem_of_further, Hy.
Qed.

Lemma filter_all {A} (P : A -> Prop) `{!forall x, Decision (P x)} (l : list A) :
  (forall x, x ∈ l -> P x) -> filter P l = l.
Proof.
  induction l as [| x l IH]; intros Hall; [reflexivity|].
  rewrite filter_cons. destruct (decide (P x)) as [Hx | Hx].
  - f_equal. apply IH. intros y Hy. apply Hall. apply list_elem_of_further, Hy.
  - exfalso. apply Hx, Hall, list_elem_of_here.
Qed.

Lemma NoDup_fmap_inj {A B} (f : A -> B) (l : list A) (x y : A) :
  NoDup (f <$> l) -> x ∈ l -> y ∈ l -> f x = f y -> x = y.
Proof.
  induction l as [| z l IH]; intros Hnd Hx Hy Hf; [inversion Hx|].
  rewrite fmap_cons in Hnd. apply NoDup_cons in Hnd as [Hnin Hnd].
  apply elem_of_cons in Hx as [-> | Hx]; apply elem_of_cons in Hy as [-> | Hy].
  - reflexivity.
  - exfalso. apply Hnin. rewrite Hf. apply list_elem_of_fmap. eauto.
  - exfalso. apply Hnin. rewrite <- Hf. apply list_elem_of_fmap. eauto.
  - apply IH; assumption.
Qed.

(** X13: Every table hands out fresh primary keys: on the empty store, and after
    any sequence of store calls on a store where it held, the ids of
    [food_items], [daily_tracker] and [favorite_foods] are pairwise distinct
    and below the next value of the table's sequence; so two tracker entries
    with the same id are the same entry. *)
Theorem primary_keys_stay_fresh :
  keys_ok empty_db
  /\ forall calls d,
       keys_ok d ->
       keys_ok (run text_eq_int calls d)
       /\ forall e1 e2,
            e1 ∈ daily_tracker (run text_eq_int calls d) ->
            e2 ∈ daily_tracker (run text_eq_int calls d) ->
            DailyTracker.id e1 = DailyTracker.id e2 -> e1 = e2.
Proof.
  split.
  - repeat split; constructor.
  - intros calls d Hok. pose proof (run_keys calls d Hok) as Hr.
    split; [exact Hr|]. destruct Hr as (_ & [Hnd _] & _).
    intros e1 e2. apply NoDup_fmap_inj, Hnd.
Qed.

(** X14: Removing a tracker entry by id, on a store with fresh keys: the entry
    with that id is taken out and every other entry stays, in order, whoever
    its user is; without such an entry the call returns [False] and leaves
    the store alone. *)
Theorem untrack_removes_that_entry (entry_id : Z) (d : db) :
  keys_ok d ->
  (forall l1 e l2,
     daily_tracker d = l1 ++ e :: l2 -> DailyTracker.id e = entry_id ->
     remove_from_daily_tracker entry_id d = (set_daily_tracker (l1 ++ l2) d, true))
  /\ ((forall e, e ∈ daily_tracker d -> DailyTracker.id e <> entry_id) ->
      remove_from_daily_tracker entry_id d = (d, false)).
Proof.
  intros (_ & [Hnd _] & _). split.
  - intros l1 e l2 Hsplit Hid. unfold remove_from_daily_tracker.
    rewrite Hsplit in Hnd |- *.
    rewrite fmap_app, fmap_cons in Hnd.
    apply NoDup_app in Hnd as (_ & Hl1 & Hnd).
    apply NoDup_cons in Hnd as [Hl2 _].
    assert (H1 : forall x, x ∈ l1 -> DailyTracker.id x <> entry_id).
    { intros x Hx Heq. apply (Hl1 (DailyTracker.id x)).
      - apply list_elem_of_fmap. eauto.
      - rewrite Heq, <- Hid. apply list_elem_of_here. }
    assert (H2 : forall x, x ∈ l2 -> DailyTracker.id x <> entry_id).
    { intros x Hx Heq. apply Hl2. rewrite Hid, <- Heq. apply list_elem_of_fmap. eauto. }
    rewrite filter_app, filter_cons.
    rewrite (filter_none _ l1) by exact H1.
    destruct (decide (DailyTracker.id e = entry_id)); [|contradiction].
    cbn [app head]. do 2 f_equal.
    rewrite filter_app, filter_cons.
    destruct (decide (DailyTracker.id e <> DailyTracker.id e)); [contradiction|].
    rewrite (filter_all _ l1) by (intros x Hx; rewrite Hid; apply H1, Hx).
    rewrite (filter_all _ l2) by (intros x Hx; rewrite Hid; apply H2, Hx).
    reflexivity.
  - intros Hnone. unfold remove_from_daily_tracker.
    rewrite (filter_none _ (daily_tracker d)) by exact Hnone. reflexivity.
Qed.


(** X15: Tracking a food puts it last in the user's list for the day: the new
    item has the next id of the table, the name of the food dict, the portion
    handed over and [sugar_g / 100 * portion_g] as its sugar; the lists of
    other users and of other dates are as they were. *)
Theorem tracked_food_is_listed fd portion_g user_id clk d d1 :
  add_to_daily_tracker text_eq_int fd portion_g user_id clk d = (d1, true) ->
  exists view q actual_sugar,
    (forall clk', today clk' = today clk ->
       get_daily_tracker None user_id clk' d1
       = get_daily_tracker None user_id clk' d ++ [view])
    /\ v_id view = daily_tracker_seq d
    /\ v_name view = name fd
    /\ v_time view = utcnow clk
    /\ num_truediv (sugar_g fd) (NInt 100) = Ok q
    /\ num_mul (NFloat q) portion_g = Ok actual_sugar
    /\ float_column actual_sugar = Ok (v_sugar_g view)
    /\ float_column portion_g = Ok (v_portion_g view)
    /\ (forall date user' clk',
          user' <> user_id \/ date <> today clk ->
          get_daily_tracker (Some date) user' clk' d1
          = get_daily_tracker (Some date) user' clk' d).
Proof.
  intros Hadd.
  destruct (add_to_daily_tracker_cases fd portion_g user_id clk d)
    as [Hr | (entry & q & a & _ & _ & _ & Hdt & _ & _ & _ & _ & _ & Hid & Hu & Hn
              & Hd & Ht & _ & Hq & Hm & Hs & Hp)];
    [rewrite Hadd in Hr; discriminate|].
  rewrite Hadd in Hdt. cbn [fst] in Hdt.
  exists (tracker_view_of entry), q, a.
  unfold get_daily_tracker, tracker_entries. rewrite Hdt.
  repeat split; try assumption.
  - intros clk' Hclk. cbn [from_option]. rewrite filter_app, fmap_app. f_equal.
    rewrite filter_cons.
    destruct (decide _) as [_ | Hno]; [reflexivity|].
    exfalso. apply Hno. split; congruence.
  - intros date user' clk' Hother. cbn [from_option]. unfold id.
    rewrite filter_app, filter_cons.
    destruct (decide _) as [[Hu' Hd'] | _];
      [exfalso; destruct Hother; congruence|].
    rewrite filter_nil, app_nil_r. reflexivity.
Qed.

(** X16: Clearing a day empties the list of that user for that date and nothing
    else: the lists of other users and dates, the food items, the favorites
    and the stored aggregates are as they were, and clearing again changes
    nothing. *)
Theorem clear_day_is_local (date : option string) (user_id : Z) (clk : clock) (d : db) :
  let day := default (today clk) date in
  let d1 := (clear_daily_tracker date user_id clk d).1 in
  (forall clk', get_daily_tracker (Some day) user_id clk' d1 = [])
  /\ (forall date' user' clk',
        user' <> user_id \/ date' <> day ->
        get_daily_tracker (Some date') user' clk' d1
        = get_daily_tracker (Some date') user' clk' d)
  /\ clear_daily_tracker date user_id clk d1 = (d1, true)
  /\ food_items d1 = food_items d
  /\ favorite_foods d1 = favorite_foods d
  /\ sugar_insights d1 = sugar_insights d.
Proof.
  cbn zeta. unfold clear_daily_tracker, get_daily_tracker, tracker_entries.
  cbn [fst set_daily_tracker daily_tracker food_items favorite_foods sugar_insights
       from_option]. unfold id.
  repeat split.
  - intros _. rewrite list_filter_filter. rewrite filter_none; [reflexivity|].
    intros x _ [H1 H2]. contradiction.
  - intros date' user' _ Hother. f_equal. rewrite list_filter_filter.
    apply list_filter_iff. intros x. split; [tauto|].
    intros [Hu Hd]. split; [tauto|]. intros [Hu' Hd']. destruct Hother; congruence.
  - unfold set_daily_tracker.
    cbn [daily_tracker food_items food_items_seq daily_tracker_seq favorite_foods
         favorite_foods_seq sugar_insights sugar_insights_seq].
    rewrite filter_idemp. reflexivity.
Qed.

(** X17: No sequence of store calls gives a user two favorites under one food
    name: the rows stay distinct by (user, food name), each named after the
    food dict it stores, and the names [get_favorites] lists for a user are
    pairwise distinct. *)
Theorem favorites_stay_unique (calls : list (clock * call)) (d : db) :
  favorites_ok d ->
  favorites_ok (run text_eq_int calls d)
  /\ forall user_id,
       NoDup (shown_name <$> get_favorites user_id (run text_eq_int calls d)).
Proof.
  intros Hok. pose proof (run_favorites calls d Hok) as Hr.
  split; [exact Hr|]. destruct Hr as [Hnd Hnm].
  intros user_id. unfold get_favorites. rewrite <- list_fmap_compose.
  rewrite merge_sort_Permutation.
  set (rows := favorite_foods (run text_eq_int calls d)) in *.
  apply NoDup_fmap_2_strong.
  - intros x y [Hux Hx]%list_elem_of_filter [Huy Hy]%list_elem_of_filter Heq.
    apply (NoDup_fmap_inj favorite_key rows); try assumption.
    rewrite Forall_forall in Hnm.
    unfold shown_name, compose, favorite_view_of in Heq. cbn [f_food] in Heq.
    rewrite <- (Hnm x Hx), <- (Hnm y Hy) in Heq.
    unfold favorite_key. congruence.
  - apply NoDup_filter. eapply NoDup_fmap_1, Hnd.
Qed.

#[local] Instance added_desc_trans : Transitive added_desc.
Proof. intros r1 r2 r3. unfold added_desc. lia. Qed.

#[local] Instance added_desc_total : Total added_desc.
Proof. intros r1 r2. unfold added_desc. lia. Qed.

(** X18: A food saved as a favorite is listed for its user with the dict that was
    handed over and the next id of the table; the user's list is otherwise
    the one before, the lists of other users are unchanged, and when the
    clock is past every stored favorite the new one comes first. *)
Theorem favorite_is_listed fd user_id clk d d1 :
  add_to_favorites text_eq_int fd user_id clk d = (d1, true) ->
  let view := {| f_food := fd; f_favorite_id := favorite_foods_seq d |} in
  get_favorites user_id d1 ≡ₚ view :: get_favorites user_id d
  /\ (forall user', user' <> user_id -> get_favorites user' d1 = get_favorites user' d)
  /\ (Forall (fun r => FavoriteFood.added_at r < utcnow clk) (favorite_foods d) ->
      head (get_favorites user_id d1) = Some view).
Proof.
  intros Hadd. cbn zeta.
  destruct (add_to_favorites_cases fd user_id clk d)
    as [[Hr _] | (fav & _ & _ & _ & _ & _ & _ & Hff & _ & _ & _ & Hid & Hu & Hn
                  & Hd & Ht & _)];
    [rewrite Hadd in Hr; discriminate|].
  rewrite Hadd in Hff. cbn [fst] in Hff.
  assert (Hview : favorite_view_of fav
                  = {| f_food := fd; f_favorite_id := favorite_foods_seq d |}).
  { unfold favorite_view_of. rewrite Hd, Hid. reflexivity. }
  unfold get_favorites. rewrite Hff.
  split; [|split].
  - rewrite filter_app, filter_cons.
    destruct (decide _) as [_ | Hno]; [|contradiction].
    rewrite !merge_sort_Permutation. rewrite filter_nil.
    rewrite fmap_app. cbn [fmap list_fmap]. rewrite Hview.
    symmetry. apply Permutation_cons_append.
  - intros user' Hother. rewrite filter_app, filter_cons.
    destruct (decide _) as [Hyes | _]; [congruence|].
    rewrite filter_nil, app_nil_r. reflexivity.
  - intros Hnew. rewrite filter_app, filter_cons.
    destruct (decide _) as [_ | Hno]; [|contradiction].
    rewrite filter_nil.
    set (old := filter (fun r => FavoriteFood.user_id r = user_id) (favorite_foods d)).
    pose proof (merge_sort_Permutation added_desc (old ++ [fav])) as Hperm.
    pose proof (StronglySorted_merge_sort added_desc (old ++ [fav])) as Hsorted.
    destruct (merge_sort added_desc (old ++ [fav])) as [| h t] eqn:Hm.
    { apply Permutation_nil_l in Hperm. destruct old; discriminate. }
    cbn [fmap list_fmap head]. f_equal. rewrite <- Hview. f_equal.
    assert (Hh : h ∈ old ++ [fav]) by (rewrite <- Hperm; apply list_elem_of_here).
    apply elem_of_app in Hh as [Hh | Hh]; [|apply list_elem_of_singleton in Hh; exact Hh].
    exfalso.
    assert (Hlt : FavoriteFood.added_at h < utcnow clk).
    { apply list_elem_of_filter in Hh as [_ Hh].
      rewrite Forall_forall in Hnew. apply Hnew, Hh. }
    assert (Hf : fav ∈ h :: t)
      by (rewrite Hperm; apply elem_of_app; right; apply list_elem_of_here).
    apply elem_of_cons in Hf as [-> | Hf]; [lia|].
    apply StronglySorted_inv in Hsorted as [_ Hall].
    rewrite Forall_forall in Hall. specialize (Hall fav Hf).
    unfold added_desc in Hall. lia.
Qed.

(** X19: Removing a favorite by its id, on a store with fresh keys, takes out
    that row and keeps the others in order; on a store without duplicate
    favorites the user then has no favorite under that food name, so the
    food can be added again. Clearing the favorites of a user empties that
    user's list and leaves the lists of the other users as they were. *)
Theorem favorites_removal (d : db) :
  (keys_ok d ->
   forall l1 r l2,
     favorite_foods d = l1 ++ r :: l2 ->
     remove_from_favorites (FavoriteFood.id r) d
     = (set_favorite_foods (l1 ++ l2) d, true)
     /\ (favorites_ok d ->
         favorites_named (FavoriteFood.user_id r) (FavoriteFood.food_name r)
           (set_favorite_foods (l1 ++ l2) d) = []))
  /\ (forall user_id,
        get_favorites user_id (clear_favorites user_id d).1 = []
        /\ forall user', user' <> user_id ->
             get_favorites user' (clear_favorites user_id d).1 = get_favorites user' d).
Proof.
  split.
  - intros (_ & _ & [Hnd _]) l1 r l2 Hsplit. split.
    + unfold remove_from_favorites. rewrite Hsplit in Hnd |- *.
      rewrite fmap_app, fmap_cons in Hnd.
      apply NoDup_app in Hnd as (_ & Hl1 & Hnd).
      apply NoDup_cons in Hnd as [Hl2 _].
      assert (H1 : forall x, x ∈ l1 -> FavoriteFood.id x <> FavoriteFood.id r).
      { intros x Hx Heq. apply (Hl1 (FavoriteFood.id x)).
        - apply list_elem_of_fmap. eauto.
        - rewrite Heq. apply list_elem_of_here. }
      assert (H2 : forall x, x ∈ l2 -> FavoriteFood.id x <> FavoriteFood.id r).
      { intros x Hx Heq. apply Hl2. rewrite <- Heq. apply list_elem_of_fmap. eauto. }
      rewrite filter_app, filter_cons.
      rewrite (filter_none _ l1) by exact H1.
      destruct (decide (FavoriteFood.id r = FavoriteFood.id r)); [|contradiction].
      cbn [app head]. do 2 f_equal.
      rewrite filter_app, filter_cons.
      destruct (decide (FavoriteFood.id r <> FavoriteFood.id r)); [contradiction|].
      rewrite (filter_all _ l1) by exact H1.
      rewrite (filter_all _ l2) by exact H2.
      reflexivity.
    + intros [Hkeys _]. unfold favorites_named, set_favorite_foods.
      cbn [favorite_foods]. rewrite Hsplit in Hkeys.
      rewrite fmap_app, fmap_cons in Hkeys.
      apply NoDup_app in Hkeys as (_ & Hl1 & Hkeys).
      apply NoDup_cons in Hkeys as [Hl2 _].
      apply filter_none. intros x Hx [Hu Hn].
      assert (Hkey : favorite_key x = favorite_key r)
        by (unfold favorite_key; congruence).
      apply elem_of_app in Hx as [Hx | Hx].
      * apply (Hl1 (favorite_key x)).
        -- apply list_elem_of_fmap. eauto.
        -- rewrite Hkey. apply list_elem_of_here.
      * apply Hl2. rewrite <- Hkey. apply list_elem_of_fmap. eauto.
  - intros user_id. unfold clear_favorites, get_favorites.
    cbn [fst set_favorite_foods favorite_foods]. split.
    + rewrite list_filter_filter. rewrite filter_none; [reflexivity|].
      intros x _ [H1 H2]. contradiction.
    + intros user' Hother. do 2 f_equal. rewrite list_filter_filter.
      apply list_filter_iff. intros x. split; [tauto|].
      intros Hu. split; [exact Hu | congruence].
Qed.

(** X20: Saving a food item twice. When the look-up recognises the text the
    external id is stored as (always so for a barcode, a string), the
    second save returns the id of the first and writes nothing. When the
    food has no external id ([None]), the look-up never matches and every
    save writes a further row under a new id. *)
Theorem save_food_item_twice fd clk clk' d d1 food_id :
  save_food_item text_eq_int fd clk d = (d1, Some food_id) ->
  (forall same_id,
     external_id_filter text_eq_int (fdc_id fd) = Ok same_id ->
     same_id (ext_id_str (fdc_id fd)) = true ->
     save_food_item text_eq_int fd clk' d1 = (d1, Some food_id))
  /\ (forall s, fdc_id fd = IdStr s ->
        save_food_item text_eq_int fd clk' d1 = (d1, Some food_id))
  /\ (fdc_id fd = IdNone ->
      food_id = food_items_seq d
      /\ exists d2,
           save_food_item text_eq_int fd clk' d1 = (d2, Some (food_id + 1))
           /\ length (food_items d2) = (length (food_items d) + 2)%nat).
Proof.
  intros Hsave.
  assert (Hmatch : forall same_id,
     external_id_filter text_eq_int (fdc_id fd) = Ok same_id ->
     same_id (ext_id_str (fdc_id fd)) = true ->
     save_food_item text_eq_int fd clk' d1 = (d1, Some food_id)).
  { intros same_id Hfilter Hself. revert Hsave.
    unfold save_food_item, save_food_item_body. rewrite Hfilter.
    cbn [mbind result_bind].
    destruct (head (filter _ (food_items d))) as [r |] eqn:Hex.
    - intros [= <- <-]. rewrite Hex. reflexivity.
    - apply head_filter_None in Hex.
      destruct (float_column (sugar_g fd)); cbn [mbind result_bind]; [|discriminate].
      destruct (float_column (calories fd)); cbn [mbind result_bind]; [|discriminate].
      destruct (float_column (carbs_g fd)); cbn [mbind result_bind]; [|discriminate].
      destruct (float_column (protein_g fd)); cbn [mbind result_bind]; [|discriminate].
      destruct (float_column (fat_g fd)); cbn [mbind result_bind]; [|discriminate].
      destruct (float_column (fiber_g fd)); cbn [mbind result_bind]; [|discriminate].
      destruct (float_column (sodium_mg fd)); cbn [mbind result_bind]; [|discriminate].
      intros [= <- <-]. cbn [food_items].
      rewrite filter_app, Hex, filter_cons. cbn [app].
      destruct (decide _) as [_ | Hno]; [reflexivity|].
      exfalso. apply Hno. split; [reflexivity | exact Hself]. }
  split; [exact Hmatch|]. split.
  - intros s Hs. apply (Hmatch (fun col => String.eqb col s)).
    + rewrite Hs. reflexivity.
    + rewrite Hs. apply String.eqb_refl.
  - intros Hnone. revert Hsave.
    unfold save_food_item, save_food_item_body. rewrite Hnone.
    cbn [external_id_filter mbind result_bind].
    rewrite (filter_none _ (food_items d)) by (intros x _ [_ Hx]; discriminate).
    cbn [head].
    destruct (float_column (sugar_g fd)); cbn [mbind result_bind]; [|discriminate].
    destruct (float_column (calories fd)); cbn [mbind result_bind]; [|discriminate].
    destruct (float_column (carbs_g fd)); cbn [mbind result_bind]; [|discriminate].
    destruct (float_column (protein_g fd)); cbn [mbind result_bind]; [|discriminate].
    destruct (float_column (fat_g fd)); cbn [mbind result_bind]; [|discriminate].
    destruct (float_column (fiber_g fd)); cbn [mbind result_bind]; [|discriminate].
    destruct (float_column (sodium_mg fd)); cbn [mbind result_bind]; [|discriminate].
    intros [= <- <-]. split; [reflexivity|].
    cbn [food_items food_items_seq].
    rewrite (filter_none _ (food_items d ++ _)) by (intros x _ [_ Hx]; discriminate).
    cbn [head]. eexists. split; [reflexivity|].
    cbn [food_items]. rewrite !length_app. cbn [length]. lia.
Qed.

End StoreInvariants.

Section StoreInvariantSamples.
Import Database Store Keys.

(** The keys after tracking the sample food on the empty store. *)
Lemma primary_keys_sample : keys_ok tracked_cola.
Proof.
  destruct (primary_keys_stay_fresh lenient) as [Hempty Hrun].
  exact (proj1 (Hrun [(monday, Track coca_cola (NInt 250) 1)] empty_db Hempty)).
Defined.

(** Removing the one entry of the sample store. *)
Lemma untrack_sample :
  remove_from_daily_tracker 1 tracked_cola = (set_daily_tracker [] tracked_cola, true)
  /\ remove_from_daily_tracker 2 tracked_cola = (tracked_cola, false).
Proof.
  assert (Hkeys : keys_ok tracked_cola).
  { unfold keys_ok, fresh. apply (bool_decide_unpack _). vm_compute. reflexivity. }
  destruct (untrack_removes_that_entry 1 tracked_cola Hkeys) as [Hthere _].
  destruct (untrack_removes_that_entry 2 tracked_cola Hkeys) as [_ Hmissing].
  split.
  - eapply (Hthere [] _ []); vm_compute; reflexivity.
  - apply Hmissing. intros e He. vm_compute in He.
    apply list_elem_of_singleton in He. subst e. vm_compute. discriminate.
Defined.

(** 250 g of the sample food, tracked on the empty store, are listed with
    26.5 g of sugar. *)
Lemma tracked_food_sample :
  exists view,
    get_daily_tracker None 1 monday_later tracked_cola = [view]
    /\ v_name view = "Coca Cola"
    /\ v_sugar_g view = F64.decimal 265 10.
Proof.
  destruct (tracked_food_is_listed lenient coca_cola (NInt 250) 1 monday empty_db
              tracked_cola)
    as (view & q & a & Hlist & _ & Hname & _ & Hq & Hm & Hs & _).
  - vm_compute. reflexivity.
  - exists view. split; [exact (Hlist monday_later eq_refl)|]. split; [exact Hname|].
    vm_compute in Hq. injection Hq as <-.
    vm_compute in Hm. injection Hm as <-.
    injection Hs as <-. vm_compute. reflexivity.
Defined.

(** Clearing the day of the sample leaves the list of another user as it
    was. *)
Lemma clear_day_sample :
  get_daily_tracker (Some "2024-03-04") 1 monday
    (clear_daily_tracker None 1 monday_later cola_recomputed).1 = []
  /\ get_daily_tracker (Some "2024-03-04") 2 monday
       (clear_daily_tracker None 1 monday_later cola_recomputed).1
     = get_daily_tracker (Some "2024-03-04") 2 monday cola_recomputed.
Proof.
  destruct (clear_day_is_local None 1 monday_later cola_recomputed)
    as (Hempty & Hother & _).
  split; [apply Hempty|]. apply Hother. left. lia.
Defined.

(** Two attempts to save "Apple" for user 1, under two barcodes. *)
Lemma favorites_unique_sample :
  NoDup (shown_name <$>
           get_favorites 1
             (run lenient [(monday, Favorite apple 1);
                           (monday_later, Favorite apple_other_barcode 1)] empty_db)).
Proof.
  refine (proj2 (favorites_stay_unique lenient _ empty_db _) 1).
  split; constructor.
Defined.

(** "Apple" saved on the empty store is the one favorite listed. *)
Lemma favorite_listed_sample :
  head (get_favorites 1 apple_saved)
  = Some {| f_food := apple; f_favorite_id := 1 |}.
Proof.
  destruct (favorite_is_listed lenient apple 1 monday empty_db apple_saved)
    as (_ & _ & Hhead).
  - vm_compute. reflexivity.
  - apply Hhead. constructor.
Defined.

(** "Apple" removed from the favorites of the sample store. *)
Lemma favorites_removal_sample :
  remove_from_favorites 1 apple_saved = (set_favorite_foods [] apple_saved, true)
  /\ favorites_named 1 "Apple" (set_favorite_foods [] apple_saved) = [].
Proof.
  destruct (favorites_removal apple_saved) as [Hremove _].
  assert (Hkeys : keys_ok apple_saved).
  { unfold keys_ok, fresh. apply (bool_decide_unpack _). vm_compute. reflexivity. }
  assert (Hsplit : exists r, favorite_foods apple_saved = [] ++ r :: []
                             /\ FavoriteFood.id r = 1
                             /\ FavoriteFood.user_id r = 1
                             /\ FavoriteFood.food_name r = "Apple").
  { eexists. repeat split; vm_compute; reflexivity. }
  destruct Hsplit as (r & Hsplit & Hid & Hu & Hn).
  destruct (Hremove Hkeys [] r [] Hsplit) as [Hgone Hnone].
  rewrite Hid in Hgone. rewrite Hu, Hn in Hnone.
  split; [exact Hgone|]. apply Hnone.
  split; [|repeat constructor].
  rewrite Hsplit. cbn. repeat constructor. intros Hin. inversion Hin.
Defined.

(** Saving "Apple" twice gives food item 1 both times. *)
Lemma save_twice_sample :
  save_food_item lenient apple monday_later
    (save_food_item lenient apple monday empty_db).1
  = ((save_food_item lenient apple monday empty_db).1, Some 1).
Proof.
  destruct (save_food_item_twice lenient apple monday monday_later empty_db
              (save_food_item lenient apple monday empty_db).1 1)
    as (_ & Hstr & _).
  - vm_compute. reflexivity.
  - apply (Hstr "0000000000017"). reflexivity.
Defined.

End StoreInvariantSamples.

(** ** app.py: the figures of the tabs *)

Section AppFigures.
Import Database Store.

Lemma days_exceeded_bounds (rows : list insight_summary) :
  0 <= days_exceeded rows <= Z.of_nat (length rows).
Proof.
  unfold days_exceeded.
  pose proof (length_filter (fun r => s_exceeded_limit r = true) rows). lia.
Qed.

Lemma get_weekly_insights_length (user_id : Z) (days : nat) (d : db) :
  (length (get_weekly_insights user_id days d) <= days)%nat.
Proof.
  unfold get_weekly_insights. rewrite length_fmap, length_take. lia.
Qed.

Lemma days_exceeded_all (rows : list insight_summary) :
  days_exceeded rows = Z.of_nat (length rows) <->
  Forall (fun r => s_exceeded_limit r = true) rows.
Proof.
  unfold days_exceeded. induction rows as [| r rows IH]; [split; [constructor | reflexivity]|].
  rewrite filter_cons.
  pose proof (length_filter (fun r => s_exceeded_limit r = true) rows) as Hle.
  destruct (decide (s_exceeded_limit r = true)) as [Hr | Hr]; cbn [length].
  - split.
    + intros H. constructor; [exact Hr|]. apply IH. lia.
    + intros H. apply Forall_cons in H as [_ H]. apply IH in H. lia.
  - split; [lia|]. intros H. apply Forall_cons in H as [H _]. contradiction.
Qed.

Lemma days_exceeded_none (rows : list insight_summary) :
  days_exceeded rows = 0 <->
  Forall (fun r => s_exceeded_limit r = false) rows.
Proof.
  unfold days_exceeded. induction rows as [| r rows IH]; [split; [constructor | reflexivity]|].
  rewrite filter_cons.
  destruct (decide (s_exceeded_limit r = true)) as [Hr | Hr]; cbn [length].
  - split; [lia|]. intros H. apply Forall_cons in H as [H _]. congruence.
  - split.
    + intros H. constructor; [destruct (s_exceeded_limit r); congruence|].
      apply IH. exact H.
    + intros H. apply Forall_cons in H as [_ H]. apply IH. exact H.
Qed.

(** The figure [((total - k) / total) * 100] for [k] days out of
    [total <= 30]: its comparisons with 0 and 100, by enumeration. *)
Lemma compliance_table (total k : Z) :
  1 <= total <= 30 -> 0 <= k <= total ->
  let m := F64.mul (F64.div_Z (total - k) total) (F64.of_Z 100) in
  F64.leb F64.zero m = true
  /\ F64.leb m (F64.of_Z 100) = true
  /\ F64.eqb m (F64.of_Z 100) = (k =? 0)
  /\ F64.eqb m F64.zero = (k =? total)
  /\ F64.ltb F64.zero m = (k <? total).
Proof.
  intros Ht Hk.
  assert (Hall :
    forallb (fun t =>
      forallb (fun j =>
        let total := Z.of_nat t in
        let k := Z.of_nat j in
        let m := F64.mul (F64.div_Z (total - k) total) (F64.of_Z 100) in
        F64.leb F64.zero m && F64.leb m (F64.of_Z 100)
        && Bool.eqb (F64.eqb m (F64.of_Z 100)) (k =? 0)
        && Bool.eqb (F64.eqb m F64.zero) (k =? total)
        && Bool.eqb (F64.ltb F64.zero m) (k <? total))
        (seq 0 (S t)))
      (seq 1 30) = true) by (vm_compute; reflexivity).
  rewrite forallb_forall in Hall.
  specialize (Hall (Z.to_nat total)).
  rewrite forallb_forall in Hall.
  specialize (Hall ltac:(apply in_seq; lia) (Z.to_nat k) ltac:(apply in_seq; lia)).
  cbn zeta in Hall. rewrite !Z2Nat.id in Hall by lia.
  cbn zeta.
  repeat (apply andb_prop in Hall as [Hall ?]).
  repeat match goal with
         | H : Bool.eqb _ _ = true |- _ => apply Bool.eqb_prop in H
         end.
  auto.
Qed.

(** X21: The weekly figure of the tracker tab divides by 7 whatever the number
    of days on record. Over the rows [get_weekly_insights(days=7)] returns
    it lies between 0 and 100, it is 100 exactly when no returned day
    exceeded the limit and 0 exactly when seven days are returned and all
    exceeded it; with fewer than seven days on record it is positive even
    if every recorded day exceeded the limit. *)
Theorem weekly_compliance_counts_missing_days (user_id : Z) (d : db) :
  let rows := get_weekly_insights user_id 7 d in
  F64.leb F64.zero (weekly_compliance rows) = true
  /\ F64.leb (weekly_compliance rows) (F64.of_Z 100) = true
  /\ (F64.eqb (weekly_compliance rows) (F64.of_Z 100) = true
      <-> Forall (fun r => s_exceeded_limit r = false) rows)
  /\ (F64.eqb (weekly_compliance rows) F64.zero = true
      <-> length rows = 7%nat /\ Forall (fun r => s_exceeded_limit r = true) rows)
  /\ ((length rows < 7)%nat -> F64.ltb F64.zero (weekly_compliance rows) = true).
Proof.
  cbn zeta.
  pose proof (get_weekly_insights_length user_id 7 d) as Hlen.
  set (rows := get_weekly_insights user_id 7 d) in *. clearbody rows.
  pose proof (days_exceeded_bounds rows) as Hk.
  rewrite <- days_exceeded_none, <- (days_exceeded_all rows).
  unfold weekly_compliance.
  destruct (compliance_table 7 (days_exceeded rows) ltac:(lia) ltac:(lia))
    as (H0 & H100 & Heq100 & Heq0 & Hpos).
  cbn zeta in *. rewrite Heq100, Heq0, Hpos.
  split; [exact H0|]. split; [exact H100|].
  rewrite Z.eqb_eq, Z.eqb_eq, Z.ltb_lt.
  split; [tauto|]. split; [lia | lia].
Qed.

(** X22: The monthly figure of the insights tab, shown when
    [get_weekly_insights(days=30)] returns a row, divides by the number of
    days returned: it lies between 0 and 100, it is 100 exactly when no
    returned day exceeded the limit and 0 exactly when every returned day
    did. *)
Theorem monthly_compliance_is_a_share (user_id : Z) (d : db) :
  let rows := get_weekly_insights user_id 30 d in
  rows <> [] ->
  F64.leb F64.zero (monthly_compliance rows) = true
  /\ F64.leb (monthly_compliance rows) (F64.of_Z 100) = true
  /\ (F64.eqb (monthly_compliance rows) (F64.of_Z 100) = true
      <-> Forall (fun r => s_exceeded_limit r = false) rows)
  /\ (F64.eqb (monthly_compliance rows) F64.zero = true
      <-> Forall (fun r => s_exceeded_limit r = true) rows).
Proof.
  cbn zeta.
  pose proof (get_weekly_insights_length user_id 30 d) as Hlen.
  set (rows := get_weekly_insights user_id 30 d) in *. clearbody rows.
  intros Hrows.
  assert (Hpos : (0 < length rows)%nat) by (destruct rows; [contradiction | cbn; lia]).
  pose proof (days_exceeded_bounds rows) as Hk.
  rewrite <- days_exceeded_none, <- (days_exceeded_all rows).
  unfold monthly_compliance. cbn zeta.
  destruct (compliance_table (Z.of_nat (length rows)) (days_exceeded rows)
              ltac:(lia) ltac:(lia))
    as (H0 & H100 & Heq100 & Heq0 & _).
  cbn zeta in *. rewrite Heq100, Heq0.
  split; [exact H0|]. split; [exact H100|].
  rewrite !Z.eqb_eq. tauto.
Qed.

(** X23: The banner of the tracker tab and the stored aggregate agree when the
    day is recomputed: nothing is shown exactly when the recomputation
    writes nothing, and otherwise the row it writes has [exceeded_limit]
    set exactly when the banner says the limit is exceeded, both being
    taken from the same sum of the day's entries, and its [food_count] is
    the number of items listed. *)
Theorem banner_agrees_with_insight (date : option string) (user_id : Z)
    (clk : clock) (d : db) :
  let day := default (today clk) date in
  let shown := tracker_banner (get_daily_tracker (Some day) user_id clk d) in
  (shown = None <-> save_daily_insight date user_id clk d = (d, false))
  /\ (shown <> None ->
      exists d1 row,
        save_daily_insight date user_id clk d = (d1, true)
        /\ head (insight_rows user_id day d1) = Some row
        /\ (SugarInsight.exceeded_limit row = true <-> shown = Some Exceeded)
        /\ SugarInsight.total_sugar_g row
           = py_sum (v_sugar_g <$> get_daily_tracker (Some day) user_id clk d)
        /\ SugarInsight.food_count row
           = Z.of_nat (length (get_daily_tracker (Some day) user_id clk d))).
Proof.
  cbn zeta. set (day := default (today clk) date).
  unfold get_daily_tracker. change (default (today clk) (Some day)) with day.
  assert (Hsum : forall entries : list DailyTracker.t,
            v_sugar_g <$> (tracker_view_of <$> entries) = DailyTracker.sugar_g <$> entries).
  { intros entries. rewrite <- list_fmap_compose. reflexivity. }
  destruct (tracker_entries user_id day d) as [| e l] eqn:Hentries.
  - split.
    + split; [intros _|reflexivity].
      unfold save_daily_insight. fold day. rewrite Hentries. reflexivity.
    + intros Hshown. exfalso. apply Hshown. reflexivity.
  - destruct (save_daily_insight_row date user_id clk d e l Hentries)
      as (d1 & row & Hsave & Hhead & Hts & _ & Hcount & Hex & _).
    fold day in Hhead. split.
    + split.
      * cbn [fmap list_fmap]. unfold tracker_banner.
        destruct (F64.ltb (F64.of_Z 25) _); [intros [=]|].
        destruct (F64.ltb (F64.of_Z 20) _); intros [=].
      * rewrite Hsave. discriminate.
    + intros _. exists d1, row. split; [exact Hsave|]. split; [exact Hhead|].
      rewrite Hsum, length_fmap. split; [|split; [exact Hts | exact Hcount]].
      rewrite Hex.
      unfold tracker_banner. rewrite Hsum.
      cbn [fmap list_fmap]. unfold who_limit.
      destruct (F64.ltb (F64.of_Z 25) _); [split; reflexivity|].
      destruct (F64.ltb (F64.of_Z 20) _); split; discriminate.
Qed.

(** The store of three days recorded for user 1, two of them over the limit. *)
Lemma monthly_compliance_sample :
  F64.leb F64.zero (monthly_compliance (get_weekly_insights 1 30 three_days)) = true
  /\ F64.leb (monthly_compliance (get_weekly_insights 1 30 three_days)) (F64.of_Z 100)
     = true.
Proof.
  destruct (monthly_compliance_is_a_share 1 three_days) as (H0 & H100 & _).
  - vm_compute. discriminate.
  - split; assumption.
Defined.

(** Three recorded days, two of them over the limit: the weekly figure is
    above zero. *)
Lemma weekly_compliance_sample :
  F64.ltb F64.zero (weekly_compliance (get_weekly_insights 1 7 three_days)) = true.
Proof.
  destruct (weekly_compliance_counts_missing_days 1 three_days) as (_ & _ & _ & _ & H).
  apply H. vm_compute. lia.
Defined.

(** The day of the sample: the banner and the stored row both say
    exceeded. *)
Lemma banner_sample :
  exists d1 row,
    save_daily_insight None 1 monday tracked_cola = (d1, true)
    /\ head (insight_rows 1 "2024-03-04" d1) = Some row
    /\ SugarInsight.exceeded_limit row = true.
Proof.
  destruct (banner_agrees_with_insight None 1 monday tracked_cola) as [_ Hshown].
  destruct Hshown as (d1 & row & Hsave & Hhead & Hex & _).
  - vm_compute. discriminate.
  - exists d1, row. split; [exact Hsave|]. split; [exact Hhead|].
    apply Hex. vm_compute. reflexivity.
Defined.

End AppFigures.
